(** * TaskTracker: order lifecycle, assignment and location ledger

    A shallow embedding of the server side of the delivery tracker:
    the tables of [shared/schema.ts], the row store of
    [server/storage.ts] ([DatabaseStorage]) and the request and socket
    handlers of [server/routes.ts] ([registerRoutes]).

    Conventions of the embedding.
    - A table is the list of its rows, oldest first.  [serial] keys are
      drawn from a per-table sequence kept next to the rows.
    - An [async] storage method or handler is a computation in the
      monad [M]: it threads the database, the journal of the write
      statements sent to it and the socket outbox, and it either
      returns or throws.  What was written before a throw stays
      written, as with the autocommit statements of the source.
    - [new Date()], [Date.now()] and the database's [now()] read the
      clock.  A computation receives the reading [now] (milliseconds
      since the epoch) as an argument; every reading taken inside one
      storage call is that value.
    - Arithmetic on the local time of a [Date] depends on the time
      zone of the host, a [TimeZone]; a statement holds for every host
      unless it names one, and the examples run on [utc_host].
    - A JavaScript [number] carrying a coordinate is the rational it
      denotes (finite numbers only).  The text sent for a [decimal]
      column of [orders] is what PostgreSQL makes of it, a [Numeric].
      A nullable column and an optional property are an [option];
      [None] stands for SQL [NULL], for [null] and for [undefined], and
      the comparisons of the source are written out where the three
      differ.
    - [ORDER BY] fixes the order of rows up to rows with equal keys.
      The storage methods run with [orderBy_desc], one of the orders
      the database may return; [ordered_by_desc] describes all of
      them, and a statement that depends on the choice is written
      with it. *)

From Stdlib Require Import ZArith QArith Qround List String Bool Lia Lqa.
From Stdlib Require Import Permutation Sorted DecimalString DecimalZ DecimalPos Qabs.
Import ListNotations.

Local Open Scope string_scope.
Local Open Scope list_scope.
Local Open Scope Z_scope.

(** ** Tables of [shared/schema.ts] *)

Module User.
Record t := mk {
  id : Z;
  username : string;
  role : string;          (* 'vendor', 'delivery', 'customer' *)
  isActive : bool         (* NULL reads as false in [!user.isActive] *)
}.
End User.

Module Vendor.
Record t := mk {
  id : Z;
  userId : Z
}.
End Vendor.

Module DeliveryPartner.
Record t := mk {
  id : Z;
  userId : Z;
  isOnline : bool;
  currentLatitude : option Q;
  currentLongitude : option Q;
  lastLocationUpdate : option Z
}.
End DeliveryPartner.

(** The value of a [decimal] column.  drizzle hands the text it is
    given to PostgreSQL, which reads it as a number or as [NaN], or
    refuses it: text without numeric syntax, or an infinity, which no
    column with a precision holds.  A stored value is never refused. *)
Inductive Numeric :=
| number (q : Q)
| NaN
| refused (text : string).

(** The columns of [orders] that no storage method reads or writes
    after the insert. *)
Record OrderDetails := {
  customerName : string;
  customerPhone : string;
  deliveryAddress : string;
  pickupAddress : string;
  orderTotal : Numeric;
  deliveryLatitude : option Numeric;
  deliveryLongitude : option Numeric;
  pickupLatitude : option Numeric;
  pickupLongitude : option Numeric
}.

Module Order.
Record t := mk {
  id : Z;
  orderNumber : string;
  customerId : Z;
  vendorId : Z;
  deliveryPartnerId : option Z;
  details : OrderDetails;
  status : string;
  estimatedDeliveryTime : option Z;
  actualDeliveryTime : option Z;
  createdAt : Z;
  updatedAt : Z
}.
End Order.

Module LocationUpdate.
Record t := mk {
  id : Z;
  deliveryPartnerId : Z;
  orderId : option Z;
  latitude : Q;
  longitude : Q;
  timestamp : Z
}.
End LocationUpdate.

(** [insertOrderSchema]: [orders] without [id], [orderNumber],
    [createdAt] and [updatedAt]. *)
Record InsertOrder := {
  io_customerId : Z;
  io_vendorId : Z;
  io_deliveryPartnerId : option Z;
  io_details : OrderDetails;
  io_status : option string;
  io_estimatedDeliveryTime : option Z;
  io_actualDeliveryTime : option Z
}.

(** [insertLocationUpdateSchema]: [location_updates] without [id] and
    [timestamp].  The two coordinates are sent as the decimal text of a
    number, [latitude.toString()], and are kept here as that number;
    coordinates that are no number (the text [NaN], which the columns
    store, or text that they refuse) are outside this record. *)
Record InsertLocationUpdate := {
  il_deliveryPartnerId : Z;
  il_latitude : Q;
  il_longitude : Q;
  il_orderId : option Z
}.

(** [updateLocationSchema] and the payload of [location_update], with
    numbers as coordinates. *)
Record LocationData := {
  ld_latitude : Q;
  ld_longitude : Q;
  ld_orderId : option Z
}.

Definition OrderStatus : list string :=
  ["pending"; "assigned"; "picked_up"; "in_transit"; "delivered"; "cancelled"].

(** ** The database *)

Record Db := {
  users : list User.t;
  vendors : list Vendor.t;
  deliveryPartners : list DeliveryPartner.t;
  orders : list Order.t;
  locationUpdates : list LocationUpdate.t;
  orders_id_seq : Z;
  location_updates_id_seq : Z
}.

Definition with_orders (d : Db) (os : list Order.t) : Db :=
  {| users := users d; vendors := vendors d;
     deliveryPartners := deliveryPartners d; orders := os;
     locationUpdates := locationUpdates d;
     orders_id_seq := orders_id_seq d;
     location_updates_id_seq := location_updates_id_seq d |}.

Definition with_deliveryPartners (d : Db) (ps : list DeliveryPartner.t) : Db :=
  {| users := users d; vendors := vendors d;
     deliveryPartners := ps; orders := orders d;
     locationUpdates := locationUpdates d;
     orders_id_seq := orders_id_seq d;
     location_updates_id_seq := location_updates_id_seq d |}.

(** ** Socket traffic *)

(** [user_<id>] and [role_<role>], the two rooms a connection joins. *)
Inductive Room :=
| user_ (id : Z)
| role_ (role : string).

(** [io.to(room)] reaches the members of a room, [socket] the
    connection the event came in on. *)
Inductive Target :=
| to (room : Room)
| socket (sid : Z).

Inductive Payload :=
| no_payload
| message (m : string)
| status_changed (orderId : Z) (status : string) (timestamp : Z)
| location_changed (orderId : Z) (latitude longitude : Q) (timestamp : Z).

Record Emit := {
  target : Target;
  event : string;
  payload : Payload
}.

(** What a call comes back with: a value, or the error it throws. *)
Inductive outcome (A : Type) :=
| Returned (a : A)
| Thrown (err : string).
Arguments Returned {A} a.
Arguments Thrown {A} err.

(** ** Query building blocks ([drizzle-orm]) *)

(** [eq(column, value)] on a [NOT NULL] integer column and on a nullable
    one; SQL's [NULL = v] is not true. *)
Definition eq_ {R} (column : R -> Z) (value : Z) : R -> bool :=
  fun r => column r =? value.

Definition eq_nullable {R} (column : R -> option Z) (value : Z) : R -> bool :=
  fun r => match column r with Some c => c =? value | None => false end.

(** [and(...conditions)]. *)
Definition and_ {R} (conditions : list (R -> bool)) : R -> bool :=
  fun r => forallb (fun c => c r) conditions.

(** [.orderBy(desc(column))]: rows by decreasing key.  The database
    leaves the order of rows with equal keys open.  [orderBy_desc] is
    one of the answers it may give, the one in which such rows keep
    their table order; [ordered_by_desc] below holds of every answer. *)
Fixpoint insert_desc {R} (key : R -> Z) (x : R) (l : list R) : list R :=
  match l with
  | [] => [x]
  | y :: ys => if key y <=? key x then x :: y :: ys
               else y :: insert_desc key x ys
  end.

Definition orderBy_desc {R} (key : R -> Z) (rows : list R) : list R :=
  fold_right (insert_desc key) [] rows.

(** The answers the database may give to [ORDER BY key DESC]: the
    rows by non-increasing key.  Rows with equal keys come in any
    order, and two statements need not agree on it. *)
Definition ordered_by_desc {R} (key : R -> Z) (rows answer : list R) : Prop :=
  Permutation answer rows
  /\ StronglySorted (fun a b => key a >= key b) answer.

(** [.limit(n)]. *)
Definition limit {R} (n : nat) (rows : list R) : list R := firstn n rows.

(** [const [row] = await ...; return row || undefined]. *)
Definition first_row {R} (rows : list R) : option R := hd_error rows.

(** [if (n) { ... n ... } else { ... }] on an optional number that is
    not [NaN]: [undefined], [null] and [0] are falsy. *)
Definition if_truthy {A} (n : option Z) (then_ : Z -> A) (else_ : A) : A :=
  match n with
  | Some v => if v =? 0 then else_ else then_ v
  | None => else_
  end.

(** [a === b] between an order column (a number or [null]) and a
    property of the session user (a number or [undefined]). *)
Definition strict_eq (a b : option Z) : bool :=
  match a, b with
  | Some x, Some y => x =? y
  | _, _ => false
  end.

(** ** Column types *)

(** PostgreSQL rounds a [numeric] to the scale of its column, ties away
    from zero. *)
Definition round_half_away (q : Q) : Z :=
  if Qle_bool 0 q then Qfloor (q + (1 # 2)) else - Qfloor (- q + (1 # 2)).

(** [decimal(column, { precision, scale })]: the stored value, or
    nothing when the rounded value needs more than [precision] digits
    (the statement then fails with a numeric field overflow). *)
Definition decimal (precision scale : Z) (q : Q) : option Q :=
  let n := round_half_away (q * inject_Z (10 ^ scale)) in
  if Z.abs n <? 10 ^ precision
  then Some (Qmake n (Z.to_pos (10 ^ scale)))
  else None.

(** A value sent for a [decimal] column: a number is rounded and
    must fit, [NaN] is stored as it is, anything else is refused. *)
Definition decimal_column (precision scale : Z) (v : Numeric) : outcome Numeric :=
  match v with
  | number q =>
      match decimal precision scale q with
      | Some q' => Returned (number q')
      | None => Thrown "numeric field overflow"
      end
  | NaN => Returned NaN
  | refused _ => Thrown "invalid input syntax for type numeric"
  end.

(** A column without [.notNull()] also takes [NULL]. *)
Definition nullable {A} (column : A -> outcome A) (v : option A)
    : outcome (option A) :=
  match v with
  | None => Returned None
  | Some x =>
      match column x with
      | Returned y => Returned (Some y)
      | Thrown err => Thrown err
      end
  end.

(** [`ORD-${Date.now()}`]. *)
Definition order_number_of (now : Z) : string :=
  String.append "ORD-" (NilZero.string_of_int (Z.to_int now)).

(** ** Write statements *)

(** The object given to [.set(...)] of an update of [orders]: the
    columns it names, with their new values. *)
Record OrderSet := {
  set_deliveryPartnerId : option Z;
  set_status : option string;
  set_estimatedDeliveryTime : option Z;
  set_actualDeliveryTime : option Z;
  set_updatedAt : option Z
}.

Record PartnerSet := {
  set_isOnline : option bool;
  set_currentLatitude : option Q;
  set_currentLongitude : option Q;
  set_lastLocationUpdate : option Z
}.

(** One statement sent to the database.  Every update of the source is
    [.update(table).set(...).where(eq(table.id, key))]. *)
Inductive Statement :=
| update_orders (set : OrderSet) (where_id : Z)
| update_deliveryPartners (set : PartnerSet) (where_id : Z)
| insert_orders (values : InsertOrder) (orderNumber : string) (updatedAt : Z)
| insert_locationUpdates (values : InsertLocationUpdate).

Definition or_keep {A} (new : option A) (old : A) : A :=
  match new with Some v => v | None => old end.

Definition or_keep_null {A} (new : option A) (old : option A) : option A :=
  match new with Some v => Some v | None => old end.

Definition set_order (s : OrderSet) (o : Order.t) : Order.t :=
  Order.mk (Order.id o) (Order.orderNumber o) (Order.customerId o)
    (Order.vendorId o)
    (or_keep_null (set_deliveryPartnerId s) (Order.deliveryPartnerId o))
    (Order.details o)
    (or_keep (set_status s) (Order.status o))
    (or_keep_null (set_estimatedDeliveryTime s) (Order.estimatedDeliveryTime o))
    (or_keep_null (set_actualDeliveryTime s) (Order.actualDeliveryTime o))
    (Order.createdAt o)
    (or_keep (set_updatedAt s) (Order.updatedAt o)).

Definition set_partner (s : PartnerSet) (p : DeliveryPartner.t) : DeliveryPartner.t :=
  DeliveryPartner.mk (DeliveryPartner.id p) (DeliveryPartner.userId p)
    (or_keep (set_isOnline s) (DeliveryPartner.isOnline p))
    (or_keep_null (set_currentLatitude s) (DeliveryPartner.currentLatitude p))
    (or_keep_null (set_currentLongitude s) (DeliveryPartner.currentLongitude p))
    (or_keep_null (set_lastLocationUpdate s) (DeliveryPartner.lastLocationUpdate p)).

(** [UPDATE table SET ... WHERE id = key]: the rows with that key are
    rewritten, the others are kept. *)
Definition update_where_id {R} (id : R -> Z) (f : R -> R) (key : Z)
    (rows : list R) : list R :=
  map (fun r => if id r =? key then f r else r) rows.

Definition has_id {R} (id : R -> Z) (key : Z) (rows : list R) : bool :=
  existsb (fun r => id r =? key) rows.

(** A nullable foreign key is satisfied by [NULL] and by the key of a
    row of the referenced table. *)
Definition references {R} (id : R -> Z) (key : option Z) (rows : list R) : bool :=
  match key with Some k => has_id id k rows | None => true end.

(** The row an insert into [orders] builds: [id] from the sequence,
    [status] defaulting to ['pending'], [createdAt] to [now()]. *)
Definition new_order (d : Db) (now : Z) (v : InsertOrder)
    (orderNumber : string) (updatedAt : Z) : Order.t :=
  Order.mk (orders_id_seq d) orderNumber (io_customerId v) (io_vendorId v)
    (io_deliveryPartnerId v) (io_details v)
    (or_keep (io_status v) "pending")
    (io_estimatedDeliveryTime v) (io_actualDeliveryTime v) now updatedAt.

(** The row an insert into [location_updates] would build; the two
    coordinates are still to be fitted to their columns. *)
Definition new_locationUpdate (d : Db) (now : Z) (v : InsertLocationUpdate)
    (lat lon : Q) : LocationUpdate.t :=
  LocationUpdate.mk (location_updates_id_seq d) (il_deliveryPartnerId v)
    (il_orderId v) lat lon now.

(** The values of an insert into [orders] as its [decimal] columns
    take them, or the error of the first column that refuses its
    value. *)
Definition order_columns (v : InsertOrder) : outcome InsertOrder :=
  let x := io_details v in
  match decimal_column 10 2 (orderTotal x) with
  | Thrown err => Thrown err
  | Returned total =>
  match nullable (decimal_column 10 8) (deliveryLatitude x) with
  | Thrown err => Thrown err
  | Returned dlat =>
  match nullable (decimal_column 11 8) (deliveryLongitude x) with
  | Thrown err => Thrown err
  | Returned dlon =>
  match nullable (decimal_column 10 8) (pickupLatitude x) with
  | Thrown err => Thrown err
  | Returned plat =>
  match nullable (decimal_column 11 8) (pickupLongitude x) with
  | Thrown err => Thrown err
  | Returned plon =>
      Returned
        {| io_customerId := io_customerId v;
           io_vendorId := io_vendorId v;
           io_deliveryPartnerId := io_deliveryPartnerId v;
           io_details :=
             {| customerName := customerName x;
                customerPhone := customerPhone x;
                deliveryAddress := deliveryAddress x;
                pickupAddress := pickupAddress x;
                orderTotal := total;
                deliveryLatitude := dlat;
                deliveryLongitude := dlon;
                pickupLatitude := plat;
                pickupLongitude := plon |};
           io_status := io_status v;
           io_estimatedDeliveryTime := io_estimatedDeliveryTime v;
           io_actualDeliveryTime := io_actualDeliveryTime v |}
  end end end end end.

Definition violates_unique_order_number (d : Db) (orderNumber : string) : bool :=
  existsb (fun o => String.eqb (Order.orderNumber o) orderNumber) (orders d).

(** What [.returning()] hands back: the row an insert wrote. *)
Inductive Returning :=
| no_rows
| order_row (o : Order.t)
| locationUpdate_row (l : LocationUpdate.t).

(** The effect of one statement at clock reading [now]: the new
    database, or the error the driver throws.  The constraints are
    those of the table definitions: [serial] keys, [unique],
    [varchar] length, [references] and [decimal] precision.  A value
    that does not fit its [decimal] column is refused before the
    statement runs; an insert that fails on a constraint of the table
    has still drawn its key from the sequence. *)
Definition run_statement (now : Z) (s : Statement) (d : Db)
    : outcome Returning * Db :=
  match s with
  | update_orders set key =>
      if has_id Order.id key (orders d)
         && negb (references DeliveryPartner.id (set_deliveryPartnerId set)
                    (deliveryPartners d))
      then (Thrown "violates foreign key constraint", d)
      else (Returned no_rows,
            with_orders d (update_where_id Order.id (set_order set) key (orders d)))
  | update_deliveryPartners set key =>
      match set_currentLatitude set, set_currentLongitude set with
      | Some lat, Some lon =>
          match decimal 10 8 lat, decimal 11 8 lon with
          | Some lat', Some lon' =>
              let set' := {| set_isOnline := set_isOnline set;
                             set_currentLatitude := Some lat';
                             set_currentLongitude := Some lon';
                             set_lastLocationUpdate := set_lastLocationUpdate set |} in
              (Returned no_rows,
               with_deliveryPartners d
                 (update_where_id DeliveryPartner.id (set_partner set') key
                    (deliveryPartners d)))
          | _, _ => (Thrown "numeric field overflow", d)
          end
      | _, _ =>
          (Returned no_rows,
           with_deliveryPartners d
             (update_where_id DeliveryPartner.id (set_partner set) key
                (deliveryPartners d)))
      end
  | insert_orders v orderNumber updatedAt =>
      let d' := {| users := users d; vendors := vendors d;
                   deliveryPartners := deliveryPartners d;
                   orders := orders d;
                   locationUpdates := locationUpdates d;
                   orders_id_seq := orders_id_seq d + 1;
                   location_updates_id_seq := location_updates_id_seq d |} in
      match order_columns v with
      | Thrown err => (Thrown err, d)
      | Returned v' =>
          if (20 <? Z.of_nat (String.length orderNumber))
          then (Thrown "value too long for type character varying(20)", d')
          else if violates_unique_order_number d orderNumber
          then (Thrown "duplicate key value violates unique constraint", d')
          else if negb (has_id User.id (io_customerId v) (users d)
                        && has_id Vendor.id (io_vendorId v) (vendors d)
                        && references DeliveryPartner.id (io_deliveryPartnerId v)
                             (deliveryPartners d))
          then (Thrown "violates foreign key constraint", d')
          else let o := new_order d now v' orderNumber updatedAt in
               (Returned (order_row o), with_orders d' (orders d ++ [o]))
      end
  | insert_locationUpdates v =>
      let d' := {| users := users d; vendors := vendors d;
                   deliveryPartners := deliveryPartners d;
                   orders := orders d;
                   locationUpdates := locationUpdates d;
                   orders_id_seq := orders_id_seq d;
                   location_updates_id_seq := location_updates_id_seq d + 1 |} in
      match decimal 10 8 (il_latitude v), decimal 11 8 (il_longitude v) with
      | Some lat, Some lon =>
          if negb (has_id DeliveryPartner.id (il_deliveryPartnerId v)
                     (deliveryPartners d)
                   && references Order.id (il_orderId v) (orders d))
          then (Thrown "violates foreign key constraint", d')
          else let l := new_locationUpdate d now v lat lon in
               (Returned (locationUpdate_row l),
                {| users := users d; vendors := vendors d;
                   deliveryPartners := deliveryPartners d;
                   orders := orders d;
                   locationUpdates := locationUpdates d ++ [l];
                   orders_id_seq := orders_id_seq d;
                   location_updates_id_seq := location_updates_id_seq d + 1 |})
      | _, _ => (Thrown "numeric field overflow", d)
      end
  end.

(** ** The monad of handlers and storage methods *)

Record World := {
  db : Db;
  journal : list Statement;   (* write statements sent, oldest first *)
  outbox : list Emit          (* socket events emitted, oldest first *)
}.

Definition M (A : Type) := World -> outcome A * World.

Definition ret {A} (a : A) : M A := fun w => (Returned a, w).

Definition throw {A} (err : string) : M A := fun w => (Thrown err, w).

Definition bind {A B} (m : M A) (k : A -> M B) : M B :=
  fun w => match m w with
           | (Returned a, w') => k a w'
           | (Thrown e, w') => (Thrown e, w')
           end.

(** [try { m } catch (error) { handler }]. *)
Definition try_catch {A} (m : M A) (handler : string -> M A) : M A :=
  fun w => match m w with
           | (Returned a, w') => (Returned a, w')
           | (Thrown e, w') => handler e w'
           end.

(** [await db.select()...]: reads the database. *)
Definition query {A} (f : Db -> A) : M A := fun w => (Returned (f (db w)), w).

(** [await db.update(...)...] and [await db.insert(...)...]: sends one
    statement. *)
Definition execute (now : Z) (s : Statement) : M Returning :=
  fun w => let (r, d) := run_statement now s (db w) in
           (r, {| db := d; journal := journal w ++ [s]; outbox := outbox w |}).

(** [io.to(room).emit(ev, p)] and [socket.emit(ev, p)]. *)
Definition emit (t : Target) (ev : string) (p : Payload) : M unit :=
  fun w => (Returned tt,
            {| db := db w; journal := journal w;
               outbox := outbox w ++ [{| target := t; event := ev; payload := p |}] |}).

Declare Scope monad_scope.
Delimit Scope monad_scope with monad.
Notation "x <- m ;; k" := (bind m (fun x => k))
  (at level 61, m at next level, right associativity) : monad_scope.
Notation "m ;; k" := (bind m (fun _ => k))
  (at level 61, right associativity) : monad_scope.
Local Open Scope monad_scope.

(** ** Local time ([Date]) *)

(** The time zone of the host.  [LocalTZA t true] is the offset of
    local time from UTC, in milliseconds, at the instant [t];
    [LocalTZA t false] is the offset with which the local time [t] is
    read back, which in the hour that a change of offset repeats or
    skips is the offset before the change. *)
Class TimeZone := { LocalTZA : Z -> bool -> Z }.

Definition msPerDay : Z := 86400000.
Definition msPerHour : Z := 3600000.
Definition msPerMinute : Z := 60000.
Definition msPerSecond : Z := 1000.

Definition Day (t : Z) : Z := t / msPerDay.
Definition HourFromTime (t : Z) : Z := (t / msPerHour) mod 24.
Definition MinFromTime (t : Z) : Z := (t / msPerMinute) mod 60.
Definition SecFromTime (t : Z) : Z := (t / msPerSecond) mod 60.
Definition msFromTime (t : Z) : Z := t mod msPerSecond.

Definition MakeTime (hour min sec ms : Z) : Z :=
  hour * msPerHour + min * msPerMinute + sec * msPerSecond + ms.

Definition MakeDate (day time : Z) : Z := day * msPerDay + time.

Definition LocalTime `{TimeZone} (t : Z) : Z := t + LocalTZA t true.

Definition UTC `{TimeZone} (t : Z) : Z := t - LocalTZA t false.

(** [date.getMinutes()] and [date.setMinutes(min)] on the time value
    [t] of a date; the time values met here are readings of the clock,
    far from the ends of the range that [TimeClip] cuts off. *)
Definition getMinutes `{TimeZone} (t : Z) : Z := MinFromTime (LocalTime t).

Definition setMinutes `{TimeZone} (t min : Z) : Z :=
  let t := LocalTime t in
  UTC (MakeDate (Day t)
         (MakeTime (HourFromTime t) min (SecFromTime t) (msFromTime t))).

(** ** [DatabaseStorage] ([server/storage.ts]) *)

Module storage.

Definition getUser (id : Z) : M (option User.t) :=
  query (fun d => first_row (filter (eq_ User.id id) (users d))).

Definition getVendor (id : Z) : M (option Vendor.t) :=
  query (fun d => first_row (filter (eq_ Vendor.id id) (vendors d))).

Definition getVendorByUserId (userId : Z) : M (option Vendor.t) :=
  query (fun d => first_row (filter (eq_ Vendor.userId userId) (vendors d))).

Definition getDeliveryPartner (id : Z) : M (option DeliveryPartner.t) :=
  query (fun d =>
    first_row (filter (eq_ DeliveryPartner.id id) (deliveryPartners d))).

Definition getDeliveryPartnerByUserId (userId : Z) : M (option DeliveryPartner.t) :=
  query (fun d =>
    first_row (filter (eq_ DeliveryPartner.userId userId) (deliveryPartners d))).

Definition updateDeliveryPartnerLocation (now : Z) (partnerId : Z)
    (latitude longitude : Q) : M unit :=
  execute now
    (update_deliveryPartners
       {| set_isOnline := None;
          set_currentLatitude := Some latitude;
          set_currentLongitude := Some longitude;
          set_lastLocationUpdate := Some now |}
       partnerId) ;;
  ret tt.

Definition updateDeliveryPartnerStatus (now : Z) (partnerId : Z)
    (isOnline : bool) : M unit :=
  execute now
    (update_deliveryPartners
       {| set_isOnline := Some isOnline;
          set_currentLatitude := None;
          set_currentLongitude := None;
          set_lastLocationUpdate := None |}
       partnerId) ;;
  ret tt.

Definition createOrder (now : Z) (order : InsertOrder) : M Order.t :=
  let orderNumber := order_number_of now in
  rows <- execute now (insert_orders order orderNumber now) ;;
  match rows with
  | order_row newOrder => ret newOrder
  | _ => throw "no row returned"
  end.

Definition getOrder (id : Z) : M (option Order.t) :=
  query (fun d => first_row (filter (eq_ Order.id id) (orders d))).

Definition getOrderByNumber (orderNumber : string) : M (option Order.t) :=
  query (fun d =>
    first_row (filter (fun o => String.eqb (Order.orderNumber o) orderNumber)
                 (orders d))).

Definition updateOrderStatus (now : Z) (orderId : Z) (status : string) : M unit :=
  let updateData :=
    {| set_deliveryPartnerId := None;
       set_status := Some status;
       set_estimatedDeliveryTime := None;
       set_actualDeliveryTime := None;
       set_updatedAt := Some now |} in
  let updateData :=
    if String.eqb status "delivered"
    then {| set_deliveryPartnerId := set_deliveryPartnerId updateData;
            set_status := set_status updateData;
            set_estimatedDeliveryTime := set_estimatedDeliveryTime updateData;
            set_actualDeliveryTime := Some now;
            set_updatedAt := set_updatedAt updateData |}
    else updateData in
  execute now (update_orders updateData orderId) ;;
  ret tt.

(** The estimate is the reading of the clock moved on by thirty
    minutes of local time. *)
Definition assignDeliveryPartner `{TimeZone} (now : Z) (orderId partnerId : Z)
    : M unit :=
  let estimatedDeliveryTime := now in
  let estimatedDeliveryTime :=
    setMinutes estimatedDeliveryTime (getMinutes estimatedDeliveryTime + 30) in
  execute now
    (update_orders
       {| set_deliveryPartnerId := Some partnerId;
          set_status := Some "assigned";
          set_estimatedDeliveryTime := Some estimatedDeliveryTime;
          set_actualDeliveryTime := None;
          set_updatedAt := Some now |}
       orderId) ;;
  ret tt.

Definition createLocationUpdate (now : Z) (update : InsertLocationUpdate)
    : M LocationUpdate.t :=
  rows <- execute now (insert_locationUpdates update) ;;
  match rows with
  | locationUpdate_row newUpdate => ret newUpdate
  | _ => throw "no row returned"
  end.

Definition getLatestLocationForPartner (partnerId : Z) : M (option LocationUpdate.t) :=
  query (fun d =>
    first_row
      (limit 1
         (orderBy_desc LocationUpdate.timestamp
            (filter (eq_ LocationUpdate.deliveryPartnerId partnerId)
               (locationUpdates d))))).

Definition getLocationHistory (partnerId : Z) (orderId : option Z)
    : M (list LocationUpdate.t) :=
  let conditions := [eq_ LocationUpdate.deliveryPartnerId partnerId] in
  let conditions :=
    if_truthy orderId
      (fun orderId => conditions ++ [eq_nullable LocationUpdate.orderId orderId])
      conditions in
  query (fun d =>
    orderBy_desc LocationUpdate.timestamp
      (filter (and_ conditions) (locationUpdates d))).

End storage.

(** ** Sessions and responses ([server/routes.ts]) *)

(** [req.user] and [socket.data.user].  The two profile ids are
    optional properties: [None] is [undefined]. *)
Record SessionUser := {
  su_id : Z;
  su_username : string;
  su_role : string;
  su_vendorId : option Z;
  su_deliveryPartnerId : option Z
}.

Inductive Json :=
| json_message (m : string)
| json_order (o : Order.t).

(** [res.status(code).json(body)]; [res.json(body)] answers 200. *)
Record Response := {
  code : Z;
  json : Json
}.

Definition respond (c : Z) (m : string) : Response :=
  {| code := c; json := json_message m |}.

Section Authentication.

(** [jwt.verify(token, JWT_SECRET)]: the [userId] of the signed
    claim, or nothing when it throws. *)
Variable jwt_verify : string -> option Z.

(** [authenticateToken]: the response that ends the request, or the
    user it attaches before [next()]. *)
Definition authenticateToken (token : option string) : M (Response + SessionUser) :=
  match token with
  | None => ret (inl (respond 401 "Access token required"))
  | Some token =>
      match jwt_verify token with
      | None => ret (inl (respond 403 "Invalid token"))
      | Some userId =>
          user <- storage.getUser userId ;;
          match user with
          | None => ret (inl (respond 401 "Invalid or inactive user"))
          | Some user =>
              if negb (User.isActive user)
              then ret (inl (respond 401 "Invalid or inactive user"))
              else
                let req_user vendorId deliveryPartnerId :=
                  {| su_id := User.id user;
                     su_username := User.username user;
                     su_role := User.role user;
                     su_vendorId := vendorId;
                     su_deliveryPartnerId := deliveryPartnerId |} in
                (* Add vendor/partner ID if applicable *)
                if String.eqb (User.role user) "vendor" then
                  vendor <- storage.getVendorByUserId (User.id user) ;;
                  ret (inr (req_user (option_map Vendor.id vendor) None))
                else if String.eqb (User.role user) "delivery" then
                  partner <- storage.getDeliveryPartnerByUserId (User.id user) ;;
                  ret (inr (req_user None (option_map DeliveryPartner.id partner)))
                else ret (inr (req_user None None))
          end
      end
  end.

(** The [io.use] middleware: the error given to [next], or the user
    stored in [socket.data.user]. *)
Definition io_use (token : option string) : M (string + SessionUser) :=
  match token with
  | None => ret (inl "Authentication error")
  | Some token =>
      match jwt_verify token with
      | None => ret (inl "Authentication error")
      | Some userId =>
          user <- storage.getUser userId ;;
          match user with
          | None => ret (inl "Invalid user")
          | Some user =>
              if negb (User.isActive user)
              then ret (inl "Invalid user")
              else ret (inr {| su_id := User.id user;
                               su_username := User.username user;
                               su_role := User.role user;
                               su_vendorId := None;
                               su_deliveryPartnerId := None |})
          end
      end
  end.

End Authentication.

(** [requireRole(roles)]. *)
Definition requireRole (roles : list string) (user : SessionUser) : bool :=
  existsb (String.eqb (su_role user)) roles.

(** [updateOrderStatusSchema.parse(req.body)]. *)
Definition updateOrderStatusSchema (status : string) : M string :=
  if existsb (String.eqb status) OrderStatus
  then ret status
  else throw "Invalid enum value".

(** [updateLocationSchema.parse(req.body)]. *)
Definition updateLocationSchema (body : LocationData) : M LocationData :=
  if Qle_bool (-90) (ld_latitude body) && Qle_bool (ld_latitude body) 90
     && Qle_bool (-180) (ld_longitude body) && Qle_bool (ld_longitude body) 180
  then ret body
  else throw "Number out of range".

(** The permission check shared by the two status-update handlers. *)
Definition canUpdate (user : SessionUser) (order : Order.t) : bool :=
  (String.eqb (su_role user) "vendor"
   && strict_eq (Some (Order.vendorId order)) (su_vendorId user))
  || (String.eqb (su_role user) "delivery"
      && strict_eq (Order.deliveryPartnerId order) (su_deliveryPartnerId user)).

(** ** Request handlers *)

(** [POST /api/orders], after [authenticateToken]. *)
Definition post_orders (now : Z) (user : SessionUser) (body : InsertOrder)
    : M Response :=
  if negb (requireRole ["vendor"; "customer"] user)
  then ret (respond 403 "Insufficient permissions")
  else
    try_catch
      (let orderData := body in
       let orderData :=
         if String.eqb (su_role user) "vendor"
         then if_truthy (su_vendorId user)
                (fun vendorId =>
                   {| io_customerId := io_customerId orderData;
                      io_vendorId := vendorId;
                      io_deliveryPartnerId := io_deliveryPartnerId orderData;
                      io_details := io_details orderData;
                      io_status := io_status orderData;
                      io_estimatedDeliveryTime := io_estimatedDeliveryTime orderData;
                      io_actualDeliveryTime := io_actualDeliveryTime orderData |})
                orderData
         else orderData in
       let orderData :=
         if String.eqb (su_role user) "customer"
         then {| io_customerId := su_id user;
                 io_vendorId := io_vendorId orderData;
                 io_deliveryPartnerId := io_deliveryPartnerId orderData;
                 io_details := io_details orderData;
                 io_status := io_status orderData;
                 io_estimatedDeliveryTime := io_estimatedDeliveryTime orderData;
                 io_actualDeliveryTime := io_actualDeliveryTime orderData |}
         else orderData in
       order <- storage.createOrder now orderData ;;
       ret {| code := 200; json := json_order order |})
      (fun error => ret (respond 400 error)).

(** [PATCH /api/orders/:id/status], after [authenticateToken]. *)
Definition patch_order_status (now : Z) (user : SessionUser) (id : Z)
    (body_status : string) : M Response :=
  try_catch
    (status <- updateOrderStatusSchema body_status ;;
     let orderId := id in
     order <- storage.getOrder orderId ;;
     match order with
     | None => ret (respond 404 "Order not found")
     | Some order =>
         (* Check permissions *)
         if negb (canUpdate user order)
         then ret (respond 403 "Unauthorized")
         else
           storage.updateOrderStatus now orderId status ;;
           ret (respond 200 "Order status updated")
     end)
    (fun error => ret (respond 400 error)).

(** [PATCH /api/orders/:id/assign], after [authenticateToken]. *)
Definition patch_order_assign `{TimeZone} (now : Z) (user : SessionUser) (id : Z)
    (deliveryPartnerId : Z) : M Response :=
  if negb (requireRole ["vendor"] user)
  then ret (respond 403 "Insufficient permissions")
  else
    try_catch
      (let orderId := id in
       order <- storage.getOrder orderId ;;
       match order with
       | None => ret (respond 404 "Order not found")
       | Some order =>
           if negb (strict_eq (Some (Order.vendorId order)) (su_vendorId user))
           then ret (respond 403 "Unauthorized")
           else
             partner <- storage.getDeliveryPartner deliveryPartnerId ;;
             match partner with
             | None => ret (respond 400 "Delivery partner not available")
             | Some partner =>
                 if negb (DeliveryPartner.isOnline partner)
                 then ret (respond 400 "Delivery partner not available")
                 else
                   storage.assignDeliveryPartner now orderId deliveryPartnerId ;;
                   ret (respond 200 "Delivery partner assigned")
             end
       end)
      (fun _ => ret (respond 400 "Assignment failed")).

(** [POST /api/location/update], after [authenticateToken]. *)
Definition post_location_update (now : Z) (user : SessionUser)
    (body : LocationData) : M Response :=
  if negb (requireRole ["delivery"] user)
  then ret (respond 403 "Insufficient permissions")
  else
    try_catch
      (data <- updateLocationSchema body ;;
       if_truthy (su_deliveryPartnerId user)
         (fun deliveryPartnerId =>
            (* Update partner's current location *)
            storage.updateDeliveryPartnerLocation now deliveryPartnerId
              (ld_latitude data) (ld_longitude data) ;;
            (* Create location history entry *)
            storage.createLocationUpdate now
              {| il_deliveryPartnerId := deliveryPartnerId;
                 il_latitude := ld_latitude data;
                 il_longitude := ld_longitude data;
                 il_orderId := ld_orderId data |} ;;
            ret (respond 200 "Location updated"))
         (ret (respond 400 "Delivery partner profile not found")))
      (fun error => ret (respond 400 error)).

(** ** Socket handlers *)

(** [socket.on('location_update', ...)]; the payload is taken as it
    comes, no schema is applied to it. *)
Definition on_location_update (now : Z) (sid : Z) (user : SessionUser)
    (data : LocationData) : M unit :=
  try_catch
    (let latitude := ld_latitude data in
     let longitude := ld_longitude data in
     let orderId := ld_orderId data in
     (* Get delivery partner ID *)
     partner <- storage.getDeliveryPartnerByUserId (su_id user) ;;
     match partner with
     | None => ret tt
     | Some partner =>
         (* Update location in database *)
         storage.updateDeliveryPartnerLocation now (DeliveryPartner.id partner)
           latitude longitude ;;
         (* Create location history entry *)
         storage.createLocationUpdate now
           {| il_deliveryPartnerId := DeliveryPartner.id partner;
              il_latitude := latitude;
              il_longitude := longitude;
              il_orderId := orderId |} ;;
         (* Broadcast location update to relevant parties *)
         if_truthy orderId
           (fun orderId =>
              order <- storage.getOrder orderId ;;
              match order with
              | None => ret tt
              | Some order =>
                  (* Notify customer and vendor *)
                  emit (to (user_ (Order.customerId order))) "delivery_location_update"
                    (location_changed orderId latitude longitude now) ;;
                  vendor <- storage.getVendor (Order.vendorId order) ;;
                  match vendor with
                  | None => ret tt
                  | Some vendor =>
                      emit (to (user_ (Vendor.userId vendor))) "delivery_location_update"
                        (location_changed orderId latitude longitude now)
                  end
              end)
           (ret tt) ;;
         emit (socket sid) "location_update_success" no_payload
     end)
    (fun _ =>
       emit (socket sid) "location_update_error"
         (message "Failed to update location")).

(** [socket.on('order_status_update', ...)]. *)
Definition on_order_status_update (now : Z) (sid : Z) (user : SessionUser)
    (orderId : Z) (status : string) : M unit :=
  try_catch
    (order <- storage.getOrder orderId ;;
     match order with
     | None => ret tt
     | Some order =>
         (* Check permissions *)
         if negb (canUpdate user order) then ret tt
         else
           storage.updateOrderStatus now orderId status ;;
           (* Broadcast status update to all relevant parties *)
           emit (to (user_ (Order.customerId order))) "order_status_changed"
             (status_changed orderId status now) ;;
           vendor <- storage.getVendor (Order.vendorId order) ;;
           match vendor with
           | None => ret tt
           | Some vendor =>
               emit (to (user_ (Vendor.userId vendor))) "order_status_changed"
                 (status_changed orderId status now)
           end ;;
           if_truthy (Order.deliveryPartnerId order)
             (fun deliveryPartnerId =>
                partner <- storage.getDeliveryPartner deliveryPartnerId ;;
                match partner with
                | None => ret tt
                | Some partner =>
                    emit (to (user_ (DeliveryPartner.userId partner)))
                      "order_status_changed" (status_changed orderId status now)
                end)
             (ret tt) ;;
           emit (socket sid) "order_status_update_success" no_payload
     end)
    (fun _ =>
       emit (socket sid) "order_status_update_error"
         (message "Failed to update order status")).

(** The events a client sends. *)
Inductive SocketEvent :=
| location_update (data : LocationData)
| order_status_update (orderId : Z) (status : string).

(** [io.on('connection', ...)]: the listeners registered for the
    connection of [user], applied to one inbound event.  The
    [location_update] listener exists for the delivery role only. *)
Definition on_connection (now : Z) (sid : Z) (user : SessionUser)
    (e : SocketEvent) : M unit :=
  match e with
  | location_update data =>
      if String.eqb (su_role user) "delivery"
      then on_location_update now sid user data
      else ret tt
  | order_status_update orderId status =>
      on_order_status_update now sid user orderId status
  end.

(** A connection from handshake to one handled event: [io.use] admits
    it or not, and an admitted connection handles the event with the
    user the middleware stored. *)
Definition socket_session (jwt_verify : string -> option Z)
    (token : option string) (now : Z) (sid : Z) (e : SocketEvent) : M unit :=
  admitted <- io_use jwt_verify token ;;
  match admitted with
  | inl _ => ret tt
  | inr user => on_connection now sid user e
  end.

(** ** The assign handler as interleavable steps

    Each [await] of [PATCH /api/orders/:id/assign] is a point where
    another request may run.  [AssignPc] is the position of one request
    between its awaits. *)

Inductive AssignPc :=
| at_getOrder
| at_getDeliveryPartner
| at_assignDeliveryPartner
| answered (r : Response).

Record AssignRequest := {
  ar_user : SessionUser;
  ar_orderId : Z;
  ar_deliveryPartnerId : Z
}.

(** One step of a request: up to and including its next [await]. *)
Definition assign_step `{TimeZone} (now : Z) (req : AssignRequest) (pc : AssignPc)
    : M AssignPc :=
  match pc with
  | at_getOrder =>
      if negb (requireRole ["vendor"] (ar_user req))
      then ret (answered (respond 403 "Insufficient permissions"))
      else
        order <- storage.getOrder (ar_orderId req) ;;
        match order with
        | None => ret (answered (respond 404 "Order not found"))
        | Some order =>
            if negb (strict_eq (Some (Order.vendorId order))
                       (su_vendorId (ar_user req)))
            then ret (answered (respond 403 "Unauthorized"))
            else ret at_getDeliveryPartner
        end
  | at_getDeliveryPartner =>
      partner <- storage.getDeliveryPartner (ar_deliveryPartnerId req) ;;
      match partner with
      | None => ret (answered (respond 400 "Delivery partner not available"))
      | Some partner =>
          if negb (DeliveryPartner.isOnline partner)
          then ret (answered (respond 400 "Delivery partner not available"))
          else ret at_assignDeliveryPartner
      end
  | at_assignDeliveryPartner =>
      try_catch
        (storage.assignDeliveryPartner now (ar_orderId req)
           (ar_deliveryPartnerId req) ;;
         ret (answered (respond 200 "Delivery partner assigned")))
        (fun _ => ret (answered (respond 400 "Assignment failed")))
  | answered r => ret (answered r)
  end.

(** Two requests in flight.  A schedule names, step by step, which of
    the two runs next and the clock reading of that step. *)
Record Race := {
  first : AssignPc;
  second : AssignPc;
  world : World
}.

Definition race_step `{TimeZone} (req1 req2 : AssignRequest) (turn : bool * Z) (r : Race)
    : Race :=
  let (who, now) := turn in
  if who then
    match assign_step now req1 (first r) (world r) with
    | (Returned pc, w) => {| first := pc; second := second r; world := w |}
    | (Thrown _, w) =>
        {| first := answered (respond 400 "Assignment failed");
           second := second r; world := w |}
    end
  else
    match assign_step now req2 (second r) (world r) with
    | (Returned pc, w) => {| first := first r; second := pc; world := w |}
    | (Thrown _, w) =>
        {| first := first r;
           second := answered (respond 400 "Assignment failed"); world := w |}
    end.

Definition race `{TimeZone} (req1 req2 : AssignRequest) (schedule : list (bool * Z))
    (w : World) : Race :=
  fold_left (fun r turn => race_step req1 req2 turn r) schedule
    {| first := at_getOrder; second := at_getOrder; world := w |}.

(** A schedule lets both requests finish when each gets its three steps. *)
Definition complete (schedule : list (bool * Z)) : bool :=
  (3 <=? List.length (filter (fun t => Bool.eqb (fst t) true) schedule))%nat
  && (3 <=? List.length (filter (fun t => Bool.eqb (fst t) false) schedule))%nat.

(** ** Properties the statements below are written with *)



(** The order with key [id], as a read finds it. *)
Definition order_of (w : World) (id : Z) : option Order.t :=
  first_row (filter (eq_ Order.id id) (orders (db w))).

(** The column assignments [updateOrderStatus] sends, in closed form. *)
Definition updateData (now : Z) (status : string) : OrderSet :=
  {| set_deliveryPartnerId := None;
     set_status := Some status;
     set_estimatedDeliveryTime := None;
     set_actualDeliveryTime :=
       if String.eqb status "delivered" then Some now else None;
     set_updatedAt := Some now |}.

(** The column assignments [assignDeliveryPartner] sends. *)
Definition assignment `{TimeZone} (now partnerId : Z) : OrderSet :=
  {| set_deliveryPartnerId := Some partnerId;
     set_status := Some "assigned";
     set_estimatedDeliveryTime := Some (setMinutes now (getMinutes now + 30));
     set_actualDeliveryTime := None;
     set_updatedAt := Some now |}.

(** The [order_status_changed] events one applied status update
    publishes, in closed form: to the customer, to the vendor's user
    and, for an order with a partner, to the partner's user. *)
Definition status_broadcasts (d : Db) (order : Order.t) (orderId : Z)
    (status : string) (now : Z) : list Emit :=
  let changed room :=
    {| target := to (user_ room); event := "order_status_changed";
       payload := status_changed orderId status now |} in
  [changed (Order.customerId order)]
  ++ match first_row (filter (eq_ Vendor.id (Order.vendorId order)) (vendors d)) with
     | Some vendor => [changed (Vendor.userId vendor)]
     | None => []
     end
  ++ if_truthy (Order.deliveryPartnerId order)
       (fun deliveryPartnerId =>
          match first_row (filter (eq_ DeliveryPartner.id deliveryPartnerId)
                             (deliveryPartners d)) with
          | Some partner => [changed (DeliveryPartner.userId partner)]
          | None => []
          end)
       [].

(** The acknowledgment events of the status handler. *)
Definition is_status_ack (e : Emit) : bool :=
  String.eqb (event e) "order_status_update_success"
  || String.eqb (event e) "order_status_update_error".

(** Where a request to assign stands after [n] of its steps when none
    of its checks fails. *)
Definition stage (n : nat) : AssignPc :=
  match n with
  | 0%nat => at_getOrder
  | 1%nat => at_getDeliveryPartner
  | 2%nat => at_assignDeliveryPartner
  | _ => answered (respond 200 "Delivery partner assigned")
  end.

(** The write one request to assign sends: an update of the row with
    the order's key that names one of the two partners. *)
Definition assign_write `{TimeZone} (orderId p1 p2 : Z) (s : Statement) : Prop :=
  exists now p, (p = p1 \/ p = p2) /\ s = update_orders (assignment now p) orderId.

(** The last statement of a journal. *)
Definition last_error {A} (l : list A) : option A := hd_error (rev l).

(** The order carries what the assignment write [s] set. *)
Definition last_write_wins `{TimeZone} (o : Order.t) (s : Statement) : Prop :=
  exists now p, s = update_orders (assignment now p) (Order.id o)
    /\ Order.status o = "assigned"
    /\ Order.deliveryPartnerId o = Some p.

(** What holds of a race between two requests to assign partners [p1]
    and [p2] to order [orderId] of vendor [vendorId], started in [w0],
    once the first has taken [n1] steps and the second [n2]: where the
    two requests stand, and that the journal has grown by the writes of
    the requests that reached their third step, the order carrying
    what the last of them set. *)
Record race_invariant `{TimeZone} (w0 : World) (orderId vendorId p1 p2 : Z)
    (n1 n2 : nat) (r : Race) : Prop := {
  inv_first : first r = stage n1;
  inv_second : second r = stage n2;
  inv_partners : deliveryPartners (db (world r)) = deliveryPartners (db w0);
  inv_outbox : outbox (world r) = outbox w0;
  inv_state : exists o writes,
                order_of (world r) orderId = Some o
                /\ Order.vendorId o = vendorId
                /\ journal (world r) = journal w0 ++ writes
                /\ Forall (assign_write orderId p1 p2) writes
                /\ List.length writes
                   = ((if (3 <=? n1)%nat then 1 else 0)
                      + (if (3 <=? n2)%nat then 1 else 0))%nat
                /\ forall s, last_error writes = Some s -> last_write_wins o s
}.


(** The turns of the first and of the second request in a schedule. *)
Definition turns (who : bool) (schedule : list (bool * Z)) : nat :=
  List.length (filter (fun t => Bool.eqb (fst t) who) schedule).

(** A request to assign passes every check of the handler in [w]: the
    sender is a vendor, the order exists and is the sender's, the
    partner exists and is online. *)
Definition assignable (w : World) (req : AssignRequest) : bool :=
  requireRole ["vendor"] (ar_user req)
  && match order_of w (ar_orderId req) with
     | Some o => strict_eq (Some (Order.vendorId o)) (su_vendorId (ar_user req))
     | None => false
     end
  && match first_row (filter (eq_ DeliveryPartner.id (ar_deliveryPartnerId req))
                        (deliveryPartners (db w))) with
     | Some p => DeliveryPartner.isOnline p
     | None => false
     end.

(** The world after the write of [assignDeliveryPartner]. *)
Definition assigned_world `{TimeZone} (now orderId partnerId : Z) (w : World) : World :=
  {| db := with_orders (db w)
             (update_where_id Order.id (set_order (assignment now partnerId))
                orderId (orders (db w)));
     journal := journal w ++ [update_orders (assignment now partnerId) orderId];
     outbox := outbox w |}.

(** The samples a history query is asked for: those of the partner,
    and of the order when one is named. *)
Definition asked_for (partnerId : Z) (orderId : option Z) (l : LocationUpdate.t)
    : bool :=
  (LocationUpdate.deliveryPartnerId l =? partnerId)
  && match orderId with
     | Some o => match LocationUpdate.orderId l with
                 | Some o' => o' =? o
                 | None => false
                 end
     | None => true
     end.

(** Key and order number of the rows of [orders], in table order. *)
Definition order_keys (d : Db) : list (Z * string) :=
  map (fun o => (Order.id o, Order.orderNumber o)) (orders d).

(** The [orders] table is well formed: order numbers are pairwise
    distinct and not empty, keys are pairwise distinct and below the
    next value of the sequence. *)
Record orders_wf (d : Db) : Prop := {
  wf_numbers : NoDup (map Order.orderNumber (orders d));
  wf_nonempty : Forall (fun o => Order.orderNumber o <> "") (orders d);
  wf_ids : NoDup (map Order.id (orders d));
  wf_seq : Forall (fun o => Order.id o < orders_id_seq d) (orders d)
}.

(** An insert into [orders] carries an order number that is not empty. *)
Definition numbered (s : Statement) : Prop :=
  match s with
  | insert_orders _ orderNumber _ => orderNumber <> ""
  | _ => True
  end.

(** The coordinates of a sample lie in the ranges of
    [updateLocationSchema]. *)
Definition in_range (l : LocationUpdate.t) : Prop :=
  (-90 <= LocationUpdate.latitude l)%Q /\ (LocationUpdate.latitude l <= 90)%Q
  /\ (-180 <= LocationUpdate.longitude l)%Q /\ (LocationUpdate.longitude l <= 180)%Q.

(** What [getLatestLocationForPartner] and [getLocationHistory] may
    return from the database [d], whichever way it orders samples of
    the same instant. *)
Definition may_be_latest (partnerId : Z) (d : Db)
    (latest : option LocationUpdate.t) : Prop :=
  exists answer,
    ordered_by_desc LocationUpdate.timestamp
      (filter (eq_ LocationUpdate.deliveryPartnerId partnerId) (locationUpdates d))
      answer
    /\ latest = first_row (limit 1 answer).

Definition may_be_history (partnerId : Z) (orderId : option Z) (d : Db)
    (history : list LocationUpdate.t) : Prop :=
  let conditions := [eq_ LocationUpdate.deliveryPartnerId partnerId] in
  let conditions :=
    if_truthy orderId
      (fun orderId => conditions ++ [eq_nullable LocationUpdate.orderId orderId])
      conditions in
  ordered_by_desc LocationUpdate.timestamp
    (filter (and_ conditions) (locationUpdates d)) history.

Definition newest_first (rows : list LocationUpdate.t) : Prop :=
  StronglySorted
    (fun a b => LocationUpdate.timestamp a >= LocationUpdate.timestamp b) rows.

Definition strictly_newest_first (rows : list LocationUpdate.t) : Prop :=
  StronglySorted
    (fun a b => LocationUpdate.timestamp a > LocationUpdate.timestamp b) rows.

(** The write methods of the storage, as calls with their arguments. *)
Inductive StorageCall :=
| call_createOrder (order : InsertOrder)
| call_updateOrderStatus (orderId : Z) (status : string)
| call_assignDeliveryPartner (orderId partnerId : Z)
| call_updateDeliveryPartnerLocation (partnerId : Z) (latitude longitude : Q)
| call_updateDeliveryPartnerStatus (partnerId : Z) (isOnline : bool)
| call_createLocationUpdate (update : InsertLocationUpdate).

(** The world after one call made at clock reading [now], whether it
    returned or threw. *)
Definition perform `{TimeZone} (w : World) (c : Z * StorageCall) : World :=
  let (now, call) := c in
  match call with
  | call_createOrder order => snd (storage.createOrder now order w)
  | call_updateOrderStatus orderId status =>
      snd (storage.updateOrderStatus now orderId status w)
  | call_assignDeliveryPartner orderId partnerId =>
      snd (storage.assignDeliveryPartner now orderId partnerId w)
  | call_updateDeliveryPartnerLocation partnerId latitude longitude =>
      snd (storage.updateDeliveryPartnerLocation now partnerId latitude longitude w)
  | call_updateDeliveryPartnerStatus partnerId isOnline =>
      snd (storage.updateDeliveryPartnerStatus now partnerId isOnline w)
  | call_createLocationUpdate update =>
      snd (storage.createLocationUpdate now update w)
  end.

Definition perform_all `{TimeZone} (calls : list (Z * StorageCall)) (w : World) : World :=
  fold_left perform calls w.

(** ** A small marketplace used in the examples

    Vera sells, Carl buys, Dan and Dora deliver; Dan is online. *)

(** The host of the examples keeps UTC as its local time. *)
#[global] Instance utc_host : TimeZone := {| LocalTZA := fun _ _ => 0 |}.

(** A host two hours ahead of UTC that sets its clocks back by one
    hour at 01:00 UTC on 29 October 2023: the local hour from 02:00 to
    03:00 comes twice, and a local time in it is read back as its
    first occurrence. *)
Definition clocks_go_back : Z := 1698541200000.

Definition fall_back_host : TimeZone :=
  {| LocalTZA := fun t isUTC =>
       if isUTC
       then if t <? clocks_go_back then 2 * msPerHour else msPerHour
       else if t <? clocks_go_back + 2 * msPerHour then 2 * msPerHour
            else msPerHour |}.

Definition vera : User.t := User.mk 1 "vera" "vendor" true.
Definition carl : User.t := User.mk 2 "carl" "customer" true.
Definition dan : User.t := User.mk 3 "dan" "delivery" true.
Definition dora : User.t := User.mk 4 "dora" "delivery" true.

Definition parcel : OrderDetails :=
  {| customerName := "Carl"; customerPhone := "555-0100";
     deliveryAddress := "1 Main St"; pickupAddress := "9 Dock Rd";
     orderTotal := number (1250 # 100);
     deliveryLatitude := None; deliveryLongitude := None;
     pickupLatitude := None; pickupLongitude := None |}.

(** Order 1 of Vera's shop for Carl, in the given state. *)
Definition order1 (partner : option Z) (status : string) : Order.t :=
  Order.mk 1 "ORD-1700000000000" 2 1 partner parcel status None None
    1700000000000 1700000000000.

Definition market (dora_online : bool) (os : list Order.t) : World :=
  {| db := {| users := [vera; carl; dan; dora];
              vendors := [Vendor.mk 1 1];
              deliveryPartners :=
                [DeliveryPartner.mk 1 3 true None None None;
                 DeliveryPartner.mk 2 4 dora_online None None None];
              orders := os;
              locationUpdates := [];
              orders_id_seq := 1 + Z.of_nat (List.length os);
              location_updates_id_seq := 1 |};
     journal := [];
     outbox := [] |}.

(** The sessions [authenticateToken] builds for Vera and for Dan. *)
Definition vera_session : SessionUser :=
  {| su_id := 1; su_username := "vera"; su_role := "vendor";
     su_vendorId := Some 1; su_deliveryPartnerId := None |}.

Definition dan_session : SessionUser :=
  {| su_id := 3; su_username := "dan"; su_role := "delivery";
     su_vendorId := None; su_deliveryPartnerId := Some 1 |}.

(** A token check that reads the user id off the token's name. *)
Definition sample_jwt_verify (token : string) : option Z :=
  if String.eqb token "vera-token" then Some 1
  else if String.eqb token "carl-token" then Some 2
  else if String.eqb token "dan-token" then Some 3
  else if String.eqb token "dora-token" then Some 4
  else None.

(** Vera's requests to assign order 1 to Dan (partner 1) and to Dora
    (partner 2). *)
Definition assign_dan : AssignRequest :=
  {| ar_user := vera_session; ar_orderId := 1; ar_deliveryPartnerId := 1 |}.

Definition assign_dora : AssignRequest :=
  {| ar_user := vera_session; ar_orderId := 1; ar_deliveryPartnerId := 2 |}.

Definition carls_order : InsertOrder :=
  {| io_customerId := 2; io_vendorId := 1; io_deliveryPartnerId := None;
     io_details := parcel; io_status := None;
     io_estimatedDeliveryTime := None; io_actualDeliveryTime := None |}.

(** ** Listing reads of [DatabaseStorage] *)

Module listing.

(** [.where(eq(deliveryPartners.isOnline, true))]. *)
Definition getAvailableDeliveryPartners : M (list DeliveryPartner.t) :=
  query (fun d => filter DeliveryPartner.isOnline (deliveryPartners d)).

Definition getOrdersByVendor (vendorId : Z) : M (list Order.t) :=
  query (fun d =>
    orderBy_desc Order.createdAt (filter (eq_ Order.vendorId vendorId) (orders d))).

Definition getOrdersByCustomer (customerId : Z) : M (list Order.t) :=
  query (fun d =>
    orderBy_desc Order.createdAt
      (filter (eq_ Order.customerId customerId) (orders d))).

Definition getOrdersByDeliveryPartner (partnerId : Z) : M (list Order.t) :=
  query (fun d =>
    orderBy_desc Order.createdAt
      (filter (eq_nullable Order.deliveryPartnerId partnerId) (orders d))).

End listing.

(** ** Read handlers and the partner's online switch *)

(** What a read handler sends: [res.json(a)], or
    [res.status(code).json({ message })]. *)
Inductive Sent (A : Type) :=
| sent_json (a : A)
| sent_status (code : Z) (message : string).
Arguments sent_json {A} a.
Arguments sent_status {A} code message.

(** [role === r && id]: the profile id when the session has role [r]
    and the id is truthy. *)
Definition profile_as (r : string) (user : SessionUser) (id : option Z) : option Z :=
  if String.eqb (su_role user) r then if_truthy id Some None else None.

(** [GET /api/orders], after [authenticateToken]. *)
Definition get_orders (user : SessionUser) : M (Sent (list Order.t)) :=
  try_catch
    (match profile_as "vendor" user (su_vendorId user) with
     | Some vendorId =>
         orders <- listing.getOrdersByVendor vendorId ;;
         ret (sent_json orders)
     | None =>
         if String.eqb (su_role user) "customer"
         then orders <- listing.getOrdersByCustomer (su_id user) ;;
              ret (sent_json orders)
         else
           match profile_as "delivery" user (su_deliveryPartnerId user) with
           | Some deliveryPartnerId =>
               orders <- listing.getOrdersByDeliveryPartner deliveryPartnerId ;;
               ret (sent_json orders)
           | None => ret (sent_status 403 "Unauthorized")
           end
     end)
    (fun _ => ret (sent_status 500 "Failed to fetch orders")).

(** The permission check of [GET /api/orders/:id]. *)
Definition hasAccess (user : SessionUser) (order : Order.t) : bool :=
  (String.eqb (su_role user) "vendor"
   && strict_eq (Some (Order.vendorId order)) (su_vendorId user))
  || (String.eqb (su_role user) "customer"
      && (Order.customerId order =? su_id user))
  || (String.eqb (su_role user) "delivery"
      && strict_eq (Order.deliveryPartnerId order) (su_deliveryPartnerId user)).

(** [GET /api/orders/:id], after [authenticateToken]. *)
Definition get_order (user : SessionUser) (id : Z) : M (Sent Order.t) :=
  try_catch
    (order <- storage.getOrder id ;;
     match order with
     | None => ret (sent_status 404 "Order not found")
     | Some order =>
         (* Check permissions *)
         if negb (hasAccess user order)
         then ret (sent_status 403 "Unauthorized")
         else ret (sent_json order)
     end)
    (fun _ => ret (sent_status 500 "Failed to fetch order")).

(** The permission check of [GET /api/orders/by-number/:orderNumber]:
    customers can track any order with the number, others need
    specific access. *)
Definition hasAccess_by_number (user : SessionUser) (order : Order.t) : bool :=
  String.eqb (su_role user) "customer"
  || (String.eqb (su_role user) "vendor"
      && strict_eq (Some (Order.vendorId order)) (su_vendorId user))
  || (String.eqb (su_role user) "delivery"
      && strict_eq (Order.deliveryPartnerId order) (su_deliveryPartnerId user)).

(** [GET /api/orders/by-number/:orderNumber], after [authenticateToken]. *)
Definition get_order_by_number (user : SessionUser) (orderNumber : string)
    : M (Sent Order.t) :=
  try_catch
    (order <- storage.getOrderByNumber orderNumber ;;
     match order with
     | None => ret (sent_status 404 "Order not found")
     | Some order =>
         if negb (hasAccess_by_number user order)
         then ret (sent_status 403 "Unauthorized")
         else ret (sent_json order)
     end)
    (fun _ => ret (sent_status 500 "Failed to fetch order")).

(** [PATCH /api/delivery-partners/status], after [authenticateToken];
    [isOnline] is the property of that name of the body. *)
Definition patch_delivery_partner_status (now : Z) (user : SessionUser)
    (isOnline : bool) : M Response :=
  if negb (requireRole ["delivery"] user)
  then ret (respond 403 "Insufficient permissions")
  else
    try_catch
      (if_truthy (su_deliveryPartnerId user)
         (fun deliveryPartnerId =>
            storage.updateDeliveryPartnerStatus now deliveryPartnerId isOnline ;;
            ret (respond 200 "Status updated"))
         (ret (respond 400 "Delivery partner profile not found")))
      (fun _ => ret (respond 400 "Status update failed")).

(** ** The customer's tracking page ([CustomerTracking]) *)

(** One entry of the status timeline; the icon of the entry is left
    out.  [current] is a property of the [in_transit] entry only. *)
Record TimelineStep := {
  step_status : string;
  step_label : string;
  step_time : option Z;
  step_completed : bool;
  step_current : option bool
}.

(** [array.includes(x)] on strings. *)
Definition includes (l : list string) (x : string) : bool :=
  existsb (String.eqb x) l.

(** [getStatusTimeline(order)]. *)
Definition getStatusTimeline (order : Order.t) : list TimelineStep :=
  [ {| step_status := "confirmed"; step_label := "Order Confirmed";
       step_time := Some (Order.createdAt order);
       step_completed := true; step_current := None |};
    {| step_status := "preparing"; step_label := "Preparing Order";
       step_time := Some (Order.createdAt order);
       step_completed := true; step_current := None |};
    {| step_status := "assigned"; step_label := "Driver Assigned";
       step_time := Some (Order.createdAt order);
       step_completed :=
         includes ["assigned"; "picked_up"; "in_transit"; "delivered"]
           (Order.status order);
       step_current := None |};
    {| step_status := "picked_up"; step_label := "Order Picked Up";
       step_time := Some (Order.createdAt order);
       step_completed :=
         includes ["picked_up"; "in_transit"; "delivered"] (Order.status order);
       step_current := None |};
    {| step_status := "in_transit"; step_label := "Out for Delivery";
       step_time := Some (Order.createdAt order);
       step_completed := includes ["in_transit"; "delivered"] (Order.status order);
       step_current := Some (String.eqb (Order.status order) "in_transit") |};
    {| step_status := "delivered"; step_label := "Delivered";
       step_time := Order.actualDeliveryTime order;
       step_completed := String.eqb (Order.status order) "delivered";
       step_current := None |} ].

(** ** Properties the further statements are written with *)

(** The columns of an order no storage method writes after the insert. *)
Definition order_core (o : Order.t)
    : Z * string * Z * Z * OrderDetails * Z :=
  (Order.id o, Order.orderNumber o, Order.customerId o, Order.vendorId o,
   Order.details o, Order.createdAt o).

(** [a] is set wherever [b] is. *)
Definition stays_set {A} (b a : option A) : Prop :=
  b <> None -> a <> None.

Definition newest_created_first (rows : list Order.t) : Prop :=
  StronglySorted (fun a b => Order.createdAt a >= Order.createdAt b) rows.

(** The coordinates of a sample fit their columns: fewer than two and
    three integer digits. *)
Definition fits_columns (l : LocationUpdate.t) : Prop :=
  (Qabs (LocationUpdate.latitude l) < 100)%Q
  /\ (Qabs (LocationUpdate.longitude l) < 1000)%Q.

(** The sample refers to rows that exist. *)
Definition refers_to_rows (d : Db) (l : LocationUpdate.t) : Prop :=
  has_id DeliveryPartner.id (LocationUpdate.deliveryPartnerId l)
    (deliveryPartners d) = true
  /\ references Order.id (LocationUpdate.orderId l) (orders d) = true.

(** The partner's row after its position was set to a sample's
    coordinates at [now]. *)
Definition positioned (lat lon : Q) (now : Z) (p : DeliveryPartner.t)
    : DeliveryPartner.t :=
  DeliveryPartner.mk (DeliveryPartner.id p) (DeliveryPartner.userId p)
    (DeliveryPartner.isOnline p) (Some lat) (Some lon) (Some now).

(** The insert of [createOrder] passes the constraints of [orders]:
    the [decimal] columns take their values, the number fits the
    column, no order carries it, and the customer, the vendor and the
    partner, if one is given, exist. *)
Definition insertable (d : Db) (now : Z) (order : InsertOrder) : bool :=
  match order_columns order with Returned _ => true | Thrown _ => false end
  && (Z.of_nat (String.length (order_number_of now)) <=? 20)
  && negb (violates_unique_order_number d (order_number_of now))
  && (has_id User.id (io_customerId order) (users d)
      && has_id Vendor.id (io_vendorId order) (vendors d)
      && references DeliveryPartner.id (io_deliveryPartnerId order)
           (deliveryPartners d)).

(** A stored order [o] and what it has become, [o']: the columns
    written at the insert only are the same, and the partner, the
    estimated and the actual delivery time are set wherever they were. *)
Definition evolves (o o' : Order.t) : Prop :=
  order_core o' = order_core o
  /\ stays_set (Order.deliveryPartnerId o) (Order.deliveryPartnerId o')
  /\ stays_set (Order.estimatedDeliveryTime o) (Order.estimatedDeliveryTime o')
  /\ stays_set (Order.actualDeliveryTime o) (Order.actualDeliveryTime o').

(** Every reference of an order and of a sample names a row that
    exists. *)
Record refs_ok (d : Db) : Prop := {
  ok_order_customer :
    Forall (fun o => has_id User.id (Order.customerId o) (users d) = true) (orders d);
  ok_order_vendor :
    Forall (fun o => has_id Vendor.id (Order.vendorId o) (vendors d) = true) (orders d);
  ok_order_partner :
    Forall (fun o => references DeliveryPartner.id (Order.deliveryPartnerId o)
                       (deliveryPartners d) = true) (orders d);
  ok_samples : Forall (refers_to_rows d) (locationUpdates d)
}.

(** The row of a partner after its online flag was set. *)
Definition switched (isOnline : bool) (p : DeliveryPartner.t) : DeliveryPartner.t :=
  DeliveryPartner.mk (DeliveryPartner.id p) (DeliveryPartner.userId p) isOnline
    (DeliveryPartner.currentLatitude p) (DeliveryPartner.currentLongitude p)
    (DeliveryPartner.lastLocationUpdate p).

(** The [delivery_location_update] events of one stored sample tagged
    with [order], in closed form: to the customer and to the vendor's
    user. *)
Definition location_broadcasts (d : Db) (order : Order.t) (orderId : Z)
    (latitude longitude : Q) (now : Z) : list Emit :=
  let moved room :=
    {| target := to (user_ room); event := "delivery_location_update";
       payload := location_changed orderId latitude longitude now |} in
  [moved (Order.customerId order)]
  ++ match first_row (filter (eq_ Vendor.id (Order.vendorId order)) (vendors d)) with
     | Some vendor => [moved (Vendor.userId vendor)]
     | None => []
     end.

(** A computation that emits nothing, whether it returns or throws. *)
Definition silent {A} (m : M A) : Prop :=
  forall w, outbox (snd (m w)) = outbox w.

(** The body of [POST /api/location/update] passes
    [updateLocationSchema]. *)
Definition location_in_range (body : LocationData) : bool :=
  Qle_bool (-90) (ld_latitude body) && Qle_bool (ld_latitude body) 90
  && Qle_bool (-180) (ld_longitude body) && Qle_bool (ld_longitude body) 180.

(** * Verification *)

(** ** Tables and the queries on them *)

Lemma update_where_id_filter {R} (id : R -> Z) (f : R -> R) (key k : Z)
    (rows : list R) :
  (forall r, id (f r) = id r) ->
  filter (eq_ id k) (update_where_id id f key rows)
  = map (fun r => if id r =? key then f r else r) (filter (eq_ id k) rows).
Proof.
  intros Hid. unfold update_where_id, eq_.
  induction rows as [|r rows IH]; simpl; [reflexivity|].
  assert (Hk : id (if id r =? key then f r else r) = id r)
    by (destruct (id r =? key); [apply Hid | reflexivity]).
  rewrite Hk. destruct (id r =? k); simpl; rewrite IH; reflexivity.
Qed.

Lemma update_where_id_other {R} (id : R -> Z) (f : R -> R) (key : Z)
    (rows : list R) :
  has_id id key rows = false -> update_where_id id f key rows = rows.
Proof.
  unfold has_id, update_where_id.
  induction rows as [|r rows IH]; simpl; [reflexivity|].
  intros H. apply orb_false_iff in H as [Hr Hrows].
  rewrite Hr, (IH Hrows). reflexivity.
Qed.

Lemma has_id_first_row {R} (id : R -> Z) (key : Z) (rows : list R) :
  has_id id key rows = true <-> exists r, first_row (filter (eq_ id key) rows) = Some r.
Proof.
  unfold has_id, eq_, first_row.
  induction rows as [|r rows IH]; simpl.
  - split; [discriminate | intros [r H]; discriminate].
  - destruct (id r =? key); simpl.
    + split; [intros _; exists r; reflexivity | reflexivity].
    + exact IH.
Qed.

Lemma first_row_filter_id {R} (id : R -> Z) (key : Z) (rows : list R) (r : R) :
  first_row (filter (eq_ id key) rows) = Some r -> In r rows /\ id r = key.
Proof.
  unfold first_row. intros H.
  destruct (filter (eq_ id key) rows) as [|x l] eqn:E; [discriminate|].
  injection H as ->.
  assert (Hin : In r (filter (eq_ id key) rows)) by (rewrite E; left; reflexivity).
  apply filter_In in Hin as [Hin Hk]. split; [exact Hin|].
  unfold eq_ in Hk. apply Z.eqb_eq. exact Hk.
Qed.

Lemma set_order_id (s : OrderSet) (o : Order.t) :
  Order.id (set_order s o) = Order.id o.
Proof. reflexivity. Qed.

Lemma set_order_orderNumber (s : OrderSet) (o : Order.t) :
  Order.orderNumber (set_order s o) = Order.orderNumber o.
Proof. reflexivity. Qed.

(** A read of an order after [UPDATE orders SET ... WHERE id = key]. *)
Lemma order_of_update (w : World) (s : OrderSet) (key k : Z) (j : list Statement)
    (e : list Emit) :
  order_of {| db := with_orders (db w)
                      (update_where_id Order.id (set_order s) key (orders (db w)));
              journal := j; outbox := e |} k
  = option_map (fun o => if Order.id o =? key then set_order s o else o)
      (order_of w k).
Proof.
  unfold order_of. simpl.
  rewrite update_where_id_filter by apply set_order_id.
  destruct (filter (eq_ Order.id k) (orders (db w))); reflexivity.
Qed.

(** ** The storage methods, run *)

Lemma updateOrderStatus_run (now orderId : Z) (status : string) (w : World) :
  storage.updateOrderStatus now orderId status w
  = (Returned tt,
     {| db := with_orders (db w)
                (update_where_id Order.id (set_order (updateData now status))
                   orderId (orders (db w)));
        journal := journal w ++ [update_orders (updateData now status) orderId];
        outbox := outbox w |}).
Proof.
  unfold storage.updateOrderStatus, updateData, bind, execute, ret.
  destruct (String.eqb status "delivered"); simpl;
    rewrite andb_false_r; reflexivity.
Qed.

Lemma assignDeliveryPartner_run {host : TimeZone} (now orderId partnerId : Z) (w : World) :
  has_id DeliveryPartner.id partnerId (deliveryPartners (db w)) = true ->
  storage.assignDeliveryPartner now orderId partnerId w
  = (Returned tt,
     {| db := with_orders (db w)
                (update_where_id Order.id (set_order (assignment now partnerId))
                   orderId (orders (db w)));
        journal := journal w ++ [update_orders (assignment now partnerId) orderId];
        outbox := outbox w |}).
Proof.
  intros Hp.
  unfold storage.assignDeliveryPartner, assignment, bind, execute, ret. simpl.
  rewrite Hp, andb_false_r. reflexivity.
Qed.

Lemma getOrder_run (id : Z) (w : World) :
  storage.getOrder id w = (Returned (order_of w id), w).
Proof. reflexivity. Qed.

(** ** Status updates *)

(** C9.  [updateOrderStatus] sends exactly one statement, an update of
    the order's row.  When the requested status is [delivered] that one
    statement sets [actualDeliveryTime] together with [status]; for any
    other status it does not name [actualDeliveryTime], and the column
    keeps its value in every row. *)
Theorem updateOrderStatus_stamps_in_the_status_write
    (now orderId : Z) (status : string) (w : World) :
  exists set w',
    storage.updateOrderStatus now orderId status w = (Returned tt, w')
    /\ journal w' = journal w ++ [update_orders set orderId]
    /\ orders (db w')
       = update_where_id Order.id (set_order set) orderId (orders (db w))
    /\ set_status set = Some status
    /\ set_actualDeliveryTime set
       = (if String.eqb status "delivered" then Some now else None)
    /\ (forall o, order_of w orderId = Some o ->
          exists o', order_of w' orderId = Some o'
            /\ Order.status o' = status
            /\ Order.actualDeliveryTime o'
               = if String.eqb status "delivered" then Some now
                 else Order.actualDeliveryTime o)
    /\ (String.eqb status "delivered" = false ->
          map Order.actualDeliveryTime (orders (db w'))
          = map Order.actualDeliveryTime (orders (db w))).
Proof.
  eexists (updateData now status), _.
  split; [apply updateOrderStatus_run|].
  split; [reflexivity|]. split; [reflexivity|].
  split; [reflexivity|]. split; [reflexivity|]. split.
  - intros o Ho. rewrite order_of_update, Ho. simpl.
    apply first_row_filter_id in Ho as [_ Hid]. rewrite Hid, Z.eqb_refl.
    eexists; split; [reflexivity|]. split; [reflexivity|].
    simpl. destruct (String.eqb status "delivered"); reflexivity.
  - intros Hs. simpl. unfold update_where_id. rewrite map_map.
    apply map_ext. intros o.
    destruct (Order.id o =? orderId); [|reflexivity].
    simpl. rewrite Hs. reflexivity.
Qed.

(** Order 1 is delivered at clock reading 1700000900000. *)
Lemma updateOrderStatus_stamps_in_the_status_write_witness :
  exists set w',
    storage.updateOrderStatus 1700000900000 1 "delivered"
      (market true [order1 (Some 1) "in_transit"]) = (Returned tt, w')
    /\ journal w' = [update_orders set 1]
    /\ set_status set = Some "delivered"
    /\ set_actualDeliveryTime set = Some 1700000900000
    /\ option_map Order.actualDeliveryTime (order_of w' 1)
       = Some (Some 1700000900000).
Proof.
  destruct (updateOrderStatus_stamps_in_the_status_write 1700000900000 1 "delivered"
              (market true [order1 (Some 1) "in_transit"]))
    as (set & w' & Hrun & Hjournal & _ & Hstatus & Hstamp & Hrow & _).
  exists set, w'. repeat split; try assumption.
  destruct (Hrow (order1 (Some 1) "in_transit") eq_refl) as (o' & -> & _ & Ho').
  cbn [option_map]. rewrite Ho'. reflexivity.
Defined.


Lemma on_order_status_update_run (now sid : Z) (user : SessionUser) (id : Z)
    (status : string) (w : World) :
  on_order_status_update now sid user id status w
  = match order_of w id with
    | None => (Returned tt, w)
    | Some o =>
        if canUpdate user o
        then let w' := snd (storage.updateOrderStatus now id status w) in
             (Returned tt,
              {| db := db w'; journal := journal w';
                 outbox := outbox w
                           ++ status_broadcasts (db w) o id status now
                           ++ [{| target := socket sid;
                                  event := "order_status_update_success";
                                  payload := no_payload |}] |})
        else (Returned tt, w)
    end.
Proof.
  unfold on_order_status_update, try_catch, bind.
  rewrite getOrder_run.
  destruct (order_of w id) as [o|]; [|reflexivity].
  destruct (canUpdate user o); [|reflexivity].
  cbn [negb]. rewrite updateOrderStatus_run.
  unfold status_broadcasts, storage.getVendor, storage.getDeliveryPartner,
    query, emit, ret.
  cbn [db outbox journal with_orders vendors deliveryPartners snd].
  unfold if_truthy.
  destruct (first_row (filter (eq_ Vendor.id (Order.vendorId o)) (vendors (db w))));
    (destruct (Order.deliveryPartnerId o) as [p|]; [destruct (p =? 0)|]);
    cbn [db outbox journal with_orders vendors deliveryPartners];
    try destruct (first_row
                    (filter (eq_ DeliveryPartner.id p) (deliveryPartners (db w))));
    cbn [db outbox journal app]; rewrite <- ?app_assoc; reflexivity.
Qed.









(** ** Assignment *)

Lemma assignable_inv (w : World) (req : AssignRequest) :
  assignable w req = true ->
  requireRole ["vendor"] (ar_user req) = true
  /\ (exists o, order_of w (ar_orderId req) = Some o
        /\ su_vendorId (ar_user req) = Some (Order.vendorId o))
  /\ (exists p, first_row (filter (eq_ DeliveryPartner.id (ar_deliveryPartnerId req))
                            (deliveryPartners (db w))) = Some p
        /\ DeliveryPartner.isOnline p = true).
Proof.
  unfold assignable. intros H.
  apply andb_true_iff in H as [H Hp]. apply andb_true_iff in H as [Hr Ho].
  split; [exact Hr|]. split.
  - destruct (order_of w (ar_orderId req)) as [o|]; [|discriminate].
    exists o. split; [reflexivity|].
    destruct (su_vendorId (ar_user req)) as [v|]; [|discriminate].
    simpl in Ho. apply Z.eqb_eq in Ho. congruence.
  - destruct (first_row _) as [p|]; [|discriminate].
    exists p. split; [reflexivity | exact Hp].
Qed.

(** One step of a request whose checks all pass moves it one stage on;
    its third step is the write. *)
Lemma assign_step_stage {host : TimeZone} (now : Z) (req : AssignRequest) (n : nat) (w : World)
    (o : Order.t) (p : DeliveryPartner.t) :
  requireRole ["vendor"] (ar_user req) = true ->
  order_of w (ar_orderId req) = Some o ->
  su_vendorId (ar_user req) = Some (Order.vendorId o) ->
  first_row (filter (eq_ DeliveryPartner.id (ar_deliveryPartnerId req))
               (deliveryPartners (db w))) = Some p ->
  DeliveryPartner.isOnline p = true ->
  assign_step now req (stage n) w
  = (Returned (stage (S n)),
     if (n =? 2)%nat
     then assigned_world now (ar_orderId req) (ar_deliveryPartnerId req) w
     else w).
Proof.
  intros Hrole Ho Hv Hp Hon.
  destruct n as [|[|[|n]]]; cbn [stage assign_step Nat.eqb].
  - rewrite Hrole. cbn [negb]. unfold bind. rewrite getOrder_run, Ho, Hv.
    cbn [strict_eq]. rewrite Z.eqb_refl. reflexivity.
  - unfold bind, storage.getDeliveryPartner, query. rewrite Hp, Hon. reflexivity.
  - unfold try_catch, bind. rewrite assignDeliveryPartner_run.
    + reflexivity.
    + apply has_id_first_row. exists p. exact Hp.
  - reflexivity.
Qed.

Lemma order_of_assigned_world {host : TimeZone} (now orderId p : Z) (w : World) (o : Order.t) :
  order_of w orderId = Some o ->
  order_of (assigned_world now orderId p w) orderId
  = Some (set_order (assignment now p) o).
Proof.
  intros Ho. unfold assigned_world. rewrite order_of_update, Ho.
  apply first_row_filter_id in Ho as [_ Hid].
  cbn [option_map]. rewrite Hid, Z.eqb_refl. reflexivity.
Qed.

Section AssignRace.

Context {host : TimeZone}.
Variables (req1 req2 : AssignRequest) (w0 : World).

Hypothesis passes1 : assignable w0 req1 = true.
Hypothesis passes2 : assignable w0 req2 = true.
Hypothesis same_order : ar_orderId req2 = ar_orderId req1.

Let orderId := ar_orderId req1.
Let p1 := ar_deliveryPartnerId req1.
Let p2 := ar_deliveryPartnerId req2.
Let vendorId :=
  match order_of w0 orderId with Some o => Order.vendorId o | None => 0 end.

Let invariant := race_invariant w0 orderId vendorId p1 p2.

Lemma race_invariant_start :
  invariant 0%nat 0%nat
    {| first := at_getOrder; second := at_getOrder; world := w0 |}.
Proof.
  destruct (assignable_inv _ _ passes1) as (_ & (o & Ho & _) & _).
  constructor; cbn [first second world]; try reflexivity.
  exists o, []. split; [exact Ho|]. split.
  - unfold vendorId, orderId. rewrite Ho. reflexivity.
  - rewrite app_nil_r. repeat split; [constructor | discriminate].
Qed.

(** What one step of either request does to a world in which the
    invariant holds: nothing before the write, the write at step
    three, nothing after. *)
Lemma race_assign_step (now : Z) (req : AssignRequest) (n n1 n2 : nat) (r : Race) :
  invariant n1 n2 r ->
  assignable w0 req = true ->
  ar_orderId req = orderId ->
  assign_step now req (stage n) (world r)
  = (Returned (stage (S n)),
     if (n =? 2)%nat
     then assigned_world now orderId (ar_deliveryPartnerId req) (world r)
     else world r).
Proof.
  intros Hinv Hreq Hid.
  destruct (assignable_inv _ _ Hreq) as (Hrole & (o & Ho & Hv) & (p & Hp & Hon)).
  destruct (inv_state _ _ _ _ _ _ _ _ Hinv) as (o' & _ & Ho' & Hv' & _).
  rewrite <- Hid.
  apply assign_step_stage with (o := o') (p := p); try assumption.
  - rewrite Hid. exact Ho'.
  - rewrite Hv, Hv'. unfold vendorId. rewrite <- Hid, Ho. reflexivity.
  - rewrite (inv_partners _ _ _ _ _ _ _ _ Hinv). exact Hp.
Qed.

(** The invariant after a step that wrote nothing. *)
Lemma race_invariant_idle (n1 n2 m1 m2 : nat) (pc1 pc2 : AssignPc) (r : Race) :
  invariant n1 n2 r ->
  pc1 = stage m1 -> pc2 = stage m2 ->
  (3 <=? m1)%nat = (3 <=? n1)%nat -> (3 <=? m2)%nat = (3 <=? n2)%nat ->
  invariant m1 m2 {| first := pc1; second := pc2; world := world r |}.
Proof.
  intros [_ _ Hp Hout (o & ws & Ho & Hv & Hj & Hws & Hlen & Hlast)] -> -> H1 H2.
  constructor; cbn [first second world]; try reflexivity; try assumption.
  exists o, ws. rewrite H1, H2. auto 7.
Qed.

(** The invariant after the write of the request naming [p]. *)
Lemma race_invariant_write (now p : Z) (n1 n2 m1 m2 : nat) (r : Race) :
  invariant n1 n2 r ->
  p = p1 \/ p = p2 ->
  ((if (3 <=? m1)%nat then 1 else 0) + (if (3 <=? m2)%nat then 1 else 0)
   = S ((if (3 <=? n1)%nat then 1 else 0) + (if (3 <=? n2)%nat then 1 else 0)))%nat ->
  invariant m1 m2
    {| first := stage m1; second := stage m2;
       world := assigned_world now orderId p (world r) |}.
Proof.
  intros [_ _ Hp Hout (o & ws & Ho & Hv & Hj & Hws & Hlen & _)] Hpp Hm.
  constructor; cbn [first second world]; try reflexivity; try assumption.
  exists (set_order (assignment now p) o),
         (ws ++ [update_orders (assignment now p) orderId]).
  split; [apply order_of_assigned_world; exact Ho|].
  split; [exact Hv|]. cbn [assigned_world journal]. rewrite Hj, app_assoc.
  split; [reflexivity|]. split; [|split].
  - apply Forall_app. split; [exact Hws|].
    constructor; [|constructor]. exists now, p. auto.
  - rewrite length_app, Hlen, Hm. cbn. lia.
  - intros s Hs. unfold last_error in Hs. rewrite rev_app_distr in Hs.
    cbn in Hs. injection Hs as <-.
    apply first_row_filter_id in Ho as [_ Hid].
    exists now, p. cbn [set_order Order.id]. rewrite Hid. repeat split.
Qed.

Lemma race_invariant_step (turn : bool * Z) (n1 n2 : nat) (r : Race) :
  invariant n1 n2 r ->
  invariant (if fst turn then S n1 else n1) (if fst turn then n2 else S n2)
    (race_step req1 req2 turn r).
Proof.
  intros Hinv. destruct turn as [[|] now]; cbn [fst race_step].
  - rewrite (inv_first _ _ _ _ _ _ _ _ Hinv).
    rewrite (race_assign_step now req1 n1 n1 n2 r Hinv passes1 eq_refl).
    destruct (Nat.eqb_spec n1 2) as [-> | Hn].
    + rewrite (inv_second _ _ _ _ _ _ _ _ Hinv).
      apply race_invariant_write with (n1 := 2%nat) (n2 := n2);
        [exact Hinv | left; reflexivity | reflexivity].
    + apply race_invariant_idle with (n1 := n1) (n2 := n2);
        [exact Hinv | reflexivity | apply (inv_second _ _ _ _ _ _ _ _ Hinv)
        | | reflexivity].
      destruct n1 as [|[|[|n1]]]; try reflexivity. contradiction.
  - rewrite (inv_second _ _ _ _ _ _ _ _ Hinv).
    rewrite (race_assign_step now req2 n2 n1 n2 r Hinv passes2 same_order).
    destruct (Nat.eqb_spec n2 2) as [-> | Hn].
    + rewrite (inv_first _ _ _ _ _ _ _ _ Hinv).
      apply race_invariant_write with (n1 := n1) (n2 := 2%nat);
        [exact Hinv | right; reflexivity | ].
      cbn. lia.
    + apply race_invariant_idle with (n1 := n1) (n2 := n2);
        [exact Hinv | apply (inv_first _ _ _ _ _ _ _ _ Hinv) | reflexivity
        | reflexivity | ].
      destruct n2 as [|[|[|n2]]]; try reflexivity. contradiction.
Qed.

Lemma race_invariant_schedule (schedule : list (bool * Z)) :
  invariant (turns true schedule) (turns false schedule)
    (race req1 req2 schedule w0).
Proof.
  induction schedule as [|turn schedule IH] using rev_ind.
  - exact race_invariant_start.
  - unfold race, turns in *. rewrite fold_left_app, !filter_app, !length_app.
    cbn [fold_left filter].
    pose proof (race_invariant_step turn _ _ _ IH) as Hstep.
    destruct turn as [[|] now]; cbn in Hstep |- *;
      rewrite ?Nat.add_0_r, ?Nat.add_1_r; exact Hstep.
Qed.

End AssignRace.

Lemma patch_order_assign_run {host : TimeZone} (now : Z) (user : SessionUser) (id p : Z) (w : World) :
  patch_order_assign now user id p w
  = if negb (requireRole ["vendor"] user)
    then (Returned (respond 403 "Insufficient permissions"), w)
    else match order_of w id with
         | None => (Returned (respond 404 "Order not found"), w)
         | Some o =>
             if negb (strict_eq (Some (Order.vendorId o)) (su_vendorId user))
             then (Returned (respond 403 "Unauthorized"), w)
             else
               match first_row (filter (eq_ DeliveryPartner.id p)
                                  (deliveryPartners (db w))) with
               | None => (Returned (respond 400 "Delivery partner not available"), w)
               | Some partner =>
                   if negb (DeliveryPartner.isOnline partner)
                   then (Returned (respond 400 "Delivery partner not available"), w)
                   else (Returned (respond 200 "Delivery partner assigned"),
                         assigned_world now id p w)
               end
         end.
Proof.
  unfold patch_order_assign.
  destruct (negb (requireRole ["vendor"] user)); [reflexivity|].
  unfold try_catch, bind. rewrite getOrder_run.
  destruct (order_of w id) as [o|]; [|reflexivity].
  destruct (negb (strict_eq (Some (Order.vendorId o)) (su_vendorId user)));
    [reflexivity|].
  unfold storage.getDeliveryPartner, query.
  destruct (first_row (filter (eq_ DeliveryPartner.id p) (deliveryPartners (db w))))
    as [partner|] eqn:Hp; [|reflexivity].
  destruct (negb (DeliveryPartner.isOnline partner)); [reflexivity|].
  rewrite assignDeliveryPartner_run.
  - reflexivity.
  - apply has_id_first_row. exists partner. exact Hp.
Qed.

(** The three steps of one request, taken with nothing in between, are
    the handler. *)
Lemma assign_steps_are_the_handler {host : TimeZone} (now : Z) (req other : AssignRequest) (w : World) :
  exists a w',
    patch_order_assign now (ar_user req) (ar_orderId req)
      (ar_deliveryPartnerId req) w = (Returned a, w')
    /\ race req other [(true, now); (true, now); (true, now)] w
       = {| first := answered a; second := at_getOrder; world := w' |}.
Proof.
  rewrite patch_order_assign_run.
  unfold race, race_step, assign_step, order_of, bind, try_catch,
    storage.getOrder, storage.getDeliveryPartner, query, ret.
  cbn [fold_left first second world].
  destruct (requireRole ["vendor"] (ar_user req)); cbn [negb];
    [|eexists _, _; split; reflexivity].
  destruct (first_row (filter (eq_ Order.id (ar_orderId req)) (orders (db w))))
    as [o|]; [|eexists _, _; split; reflexivity].
  destruct (strict_eq (Some (Order.vendorId o)) (su_vendorId (ar_user req)));
    cbn [negb first second world]; [|eexists _, _; split; reflexivity].
  destruct (first_row (filter (eq_ DeliveryPartner.id (ar_deliveryPartnerId req))
                         (deliveryPartners (db w)))) as [partner|] eqn:Hp;
    [|eexists _, _; split; reflexivity].
  destruct (DeliveryPartner.isOnline partner);
    cbn [negb first second world]; [|eexists _, _; split; reflexivity].
  rewrite assignDeliveryPartner_run.
  - eexists _, _; split; reflexivity.
  - apply has_id_first_row. exists partner. exact Hp.
Qed.

(** C2, as the code has it.  The write of an assignment is one update
    keyed on the order id alone: it rewrites the row whatever status it
    finds.  So when two requests that pass the handler's checks (sender
    is a vendor and owns the order, partner exists and is online) race
    on the same order, under every schedule that lets both finish both
    are answered 200, both writes are sent, and the order is left
    [assigned] to the partner of the write that was sent last. *)
Theorem racing_assignments_both_succeed {host : TimeZone}
    (req1 req2 : AssignRequest) (w : World) (schedule : list (bool * Z)) :
  assignable w req1 = true ->
  assignable w req2 = true ->
  ar_orderId req2 = ar_orderId req1 ->
  complete schedule = true ->
  let r := race req1 req2 schedule w in
  let orderId := ar_orderId req1 in
  let p1 := ar_deliveryPartnerId req1 in
  let p2 := ar_deliveryPartnerId req2 in
  first r = answered (respond 200 "Delivery partner assigned")
  /\ second r = answered (respond 200 "Delivery partner assigned")
  /\ (exists o s1 s2,
        order_of (world r) orderId = Some o
        /\ journal (world r) = journal w ++ [s1; s2]
        /\ assign_write orderId p1 p2 s1 /\ assign_write orderId p1 p2 s2
        /\ last_write_wins o s2)
  /\ (forall now o, order_of w orderId = Some o ->
        storage.assignDeliveryPartner now orderId p1 w
        = (Returned tt, assigned_world now orderId p1 w)
        /\ order_of (assigned_world now orderId p1 w) orderId
           = Some (set_order (assignment now p1) o)).
Proof.
  intros H1 H2 Hsame Hcomplete. cbv zeta.
  pose proof (race_invariant_schedule req1 req2 w H1 H2 Hsame schedule) as Hinv.
  unfold complete in Hcomplete. apply andb_true_iff in Hcomplete as [Hn1 Hn2].
  fold (turns true schedule) in Hn1. fold (turns false schedule) in Hn2.
  destruct Hinv as [Hf Hs _ _ (o & ws & Ho & _ & Hj & Hws & Hlen & Hlast)].
  rewrite Hn1, Hn2 in Hlen. apply Nat.leb_le in Hn1, Hn2.
  split; [|split; [|split]].
  - rewrite Hf. destruct (turns true schedule) as [|[|[|n]]]; [lia..|reflexivity].
  - rewrite Hs. destruct (turns false schedule) as [|[|[|n]]]; [lia..|reflexivity].
  - destruct ws as [|s1 [|s2 [|s3 ws]]]; try discriminate Hlen.
    exists o, s1, s2. split; [exact Ho|]. split; [exact Hj|].
    inversion Hws as [|? ? Hs1 Hrest]; subst.
    inversion Hrest as [|? ? Hs2 _]; subst.
    split; [assumption|]. split; [assumption|].
    apply Hlast. reflexivity.
  - intros now o0 Ho0.
    destruct (assignable_inv _ _ H1) as (_ & _ & (p & Hp & _)).
    split.
    + apply assignDeliveryPartner_run. apply has_id_first_row. exists p. exact Hp.
    + apply order_of_assigned_world. exact Ho0.
Qed.

(** C2, counterexample.  Vera assigns pending order 1 to Dan and, after
    that request is answered, to Dora.  Both requests are answered 200
    and the second write replaces Dan by Dora on an order that was no
    longer [pending] when it ran. *)
Lemma second_assignment_overwrites_the_first :
  let w := market true [order1 None "pending"] in
  let (r1, w1) := patch_order_assign 1700000100000 vera_session 1 1 w in
  let (r2, w2) := patch_order_assign 1700000200000 vera_session 1 2 w1 in
  option_map Order.status (order_of w 1) = Some "pending"
  /\ r1 = Returned (respond 200 "Delivery partner assigned")
  /\ option_map Order.status (order_of w1 1) = Some "assigned"
  /\ option_map Order.deliveryPartnerId (order_of w1 1) = Some (Some 1)
  /\ r2 = Returned (respond 200 "Delivery partner assigned")
  /\ option_map Order.deliveryPartnerId (order_of w2 1) = Some (Some 2)
  /\ List.length (journal w2) = 2%nat.
Proof. vm_compute. repeat split. Qed.

(** Dan's request is answered last, after Dora's: the order is Dan's. *)
Lemma racing_assignments_both_succeed_witness :
  let r := race assign_dan assign_dora
             [(true, 10); (false, 11); (true, 12); (false, 13); (false, 14); (true, 15)]
             (market true [order1 None "pending"]) in
  first r = answered (respond 200 "Delivery partner assigned")
  /\ second r = answered (respond 200 "Delivery partner assigned")
  /\ option_map Order.deliveryPartnerId (order_of (world r) 1) = Some (Some 1).
Proof.
  pose proof (racing_assignments_both_succeed assign_dan assign_dora
                (market true [order1 None "pending"])
                [(true, 10); (false, 11); (true, 12); (false, 13); (false, 14); (true, 15)]
                eq_refl eq_refl eq_refl eq_refl) as H.
  cbv zeta in H. destruct H as (Hfirst & Hsecond & _).
  split; [exact Hfirst|]. split; [exact Hsecond|].
  vm_compute. reflexivity.
Defined.

(** C3, as the code has it.  The handler of
    [PATCH /api/orders/:id/assign] never reads the order's status.  It
    answers 200 exactly when the sender is a vendor, the order exists
    and is the sender's, and the partner exists and is online; then the
    world is the one after the assignment write.  Any other answer is
    400, 403 or 404 and leaves the world, the order's row included, as
    it was; in particular a call naming a partner that does not exist
    or is offline is refused. *)
Theorem assign_refuses_unavailable_partner {host : TimeZone}
    (now : Z) (user : SessionUser) (id p : Z) (w : World) :
  let req := {| ar_user := user; ar_orderId := id; ar_deliveryPartnerId := p |} in
  exists r w',
    patch_order_assign now user id p w = (Returned r, w')
    /\ (code r = 200 <-> assignable w req = true)
    /\ (code r = 200 -> w' = assigned_world now id p w)
    /\ (code r <> 200 -> w' = w /\ In (code r) [400; 403; 404])
    /\ (match first_row (filter (eq_ DeliveryPartner.id p)
                           (deliveryPartners (db w))) with
        | Some partner => DeliveryPartner.isOnline partner = false
        | None => True
        end -> code r <> 200).
Proof.
  cbv zeta. rewrite patch_order_assign_run. unfold assignable.
  cbn [ar_user ar_orderId ar_deliveryPartnerId].
  destruct (requireRole ["vendor"] user); cbn [negb andb].
  - destruct (order_of w id) as [o|].
    + destruct (strict_eq (Some (Order.vendorId o)) (su_vendorId user));
        cbn [negb andb].
      * destruct (first_row (filter (eq_ DeliveryPartner.id p)
                               (deliveryPartners (db w)))) as [partner|].
        -- destruct (DeliveryPartner.isOnline partner); cbn [negb];
             eexists _, _; (split; [reflexivity|]); cbn;
             repeat split; try congruence; try (intros; discriminate); auto.
        -- eexists _, _; (split; [reflexivity|]); cbn;
             repeat split; try congruence; try (intros; discriminate); auto.
      * eexists _, _; (split; [reflexivity|]); cbn;
          repeat split; try congruence; try (intros; discriminate); auto.
    + eexists _, _; (split; [reflexivity|]); cbn;
        repeat split; try congruence; try (intros; discriminate); auto.
  - eexists _, _; (split; [reflexivity|]); cbn;
      repeat split; try congruence; try (intros; discriminate); auto.
Qed.

(** C3, counterexample.  Order 1 is [delivered] and Dan's; Vera asks to
    assign it to Dora, who is online.  The call is answered 200 and the
    row now reads [assigned], partner 2. *)
Lemma delivered_order_reassigned :
  let w := market true [order1 (Some 1) "delivered"] in
  let (r, w') := patch_order_assign 1700000100000 vera_session 1 2 w in
  option_map Order.status (order_of w 1) = Some "delivered"
  /\ r = Returned (respond 200 "Delivery partner assigned")
  /\ option_map Order.status (order_of w' 1) = Some "assigned"
  /\ option_map Order.deliveryPartnerId (order_of w' 1) = Some (Some 2).
Proof. vm_compute. repeat split. Qed.

(** Dora is offline: the call is refused and nothing changes. *)
Lemma assign_refuses_unavailable_partner_witness :
  exists r,
    patch_order_assign 1700000100000 vera_session 1 2
      (market false [order1 None "pending"])
    = (Returned r, market false [order1 None "pending"])
    /\ code r <> 200.
Proof.
  destruct (assign_refuses_unavailable_partner 1700000100000 vera_session 1 2
              (market false [order1 None "pending"]))
    as (r & w' & Hrun & _ & _ & Hrefused & Hoffline).
  exists r.
  assert (Hcode : code r <> 200) by (apply Hoffline; reflexivity).
  destruct (Hrefused Hcode) as [-> _].
  split; [exact Hrun | exact Hcode].
Defined.

(** ** Status updates over the socket *)

(** The acknowledgments of one handled [order_status_update]: one
    success on the sender's connection when the update was applied,
    none at all when the order is missing or the sender may not update. *)
Lemma status_update_acks (now sid : Z) (user : SessionUser) (id : Z)
    (status : string) (w : World) :
  exists sent,
    outbox (snd (on_order_status_update now sid user id status w))
    = outbox w ++ sent
    /\ filter is_status_ack sent
       = match order_of w id with
         | Some o =>
             if canUpdate user o
             then [{| target := socket sid;
                      event := "order_status_update_success";
                      payload := no_payload |}]
             else []
         | None => []
         end.
Proof.
  rewrite on_order_status_update_run.
  destruct (order_of w id) as [o|];
    [|exists []; rewrite app_nil_r; split; reflexivity].
  destruct (canUpdate user o);
    [|exists []; rewrite app_nil_r; split; reflexivity].
  eexists. split; [reflexivity|].
  rewrite filter_app. unfold status_broadcasts, if_truthy.
  destruct (first_row (filter (eq_ Vendor.id (Order.vendorId o)) (vendors (db w))));
    (destruct (Order.deliveryPartnerId o) as [p|]; [destruct (p =? 0)|]);
    try destruct (first_row
                    (filter (eq_ DeliveryPartner.id p) (deliveryPartners (db w))));
    reflexivity.
Qed.

(** C4, at the failing input.  Dan is the partner assigned to order 1.
    His connection is admitted, and the user stored for it has no
    partner id.  His [order_status_update] for order 1 with [picked_up]
    leaves the world as it was: the status is not written and nothing
    is emitted.  The same event handled with the session
    [authenticateToken] builds for Dan is applied, broadcast to the
    customer, the vendor and the partner, and acknowledged. *)
Theorem assigned_partner_status_update_is_dropped :
  let w := market true [order1 (Some 1) "assigned"] in
  let e := order_status_update 1 "picked_up" in
  fst (io_use sample_jwt_verify (Some "dan-token") w)
  = Returned (inr {| su_id := 3; su_username := "dan"; su_role := "delivery";
                     su_vendorId := None; su_deliveryPartnerId := None |})
  /\ fst (storage.getDeliveryPartnerByUserId 3 w)
     = Returned (Some (DeliveryPartner.mk 1 3 true None None None))
  /\ option_map Order.deliveryPartnerId (order_of w 1) = Some (Some 1)
  /\ socket_session sample_jwt_verify (Some "dan-token") 1700000300000 7 e w
     = (Returned tt, w)
  /\ fst (authenticateToken sample_jwt_verify (Some "dan-token") w)
     = Returned (inr dan_session)
  /\ (let w' := snd (on_connection 1700000300000 7 dan_session e w) in
      option_map Order.status (order_of w' 1) = Some "picked_up"
      /\ map target (outbox w')
         = [to (user_ 2); to (user_ 1); to (user_ 3); socket 7]).
Proof. vm_compute. repeat split. Qed.

(** C8, at the failing inputs.  An [order_status_update] that names an
    order that does not exist, and one from a partner who is not the
    order's, both return with the world as it was, the outbox
    included: the sender is sent neither [order_status_update_success]
    nor [order_status_update_error]. *)
Theorem refused_status_update_is_not_answered :
  let w := market true [order1 None "pending"] in
  order_of w 99 = None
  /\ on_order_status_update 1700000300000 7 dan_session 99 "picked_up" w
     = (Returned tt, w)
  /\ option_map (canUpdate dan_session) (order_of w 1) = Some false
  /\ on_order_status_update 1700000300000 7 dan_session 1 "picked_up" w
     = (Returned tt, w)
  /\ filter is_status_ack (outbox w) = [].
Proof. vm_compute. repeat split. Qed.

(** ** Ordering by decreasing key *)

Section OrderByDesc.

Context {R : Type} (key : R -> Z).

Let ge_key (a b : R) : Prop := key a >= key b.
Let gt_key (a b : R) : Prop := key a > key b.

Lemma insert_desc_perm (x : R) (l : list R) :
  Permutation (insert_desc key x l) (x :: l).
Proof.
  induction l as [|y ys IH]; cbn [insert_desc]; [reflexivity|].
  destruct (key y <=? key x); [reflexivity|].
  rewrite IH. apply perm_swap.
Qed.

Lemma orderBy_desc_perm (rows : list R) :
  Permutation (orderBy_desc key rows) rows.
Proof.
  induction rows as [|x rows IH]; cbn [orderBy_desc fold_right]; [reflexivity|].
  fold (orderBy_desc key rows). rewrite insert_desc_perm, IH. reflexivity.
Qed.

Lemma insert_desc_sorted (x : R) (l : list R) :
  StronglySorted ge_key l -> StronglySorted ge_key (insert_desc key x l).
Proof.
  induction l as [|y ys IH]; cbn [insert_desc]; intros Hs.
  - constructor; constructor.
  - inversion Hs as [|? ? Hys Hy]; subst.
    destruct (Z.leb_spec (key y) (key x)) as [Hle | Hgt].
    + constructor; [exact Hs|]. constructor.
      * unfold ge_key. lia.
      * eapply Forall_impl; [|exact Hy]. unfold ge_key. intros z Hz. lia.
    + constructor; [apply IH; exact Hys|].
      rewrite insert_desc_perm. constructor; [|exact Hy].
      unfold ge_key. lia.
Qed.

Lemma orderBy_desc_sorted (rows : list R) :
  StronglySorted ge_key (orderBy_desc key rows).
Proof.
  induction rows as [|x rows IH]; cbn [orderBy_desc fold_right].
  - constructor.
  - apply insert_desc_sorted. exact IH.
Qed.

(** Rows in decreasing order whose keys are pairwise distinct are in
    strictly decreasing order. *)
Lemma sorted_distinct_strict (rows : list R) :
  StronglySorted ge_key rows -> NoDup (map key rows) ->
  StronglySorted gt_key rows.
Proof.
  induction rows as [|x rows IH]; intros Hs Hd; [constructor|].
  inversion Hs as [|? ? Hrows Hx]; subst.
  cbn [map] in Hd. inversion Hd as [|? ? Hnotin Hd']; subst.
  constructor; [apply IH; assumption|].
  rewrite Forall_forall in Hx |- *. intros y Hy.
  specialize (Hx y Hy). unfold ge_key in Hx. unfold gt_key.
  assert (key x <> key y).
  { intros Heq. apply Hnotin. rewrite Heq. apply in_map. exact Hy. }
  lia.
Qed.

(** The first row in decreasing order has the greatest key. *)
Lemma first_row_greatest (rows : list R) (x : R) :
  first_row (orderBy_desc key rows) = Some x ->
  In x rows /\ forall y, In y rows -> key y <= key x.
Proof.
  intros Hx. pose proof (orderBy_desc_sorted rows) as Hs.
  pose proof (orderBy_desc_perm rows) as Hp.
  destruct (orderBy_desc key rows) as [|x' sorted]; [discriminate|].
  injection Hx as ->. split.
  - apply (Permutation_in _ Hp). left. reflexivity.
  - intros y Hy. apply (Permutation_in _ (Permutation_sym Hp)) in Hy.
    inversion Hs as [|? ? _ Hall]; subst.
    destruct Hy as [-> | Hy]; [lia|].
    rewrite Forall_forall in Hall. specialize (Hall y Hy).
    unfold ge_key in Hall. lia.
Qed.

Lemma first_row_orderBy_none (rows : list R) :
  first_row (orderBy_desc key rows) = None <-> rows = [].
Proof.
  pose proof (orderBy_desc_perm rows) as Hp. split.
  - intros H. destruct (orderBy_desc key rows); [|discriminate].
    apply Permutation_nil. exact Hp.
  - intros ->. reflexivity.
Qed.

End OrderByDesc.

(** ** The location ledger *)

Lemma getLocationHistory_run (partnerId : Z) (orderId : option Z) (w : World) :
  orderId <> Some 0 ->
  storage.getLocationHistory partnerId orderId w
  = (Returned (orderBy_desc LocationUpdate.timestamp
                 (filter (asked_for partnerId orderId) (locationUpdates (db w)))),
     w).
Proof.
  intros Hnz. unfold storage.getLocationHistory, query. f_equal. f_equal.
  f_equal. apply filter_ext. intros l.
  unfold asked_for, and_, eq_, eq_nullable, if_truthy.
  destruct orderId as [o|].
  - destruct (Z.eqb_spec o 0) as [-> | _]; [contradiction|].
    cbn. rewrite !andb_true_r. reflexivity.
  - cbn. reflexivity.
Qed.

(** C7, as the code has it.  For a partner and an order id other than
    0, or no order id, [getLocationHistory] returns exactly the samples
    of that partner (tagged with that order, when one is given), newest
    first: timestamps never increase along the result, and they
    strictly decrease when no two of the returned samples carry the
    same timestamp. *)
Theorem getLocationHistory_newest_first
    (partnerId : Z) (orderId : option Z) (w : World) :
  orderId <> Some 0 ->
  exists rows,
    storage.getLocationHistory partnerId orderId w = (Returned rows, w)
    /\ Permutation rows
         (filter (asked_for partnerId orderId) (locationUpdates (db w)))
    /\ (forall l, In l rows <->
          In l (locationUpdates (db w)) /\ asked_for partnerId orderId l = true)
    /\ newest_first rows
    /\ (NoDup (map LocationUpdate.timestamp rows) -> strictly_newest_first rows).
Proof.
  intros Hnz. eexists. split; [apply getLocationHistory_run; exact Hnz|].
  split; [apply orderBy_desc_perm|]. split; [|split].
  - intros l. rewrite <- filter_In. split; apply Permutation_in;
      [|apply Permutation_sym]; apply orderBy_desc_perm.
  - apply orderBy_desc_sorted.
  - apply sorted_distinct_strict. apply orderBy_desc_sorted.
Qed.

(** C7, counterexample.  Two samples of Dan are stored at the same
    clock reading.  His history holds both with equal timestamps, so it
    is not in strictly descending order, in whichever order the two
    come back. *)
Lemma same_instant_samples_are_not_strictly_ordered :
  let sample (lat : Q) :=
    call_createLocationUpdate
      {| il_deliveryPartnerId := 1; il_latitude := lat;
         il_longitude := -74; il_orderId := None |} in
  let w := perform_all [(1700000500000, sample 40.71%Q); (1700000500000, sample 40.72%Q)]
             (market true []) in
  exists l1 l2,
    fst (storage.getLocationHistory 1 None w) = Returned [l1; l2]
    /\ LocationUpdate.timestamp l1 = LocationUpdate.timestamp l2
    /\ ~ strictly_newest_first [l1; l2]
    /\ ~ strictly_newest_first [l2; l1].
Proof.
  cbv zeta. eexists _, _. split; [vm_compute; reflexivity|].
  split; [reflexivity|].
  split; intros H; inversion H as [|? ? _ Hall]; subst;
    inversion Hall as [|? ? Hgt _]; subst; cbn in Hgt; lia.
Qed.

(** Dan has three samples, two of them tagged with order 1; his
    history for order 1 is those two, the later one first. *)
Lemma getLocationHistory_newest_first_witness :
  let sample t (lat : Q) o :=
    (t, call_createLocationUpdate
          {| il_deliveryPartnerId := 1; il_latitude := lat;
             il_longitude := -74; il_orderId := o |}) in
  let w := perform_all [sample 1700000500000 40.71%Q None;
                        sample 1700000600000 40.72%Q (Some 1);
                        sample 1700000700000 40.73%Q (Some 1)]
             (market true [order1 (Some 1) "assigned"]) in
  exists rows,
    storage.getLocationHistory 1 (Some 1) w = (Returned rows, w)
    /\ newest_first rows
    /\ map LocationUpdate.timestamp rows = [1700000700000; 1700000600000].
Proof.
  cbv zeta.
  assert (Hnz : Some 1 <> Some 0) by discriminate.
  match goal with
  | |- exists rows, storage.getLocationHistory 1 (Some 1) ?w = _ /\ _ =>
      destruct (getLocationHistory_newest_first 1 (Some 1) w Hnz)
        as (rows & Hrun & _ & _ & Hsorted & _)
  end.
  exists rows. split; [exact Hrun|]. split; [exact Hsorted|].
  apply (f_equal fst) in Hrun. vm_compute in Hrun.
  injection Hrun as <-. reflexivity.
Defined.

(** ** Order numbers *)

Lemma order_number_not_empty (now : Z) : order_number_of now <> "".
Proof. unfold order_number_of. cbn. discriminate. Qed.

Lemma violates_unique_false (d : Db) (n : string) :
  violates_unique_order_number d n = false ->
  ~ In n (map Order.orderNumber (orders d)).
Proof.
  unfold violates_unique_order_number. intros H Hin.
  apply in_map_iff in Hin as (o & Ho & Hin).
  assert (Ht : existsb (fun o => String.eqb (Order.orderNumber o) n) (orders d) = true).
  { apply existsb_exists. exists o. split; [exact Hin|].
    rewrite Ho. apply String.eqb_refl. }
  congruence.
Qed.

Lemma update_keeps_keys {A} (set : OrderSet) (key : Z) (os : list Order.t)
    (f : Order.t -> A) :
  (forall o, f (set_order set o) = f o) ->
  map f (update_where_id Order.id (set_order set) key os) = map f os.
Proof.
  intros Hf. unfold update_where_id. rewrite map_map. apply map_ext.
  intros o. destruct (Order.id o =? key); [apply Hf | reflexivity].
Qed.

(** What a statement does to [orders]: nothing, a rewrite of rows that
    keeps keys and order numbers, or the append of a row with the next
    key and an order number no row has. *)
Lemma run_statement_orders (now : Z) (s : Statement) (d : Db) :
  let d' := snd (run_statement now s d) in
  orders_id_seq d <= orders_id_seq d'
  /\ (orders d' = orders d
      \/ (exists set key,
            orders d' = update_where_id Order.id (set_order set) key (orders d)
            /\ orders_id_seq d' = orders_id_seq d)
      \/ (exists v v' n u,
            s = insert_orders v n u
            /\ order_columns v = Returned v'
            /\ ~ In n (map Order.orderNumber (orders d))
            /\ orders d' = orders d ++ [new_order d now v' n u]
            /\ orders_id_seq d' = orders_id_seq d + 1)).
Proof.
  destruct s as [set key | set key | v n u | v]; cbn [run_statement].
  - destruct (has_id Order.id key (orders d) && _); cbn.
    + split; [lia | left; reflexivity].
    + split; [lia|]. right. left. exists set, key. split; reflexivity.
  - destruct (set_currentLatitude set) as [lat|];
      [destruct (set_currentLongitude set) as [lon|];
       [destruct (decimal 10 8 lat); [destruct (decimal 11 8 lon)|]|]|];
      cbn; (split; [lia | left; reflexivity]).
  - destruct (order_columns v) as [v'|err] eqn:Hcolumns; cbn;
      [|split; [lia | left; reflexivity]].
    destruct (20 <? Z.of_nat (String.length n)); cbn;
      [split; [lia | left; reflexivity]|].
    destruct (violates_unique_order_number d n) eqn:Hu; cbn;
      [split; [lia | left; reflexivity]|].
    destruct (negb _); cbn; [split; [lia | left; reflexivity]|].
    split; [lia|]. right. right. exists v, v', n, u.
    split; [reflexivity|]. split; [exact Hcolumns|].
    split; [apply violates_unique_false; exact Hu|].
    split; reflexivity.
  - destruct (decimal 10 8 (il_latitude v));
      [destruct (decimal 11 8 (il_longitude v)); [destruct (negb _)|]|];
      cbn; (split; [lia | left; reflexivity]).
Qed.

Lemma run_statement_wf (now : Z) (s : Statement) (d : Db) :
  numbered s -> orders_wf d ->
  orders_wf (snd (run_statement now s d))
  /\ exists extra, order_keys (snd (run_statement now s d)) = order_keys d ++ extra.
Proof.
  intros Hs [Hnum Hne Hids Hseq].
  destruct (run_statement_orders now s d) as [Hle [Heq | [Hupd | Hins]]];
    cbv zeta in *.
  - split.
    + constructor; rewrite ?Heq; try assumption.
      eapply Forall_impl; [|exact Hseq]. cbn. intros o Ho. lia.
    + exists []. unfold order_keys. rewrite Heq, app_nil_r. reflexivity.
  - destruct Hupd as (set & key & Heq & Hseq').
    split.
    + constructor; rewrite Heq.
      * rewrite update_keeps_keys by reflexivity. exact Hnum.
      * unfold update_where_id. apply Forall_map.
        eapply Forall_impl; [|exact Hne]. cbn. intros o Ho.
        destruct (Order.id o =? key); exact Ho.
      * rewrite update_keeps_keys by reflexivity. exact Hids.
      * unfold update_where_id. apply Forall_map. rewrite Hseq'.
        eapply Forall_impl; [|exact Hseq]. cbn. intros o Ho.
        destruct (Order.id o =? key); exact Ho.
    + exists []. unfold order_keys.
      rewrite Heq, update_keeps_keys by reflexivity. rewrite app_nil_r. reflexivity.
  - destruct Hins as (v & v' & n & u & -> & _ & Hfresh & Heq & Hseq').
    assert (Hbelow : ~ In (orders_id_seq d) (map Order.id (orders d))).
    { intros Hin. apply in_map_iff in Hin as (o & Ho & Hin).
      rewrite Forall_forall in Hseq. specialize (Hseq o Hin). lia. }
    split.
    + constructor; rewrite Heq.
      * rewrite map_app. cbn [map new_order Order.orderNumber].
        apply NoDup_app; [exact Hnum | constructor; [intros []|constructor]|].
        intros x Hx [<- | []]. exact (Hfresh Hx).
      * apply Forall_app. split; [exact Hne|]. constructor; [exact Hs|constructor].
      * rewrite map_app. cbn [map new_order Order.id].
        apply NoDup_app; [exact Hids | constructor; [intros []|constructor]|].
        intros x Hx [<- | []]. exact (Hbelow Hx).
      * rewrite Hseq'. apply Forall_app. split.
        -- eapply Forall_impl; [|exact Hseq]. cbn. intros o Ho. lia.
        -- constructor; [cbn; lia | constructor].
    + eexists. unfold order_keys. rewrite Heq, map_app. reflexivity.
Qed.

(** Every write method sends one statement, and an insert into
    [orders] carries the number [createOrder] generates. *)
Lemma perform_statement {host : TimeZone} (w : World) (c : Z * StorageCall) :
  exists s, numbered s /\ db (perform w c) = snd (run_statement (fst c) s (db w)).
Proof.
  destruct c as [now call]. cbn [fst].
  destruct call; cbn [perform];
    unfold storage.createOrder, storage.updateOrderStatus,
      storage.assignDeliveryPartner, storage.updateDeliveryPartnerLocation,
      storage.updateDeliveryPartnerStatus, storage.createLocationUpdate,
      bind, execute, ret, throw;
    match goal with
    | |- context [run_statement now ?s (db w)] =>
        exists s; split;
        [ try exact I; apply order_number_not_empty
        | destruct (run_statement now s (db w)) as [[rows|err] d];
          [destruct rows|]; reflexivity ]
    end.
Qed.

Lemma perform_wf {host : TimeZone} (w : World) (c : Z * StorageCall) :
  orders_wf (db w) ->
  orders_wf (db (perform w c))
  /\ exists extra, order_keys (db (perform w c)) = order_keys (db w) ++ extra.
Proof.
  intros Hwf. destruct (perform_statement w c) as (s & Hs & ->).
  apply run_statement_wf; assumption.
Qed.

Lemma perform_all_wf {host : TimeZone} (calls : list (Z * StorageCall)) (w : World) :
  orders_wf (db w) ->
  orders_wf (db (perform_all calls w))
  /\ exists extra,
       order_keys (db (perform_all calls w)) = order_keys (db w) ++ extra.
Proof.
  revert w. induction calls as [|c calls IH]; intros w Hwf; cbn [perform_all fold_left].
  - split; [exact Hwf|]. exists []. rewrite app_nil_r. reflexivity.
  - destruct (perform_wf w c Hwf) as [Hwf' [extra1 Hk1]].
    destruct (IH (perform w c) Hwf') as [Hwf'' [extra2 Hk2]].
    split; [exact Hwf''|]. exists (extra1 ++ extra2).
    unfold perform_all in Hk2. rewrite Hk2, Hk1, app_assoc. reflexivity.
Qed.

Lemma empty_orders_wf (d : Db) : orders d = [] -> orders_wf d.
Proof. intros H. constructor; rewrite H; constructor. Qed.

Lemma NoDup_map_injective {A B} (f : A -> B) (l : list A) (a b : A) :
  NoDup (map f l) -> In a l -> In b l -> f a = f b -> a = b.
Proof.
  induction l as [|x l IH]; intros Hnd Ha Hb Hf; [destruct Ha|].
  cbn [map] in Hnd. inversion Hnd as [|? ? Hx Hl]; subst.
  destruct Ha as [-> | Ha], Hb as [-> | Hb]; try reflexivity.
  - exfalso. apply Hx. rewrite Hf. apply in_map. exact Hb.
  - exfalso. apply Hx. rewrite <- Hf. apply in_map. exact Ha.
  - apply IH; assumption.
Qed.

(** In a well-formed table a read by key finds the row with that key. *)
Lemma order_of_key (w : World) (id : Z) (n : string) :
  orders_wf (db w) -> In (id, n) (order_keys (db w)) ->
  exists o, order_of w id = Some o /\ Order.id o = id /\ Order.orderNumber o = n.
Proof.
  intros Hwf Hin. unfold order_keys in Hin.
  apply in_map_iff in Hin as (o & Ho & Hin). injection Ho as Hid Hn.
  assert (Hhas : has_id Order.id id (orders (db w)) = true).
  { apply existsb_exists. exists o. split; [exact Hin|]. apply Z.eqb_eq. exact Hid. }
  apply has_id_first_row in Hhas as [o' Ho'].
  exists o'. split; [exact Ho'|].
  apply first_row_filter_id in Ho' as [Hin' Hid'].
  split; [exact Hid'|].
  assert (o' = o); [|subst; reflexivity].
  apply (NoDup_map_injective Order.id _ _ _ (wf_ids _ Hwf) Hin' Hin).
  congruence.
Qed.

(** C5.  Start from an empty [orders] table and make any calls of the
    storage's write methods.  Then the orders in the table have
    pairwise distinct order numbers, none of them empty; a read by key
    finds each order; and after any further calls a read of the same
    key finds an order with the same order number. *)
Theorem order_numbers_unique_and_stable {host : TimeZone}
    (w : World) (calls later : list (Z * StorageCall)) :
  orders (db w) = [] ->
  let w1 := perform_all calls w in
  let w2 := perform_all later w1 in
  NoDup (map Order.orderNumber (orders (db w1)))
  /\ (forall o1 o2, In o1 (orders (db w1)) -> In o2 (orders (db w1)) ->
        o1 <> o2 -> Order.orderNumber o1 <> Order.orderNumber o2)
  /\ (forall o, In o (orders (db w1)) -> Order.orderNumber o <> "")
  /\ (forall o, In o (orders (db w1)) ->
        order_of w1 (Order.id o) = Some o
        /\ exists o', order_of w2 (Order.id o) = Some o'
             /\ Order.orderNumber o' = Order.orderNumber o).
Proof.
  intros Hempty. cbv zeta.
  destruct (perform_all_wf calls w (empty_orders_wf _ Hempty)) as [Hwf1 _].
  destruct (perform_all_wf later _ Hwf1) as [Hwf2 [extra Hkeys]].
  split; [exact (wf_numbers _ Hwf1)|]. split; [|split].
  - intros o1 o2 H1 H2 Hneq Hn. apply Hneq.
    exact (NoDup_map_injective _ _ _ _ (wf_numbers _ Hwf1) H1 H2 Hn).
  - apply Forall_forall. exact (wf_nonempty _ Hwf1).
  - intros o Ho.
    assert (Hk : In (Order.id o, Order.orderNumber o)
                   (order_keys (db (perform_all calls w)))).
    { unfold order_keys.
      apply (in_map (fun o => (Order.id o, Order.orderNumber o))). exact Ho. }
    split.
    + destruct (order_of_key _ _ _ Hwf1 Hk) as (o' & Ho' & Hid & _).
      rewrite Ho'. f_equal.
      apply first_row_filter_id in Ho' as [Hin' _].
      exact (NoDup_map_injective _ _ _ _ (wf_ids _ Hwf1) Hin' Ho Hid).
    + assert (Hk2 : In (Order.id o, Order.orderNumber o)
                      (order_keys (db (perform_all later (perform_all calls w))))).
      { rewrite Hkeys. apply in_or_app. left. exact Hk. }
      destruct (order_of_key _ _ _ Hwf2 Hk2) as (o' & Ho' & _ & Hn).
      exists o'. split; assumption.
Qed.

(** Two orders created one millisecond apart, then a status update and
    an assignment of the first. *)
Lemma order_numbers_unique_and_stable_witness :
  let calls := [(1700000000000, call_createOrder carls_order);
                (1700000000001, call_createOrder carls_order)] in
  let later := [(1700000000002, call_assignDeliveryPartner 1 1);
                (1700000000003, call_updateOrderStatus 1 "picked_up")] in
  let w1 := perform_all calls (market true []) in
  let w2 := perform_all later w1 in
  map Order.orderNumber (orders (db w1)) = ["ORD-1700000000000"; "ORD-1700000000001"]
  /\ NoDup (map Order.orderNumber (orders (db w1)))
  /\ option_map Order.status (order_of w2 1) = Some "picked_up"
  /\ option_map Order.orderNumber (order_of w2 1) = Some "ORD-1700000000000".
Proof.
  cbv zeta. split; [vm_compute; reflexivity|]. split.
  - exact (proj1 (order_numbers_unique_and_stable (market true [])
                    [(1700000000000, call_createOrder carls_order);
                     (1700000000001, call_createOrder carls_order)]
                    [(1700000000002, call_assignDeliveryPartner 1 1);
                     (1700000000003, call_updateOrderStatus 1 "picked_up")]
                    eq_refl)).
  - vm_compute. split; reflexivity.
Defined.

(** A second [createOrder] within the same millisecond generates the
    number of the first; the insert is refused by the unique constraint
    and no second order comes to exist. *)
Lemma same_millisecond_order_is_refused :
  let w1 := perform (market true []) (1700000000000, call_createOrder carls_order) in
  let (r, w2) := post_orders 1700000000000 vera_session carls_order w1 in
  r = Returned (respond 400 "duplicate key value violates unique constraint")
  /\ orders (db w2) = orders (db w1)
  /\ List.length (orders (db w1)) = 1%nat.
Proof. vm_compute. repeat split. Qed.

(** ** Position samples *)

Lemma Qfloor_half_le (y : Q) (K : Z) :
  (y <= inject_Z K + (1 # 2))%Q -> Qfloor y <= K.
Proof.
  intros Hy. pose proof (Qfloor_le y) as Hf.
  assert (H : (inject_Z (Qfloor y) < inject_Z (K + 1))%Q).
  { rewrite inject_Z_plus. change (inject_Z 1) with 1%Q. lra. }
  rewrite <- Zlt_Qlt in H. lia.
Qed.

Lemma Qfloor_nonneg (y : Q) : (0 <= y)%Q -> 0 <= Qfloor y.
Proof.
  intros Hy. change 0 with (Qfloor 0). apply Qfloor_resp_le. exact Hy.
Qed.

Lemma round_half_away_bounds (x : Q) (K : Z) :
  0 <= K -> (- inject_Z K <= x)%Q -> (x <= inject_Z K)%Q ->
  - K <= round_half_away x <= K.
Proof.
  intros HK Hlo Hhi. unfold round_half_away.
  destruct (Qle_bool 0 x) eqn:Hsign.
  - apply Qle_bool_iff in Hsign.
    assert (Hup : Qfloor (x + (1 # 2)) <= K) by (apply Qfloor_half_le; lra).
    assert (Hdown : 0 <= Qfloor (x + (1 # 2))) by (apply Qfloor_nonneg; lra).
    lia.
  - assert (Hneg : (x < 0)%Q).
    { apply Qnot_le_lt. intros H. apply Qle_bool_iff in H. congruence. }
    assert (Hup : Qfloor (- x + (1 # 2)) <= K) by (apply Qfloor_half_le; lra).
    assert (Hdown : 0 <= Qfloor (- x + (1 # 2))) by (apply Qfloor_nonneg; lra).
    lia.
Qed.

Lemma decimal_bounds (precision : Z) (q v : Q) (k : Z) :
  0 <= k -> (- inject_Z k <= q)%Q -> (q <= inject_Z k)%Q ->
  decimal precision 8 q = Some v ->
  (- inject_Z k <= v)%Q /\ (v <= inject_Z k)%Q.
Proof.
  intros Hk Hlo Hhi. unfold decimal.
  destruct (Z.abs _ <? 10 ^ precision); [|discriminate].
  intros Hv. injection Hv as <-.
  pose proof (round_half_away_bounds (q * inject_Z (10 ^ 8)) (k * 10 ^ 8)) as Hr.
  assert (H8 : (inject_Z (k * 10 ^ 8) == inject_Z k * inject_Z (10 ^ 8))%Q)
    by (rewrite inject_Z_mult; reflexivity).
  assert (Hpos : (0 < inject_Z (10 ^ 8))%Q) by reflexivity.
  destruct Hr as [Hr1 Hr2].
  - lia.
  - rewrite H8. setoid_replace (- (inject_Z k * inject_Z (10 ^ 8)))%Q
      with ((- inject_Z k) * inject_Z (10 ^ 8))%Q by ring.
    apply Qmult_le_compat_r; [exact Hlo | apply Qlt_le_weak; exact Hpos].
  - rewrite H8. apply Qmult_le_compat_r; [exact Hhi | apply Qlt_le_weak; exact Hpos].
  - change (Z.pow_pos 10 8) with 100000000 in *.
    change (10 ^ 8) with 100000000 in *.
    revert Hr1 Hr2. generalize (round_half_away (q * inject_Z 100000000)).
    intros n Hr1 Hr2. unfold Qle. cbn. lia.
Qed.

(** What a statement does to [location_updates]: nothing, or the append
    of the sample with its coordinates fitted to their columns. *)
Lemma run_statement_locations (now : Z) (s : Statement) (d : Db) :
  let d' := snd (run_statement now s d) in
  locationUpdates d' = locationUpdates d
  \/ exists v lat lon,
       s = insert_locationUpdates v
       /\ decimal 10 8 (il_latitude v) = Some lat
       /\ decimal 11 8 (il_longitude v) = Some lon
       /\ locationUpdates d' = locationUpdates d ++ [new_locationUpdate d now v lat lon].
Proof.
  destruct s as [set key | set key | v n u | v]; cbn [run_statement].
  - destruct (has_id Order.id key (orders d) && _); left; reflexivity.
  - destruct (set_currentLatitude set) as [lat|];
      [destruct (set_currentLongitude set) as [lon|];
       [destruct (decimal 10 8 lat); [destruct (decimal 11 8 lon)|]|]|];
      left; reflexivity.
  - destruct (order_columns v); [|left; reflexivity].
    destruct (20 <? Z.of_nat (String.length n)); [left; reflexivity|].
    destruct (violates_unique_order_number d n); [left; reflexivity|].
    destruct (negb _); left; reflexivity.
  - destruct (decimal 10 8 (il_latitude v)) as [lat|] eqn:Hlat; [|left; reflexivity].
    destruct (decimal 11 8 (il_longitude v)) as [lon|] eqn:Hlon; [|left; reflexivity].
    destruct (negb _); [left; reflexivity|].
    right. exists v, lat, lon. split; [reflexivity|].
    split; [exact Hlat|]. split; [exact Hlon | reflexivity].
Qed.

(** The sibling of the socket handler: whatever
    [POST /api/location/update] stores lies in the ranges of
    [updateLocationSchema]. *)
Lemma post_location_update_stores_in_range (now : Z) (user : SessionUser)
    (body : LocationData) (w : World) :
  exists r w' stored,
    post_location_update now user body w = (Returned r, w')
    /\ locationUpdates (db w') = locationUpdates (db w) ++ stored
    /\ Forall in_range stored.
Proof.
  unfold post_location_update.
  destruct (negb (requireRole ["delivery"] user));
    [exists (respond 403 "Insufficient permissions"), w, [];
     rewrite app_nil_r; repeat split; constructor|].
  unfold try_catch, bind at 1, updateLocationSchema.
  destruct (Qle_bool (-90) (ld_latitude body) && Qle_bool (ld_latitude body) 90
            && Qle_bool (-180) (ld_longitude body) && Qle_bool (ld_longitude body) 180)
    eqn:Hrange;
    [|eexists _, w, []; rewrite app_nil_r; repeat split; constructor].
  apply andb_true_iff in Hrange as [Hrange H4].
  apply andb_true_iff in Hrange as [Hrange H3].
  apply andb_true_iff in Hrange as [H1 H2].
  apply Qle_bool_iff in H1, H2, H3, H4.
  cbn [ret].
  unfold if_truthy.
  destruct (su_deliveryPartnerId user) as [p|];
    [|eexists _, w, []; rewrite app_nil_r; repeat split; constructor].
  destruct (p =? 0);
    [eexists _, w, []; rewrite app_nil_r; repeat split; constructor|].
  unfold storage.updateDeliveryPartnerLocation, storage.createLocationUpdate,
    bind, execute, ret, throw. cbn [db journal outbox].
  match goal with
  | |- context [run_statement now ?s1 (db w)] =>
      pose proof (run_statement_locations now s1 (db w)) as Hfirst;
      destruct (run_statement now s1 (db w)) as [[rows1|err1] d1]
  end; cbn [snd] in Hfirst;
    (destruct Hfirst as [Hfirst | (v & _ & _ & Hv & _)]; [|discriminate Hv]).
  2: { eexists _, _, []. rewrite app_nil_r. repeat split; [exact Hfirst|constructor]. }
  cbn [db journal outbox].
  match goal with
  | |- context [run_statement now ?s2 d1] =>
      pose proof (run_statement_locations now s2 d1) as Hsecond;
      destruct (run_statement now s2 d1) as [[rows2|err2] d2]
  end; cbn [snd] in Hsecond.
  - destruct Hsecond as [Hsecond | (v & lat & lon & Hv & Hlat & Hlon & Hsecond)].
    + destruct rows2; eexists _, _, []; rewrite app_nil_r;
        (repeat split; [cbn; congruence | constructor]).
    + injection Hv as <-. cbn [il_latitude il_longitude] in Hlat, Hlon.
      destruct rows2; eexists _, _, [_];
        (split; [reflexivity|]); (split; [cbn; rewrite Hsecond, Hfirst; reflexivity|]);
        (constructor; [|constructor]);
        destruct (decimal_bounds 10 _ _ 90 ltac:(lia) H1 H2 Hlat) as [? ?];
        destruct (decimal_bounds 11 _ _ 180 ltac:(lia) H3 H4 Hlon) as [? ?];
        repeat split; assumption.
  - destruct Hsecond as [Hsecond | (v & lat & lon & Hv & Hlat & Hlon & Hsecond)].
    + eexists _, _, []. rewrite app_nil_r.
      repeat split; [cbn; congruence | constructor].
    + injection Hv as <-. cbn [il_latitude il_longitude] in Hlat, Hlon.
      eexists _, _, [_].
      (split; [reflexivity|]); (split; [cbn; rewrite Hsecond, Hfirst; reflexivity|]).
      constructor; [|constructor].
      destruct (decimal_bounds 10 _ _ 90 ltac:(lia) H1 H2 Hlat) as [? ?].
      destruct (decimal_bounds 11 _ _ 180 ltac:(lia) H3 H4 Hlon) as [? ?].
      repeat split; assumption.
Qed.

(** C6, at the failing input.  Dan sends [location_update] with
    latitude 95 and longitude 200 over his socket.  The sample is
    stored as sent and acknowledged with [location_update_success].
    The same body posted to [/api/location/update] is answered 400 by
    [updateLocationSchema] and nothing is stored. *)
Theorem socket_stores_out_of_range_sample :
  let w := market true [] in
  let data := {| ld_latitude := 95; ld_longitude := 200; ld_orderId := None |} in
  let w' := snd (socket_session sample_jwt_verify (Some "dan-token")
                   1700000400000 7 (location_update data) w) in
  (exists l, locationUpdates (db w') = [l]
      /\ LocationUpdate.deliveryPartnerId l = 1
      /\ (LocationUpdate.latitude l == 95)%Q
      /\ (LocationUpdate.longitude l == 200)%Q
      /\ Qle_bool (LocationUpdate.latitude l) 90 = false
      /\ Qle_bool (LocationUpdate.longitude l) 180 = false)
  /\ outbox w'
     = [{| target := socket 7; event := "location_update_success";
           payload := no_payload |}]
  /\ post_location_update 1700000400000 dan_session data w
     = (Returned (respond 400 "Number out of range"), w).
Proof.
  cbv zeta. split; [|split].
  - eexists. split; [vm_compute; reflexivity|]. vm_compute. repeat split.
  - vm_compute. reflexivity.
  - vm_compute. reflexivity.
Qed.

(** ** The latest sample *)

(** The ledger only grows: no storage call removes or rewrites a
    sample. *)
Lemma perform_all_keeps_samples {host : TimeZone} (calls : list (Z * StorageCall)) (w : World) :
  exists recorded,
    locationUpdates (db (perform_all calls w)) = locationUpdates (db w) ++ recorded.
Proof.
  revert w. induction calls as [|c calls IH]; intros w; cbn [perform_all fold_left].
  - exists []. rewrite app_nil_r. reflexivity.
  - destruct (IH (perform w c)) as [later Hlater]. unfold perform_all in Hlater.
    destruct (perform_statement w c) as (s & _ & Hdb).
    pose proof (run_statement_locations (fst c) s (db w)) as Hstep.
    cbv zeta in Hstep. rewrite <- Hdb in Hstep. rewrite Hlater.
    destruct Hstep as [-> | (v & lat & lon & _ & _ & _ & ->)].
    + exists later. reflexivity.
    + eexists. rewrite <- app_assoc. reflexivity.
Qed.

(** The head of an answer to [ORDER BY key DESC] is a row with the
    greatest key, and the answer is empty only for no rows. *)
Lemma ordered_by_desc_head {R} (key : R -> Z) (rows : list R) (h : R)
    (rest : list R) :
  ordered_by_desc key rows (h :: rest) ->
  In h rows /\ forall x, In x rows -> key x <= key h.
Proof.
  intros [Hperm Hsorted]. split.
  - apply (Permutation_in _ Hperm). left. reflexivity.
  - intros x Hx. apply (Permutation_in _ (Permutation_sym Hperm)) in Hx.
    apply StronglySorted_inv in Hsorted as [_ Hhead].
    destruct Hx as [<- | Hx]; [lia|].
    rewrite Forall_forall in Hhead. specialize (Hhead x Hx). lia.
Qed.

Lemma ordered_by_desc_nil {R} (key : R -> Z) (rows : list R) :
  ordered_by_desc key rows [] -> rows = [].
Proof. intros [Hperm _]. apply Permutation_nil. exact Hperm. Qed.

Lemma orderBy_desc_ordered {R} (key : R -> Z) (rows : list R) :
  ordered_by_desc key rows (orderBy_desc key rows).
Proof. split; [apply orderBy_desc_perm | apply orderBy_desc_sorted]. Qed.

(** The samples of a partner, as both queries select them. *)
Lemma may_be_history_unfiltered (partnerId : Z) (d : Db)
    (history : list LocationUpdate.t) :
  may_be_history partnerId None d history
  <-> ordered_by_desc LocationUpdate.timestamp
        (filter (eq_ LocationUpdate.deliveryPartnerId partnerId) (locationUpdates d))
        history.
Proof.
  unfold may_be_history, if_truthy. cbv zeta.
  assert (Hfilter :
    filter (and_ [eq_ LocationUpdate.deliveryPartnerId partnerId]) (locationUpdates d)
    = filter (eq_ LocationUpdate.deliveryPartnerId partnerId) (locationUpdates d)).
  { apply filter_ext. intros l. unfold and_. cbn. apply andb_true_r. }
  rewrite Hfilter. reflexivity.
Qed.

Lemma in_samples_of (partnerId : Z) (d : Db) (l : LocationUpdate.t) :
  In l (filter (eq_ LocationUpdate.deliveryPartnerId partnerId) (locationUpdates d))
  <-> In l (locationUpdates d) /\ LocationUpdate.deliveryPartnerId l = partnerId.
Proof. rewrite filter_In. unfold eq_. rewrite Z.eqb_eq. reflexivity. Qed.

(** C10, as the code has it.  The two queries are separate statements
    and each orders the partner's samples by timestamp alone.
    Whatever the database answers to each, the latest sample and the
    first element of the unfiltered history carry the same timestamp,
    the greatest among the partner's samples, and the latest sample is
    in the history; they are the same sample when no other sample of
    the partner carries that timestamp.  The latest is nothing exactly
    when the history is empty, which is exactly when no sample of the
    partner is stored, and a sample once stored stays stored under
    every later storage call.  What [getLatestLocationForPartner] and
    [getLocationHistory] return here are such answers. *)
Theorem latest_has_the_timestamp_of_the_history_head {host : TimeZone}
    (partnerId : Z) (w0 : World) (calls : list (Z * StorageCall))
    (latest : option LocationUpdate.t) (history : list LocationUpdate.t) :
  let w := perform_all calls w0 in
  may_be_latest partnerId (db w) latest ->
  may_be_history partnerId None (db w) history ->
  (latest = None <-> history = [])
  /\ (latest = None <->
      forall l, In l (locationUpdates (db w)) ->
        LocationUpdate.deliveryPartnerId l <> partnerId)
  /\ (forall l, latest = Some l ->
        In l history
        /\ In l (locationUpdates (db w))
        /\ LocationUpdate.deliveryPartnerId l = partnerId
        /\ (forall l', In l' (locationUpdates (db w)) ->
              LocationUpdate.deliveryPartnerId l' = partnerId ->
              LocationUpdate.timestamp l' <= LocationUpdate.timestamp l)
        /\ exists h rest,
             history = h :: rest
             /\ LocationUpdate.timestamp h = LocationUpdate.timestamp l
             /\ ((forall l', In l' history ->
                    LocationUpdate.timestamp l' = LocationUpdate.timestamp l ->
                    l' = l) ->
                 h = l))
  /\ (forall l, In l (locationUpdates (db w0)) -> In l (locationUpdates (db w)))
  /\ (exists l rows,
        storage.getLatestLocationForPartner partnerId w = (Returned l, w)
        /\ may_be_latest partnerId (db w) l
        /\ storage.getLocationHistory partnerId None w = (Returned rows, w)
        /\ may_be_history partnerId None (db w) rows).
Proof.
  cbv zeta. generalize (perform_all_keeps_samples calls w0).
  generalize (perform_all calls w0). intros w [recorded Hrecorded].
  intros (answer & Hanswer & Hlatest) Hhistory.
  apply may_be_history_unfiltered in Hhistory.
  set (samples := filter (eq_ LocationUpdate.deliveryPartnerId partnerId)
                    (locationUpdates (db w))) in *.
  assert (Hfirst : latest = first_row answer)
    by (rewrite Hlatest; destruct answer; reflexivity).
  clear Hlatest.
  assert (Hnone : latest = None <-> samples = []).
  { rewrite Hfirst. split.
    - destruct answer; [|discriminate]. intros _.
      exact (ordered_by_desc_nil _ _ Hanswer).
    - intros Hnil. rewrite Hnil in Hanswer. destruct Hanswer as [Hperm _].
      apply Permutation_sym, Permutation_nil in Hperm. rewrite Hperm. reflexivity. }
  assert (Hempty : history = [] <-> samples = []).
  { split.
    - intros ->. exact (ordered_by_desc_nil _ _ Hhistory).
    - intros Hnil. rewrite Hnil in Hhistory. destruct Hhistory as [Hperm _].
      apply Permutation_sym, Permutation_nil in Hperm. exact Hperm. }
  split; [rewrite Hnone, Hempty; reflexivity|].
  split; [|split; [|split]].
  - rewrite Hnone. split.
    + intros Hnil l Hin Hp.
      assert (Hl : In l samples) by (apply in_samples_of; split; assumption).
      rewrite Hnil in Hl. exact Hl.
    + intros Hnobody. destruct samples as [|l rest] eqn:E; [reflexivity|].
      assert (Hl : In l samples) by (rewrite E; left; reflexivity).
      apply in_samples_of in Hl as [Hin Hp]. destruct (Hnobody l Hin Hp).
  - intros l Hl. rewrite Hfirst in Hl.
    destruct answer as [|l0 answer']; [discriminate|]. injection Hl as ->.
    destruct (ordered_by_desc_head _ _ _ _ Hanswer) as [Hin Hmax].
    pose proof Hin as Hstored. apply in_samples_of in Hstored as [Hstored Hp].
    assert (Hlisted : In l history).
    { destruct Hhistory as [Hperm _].
      exact (Permutation_in _ (Permutation_sym Hperm) Hin). }
    split; [exact Hlisted|]. split; [exact Hstored|]. split; [exact Hp|].
    split.
    + intros l' Hin' Hp'. apply Hmax. apply in_samples_of. split; assumption.
    + destruct history as [|h rest]; [destruct Hlisted|].
      destruct (ordered_by_desc_head _ _ _ _ Hhistory) as [Hh Hhmax].
      exists h, rest. split; [reflexivity|].
      assert (Hsame : LocationUpdate.timestamp h = LocationUpdate.timestamp l).
      { specialize (Hmax h Hh). specialize (Hhmax l Hin). lia. }
      split; [exact Hsame|].
      intros Hunique. apply Hunique; [left; reflexivity | exact Hsame].
  - intros l Hl. rewrite Hrecorded. apply in_or_app. left. exact Hl.
  - eexists _, _. split; [reflexivity|]. split.
    + eexists. split; [apply orderBy_desc_ordered | reflexivity].
    + split; [reflexivity|].
      apply may_be_history_unfiltered. fold samples.
      assert (Hfilter :
        filter (and_ [eq_ LocationUpdate.deliveryPartnerId partnerId])
          (locationUpdates (db w)) = samples).
      { apply filter_ext. intros l. unfold and_. cbn. apply andb_true_r. }
      cbv zeta. unfold if_truthy. rewrite Hfilter. apply orderBy_desc_ordered.
Qed.

(** C10, counterexample.  Dan has two samples of the same instant.
    Both orders of the two are answers to [ORDER BY timestamp DESC]:
    the latest may be the second sample while the history starts with
    the first. *)
Lemma same_instant_latest_is_not_the_history_head :
  let sample (lat : Q) :=
    call_createLocationUpdate
      {| il_deliveryPartnerId := 1; il_latitude := lat;
         il_longitude := -74; il_orderId := None |} in
  let w := perform_all [(1700000500000, sample 40.71%Q); (1700000500000, sample 40.72%Q)]
             (market true []) in
  exists l1 l2,
    locationUpdates (db w) = [l1; l2]
    /\ LocationUpdate.timestamp l1 = LocationUpdate.timestamp l2
    /\ may_be_latest 1 (db w) (Some l2)
    /\ may_be_history 1 None (db w) [l1; l2]
    /\ first_row [l1; l2] <> Some l2.
Proof.
  cbv zeta. eexists _, _. split; [vm_compute; reflexivity|].
  split; [reflexivity|]. split; [|split].
  - eexists [_; _]. split; [|reflexivity]. split.
    + apply perm_swap.
    + repeat constructor; cbn; lia.
  - apply may_be_history_unfiltered. split.
    + apply Permutation_refl.
    + repeat constructor; cbn; lia.
  - cbn. discriminate.
Qed.

(** Dan has three samples of different instants; the one of
    1700000700000 is the latest whatever the database answers. *)
Lemma latest_has_the_timestamp_of_the_history_head_witness :
  let sample t (lat : Q) o :=
    (t, call_createLocationUpdate
          {| il_deliveryPartnerId := 1; il_latitude := lat;
             il_longitude := -74; il_orderId := o |}) in
  let calls := [sample 1700000500000 40.71%Q None;
                sample 1700000700000 40.73%Q (Some 1);
                sample 1700000600000 40.72%Q (Some 1)] in
  let w := perform_all calls (market true [order1 (Some 1) "assigned"]) in
  exists l1 l2 l3,
    locationUpdates (db w) = [l1; l2; l3]
    /\ In l2 [l2; l3; l1]
    /\ forall l', In l' (locationUpdates (db w)) ->
         LocationUpdate.deliveryPartnerId l' = 1 ->
         LocationUpdate.timestamp l' <= 1700000700000.
Proof.
  cbv zeta. eexists _, _, _. split; [vm_compute; reflexivity|].
  match goal with
  | |- In ?l2 [?l2; ?l3; ?l1] /\ _ =>
      assert (Hanswer :
        ordered_by_desc LocationUpdate.timestamp [l1; l2; l3] [l2; l3; l1]);
      [ split;
        [ exact (Permutation_sym (Permutation_cons_append [l2; l3] l1))
        | repeat constructor; cbn; lia ]
      | destruct (latest_has_the_timestamp_of_the_history_head 1
                    (market true [order1 (Some 1) "assigned"])
                    [(1700000500000,
                      call_createLocationUpdate
                        {| il_deliveryPartnerId := 1; il_latitude := 40.71%Q;
                           il_longitude := -74; il_orderId := None |});
                     (1700000700000,
                      call_createLocationUpdate
                        {| il_deliveryPartnerId := 1; il_latitude := 40.73%Q;
                           il_longitude := -74; il_orderId := Some 1 |});
                     (1700000600000,
                      call_createLocationUpdate
                        {| il_deliveryPartnerId := 1; il_latitude := 40.72%Q;
                           il_longitude := -74; il_orderId := Some 1 |})]
                    (Some l2) [l2; l3; l1])
          as (_ & _ & Hlatest & _) ]
  end.
  - eexists. split; [exact Hanswer | reflexivity].
  - apply may_be_history_unfiltered. exact Hanswer.
  - destruct (Hlatest _ eq_refl) as (Hin & _ & _ & Hmax & _).
    split; [exact Hin | exact Hmax].
Defined.

(** * Further properties of the handlers and the storage *)

(** ** Admission *)

(** X1.  [authenticateToken] reads and never writes.  It attaches a
    user exactly when a token is presented, the token verifies, and
    the user it names exists and is active; every other request is
    ended with 401 or 403.  The attached user has the account's id,
    name and role, the id of the account's vendor profile when the
    role is [vendor], the id of its partner profile when the role is
    [delivery], and never both. *)
Theorem authenticateToken_admits_active_users
    (jwt_verify : string -> option Z) (token : option string) (w : World) :
  exists r,
    authenticateToken jwt_verify token w = (Returned r, w)
    /\ match r with
       | inl response => code response = 401 \/ code response = 403
       | inr user =>
           exists t account,
             token = Some t
             /\ option_map (fun userId =>
                  first_row (filter (eq_ User.id userId) (users (db w))))
                  (jwt_verify t) = Some (Some account)
             /\ User.isActive account = true
             /\ su_id user = User.id account
             /\ su_username user = User.username account
             /\ su_role user = User.role account
             /\ su_vendorId user
                = (if String.eqb (User.role account) "vendor"
                   then option_map Vendor.id
                          (first_row (filter (eq_ Vendor.userId (User.id account))
                                        (vendors (db w))))
                   else None)
             /\ su_deliveryPartnerId user
                = (if String.eqb (User.role account) "delivery"
                   then option_map DeliveryPartner.id
                          (first_row
                             (filter (eq_ DeliveryPartner.userId (User.id account))
                                (deliveryPartners (db w))))
                   else None)
             /\ (su_vendorId user = None \/ su_deliveryPartnerId user = None)
       end
    /\ ((exists user, r = inr user) <->
        exists t userId account,
          token = Some t /\ jwt_verify t = Some userId
          /\ first_row (filter (eq_ User.id userId) (users (db w))) = Some account
          /\ User.isActive account = true).
Proof.
  unfold authenticateToken.
  destruct token as [t|].
  2: { eexists. split; [reflexivity|]. split; [left; reflexivity|].
       split; [intros [u Hu]; discriminate | intros (t & ? & ? & Ht & _); discriminate]. }
  destruct (jwt_verify t) as [userId|] eqn:Hverify.
  2: { eexists. split; [reflexivity|]. split; [right; reflexivity|].
       split; [intros [u Hu]; discriminate|].
       intros (t' & ? & ? & [= <-] & Hv & _). congruence. }
  unfold bind, storage.getUser, storage.getVendorByUserId,
    storage.getDeliveryPartnerByUserId, query, ret.
  destruct (first_row (filter (eq_ User.id userId) (users (db w))))
    as [account|] eqn:Haccount.
  2: { eexists. split; [reflexivity|]. split; [left; reflexivity|].
       split; [intros [u Hu]; discriminate|].
       intros (t' & ? & ? & [= <-] & Hv & Hu & _). congruence. }
  destruct (User.isActive account) eqn:Hactive; cbn [negb].
  2: { eexists. split; [reflexivity|]. split; [left; reflexivity|].
       split; [intros [u Hu]; discriminate|].
       intros (t' & ? & ? & [= <-] & Hv & Hu & Ha). congruence. }
  assert (Hadmitted : exists t0 userId0 account0,
             Some t = Some t0 /\ jwt_verify t0 = Some userId0
             /\ first_row (filter (eq_ User.id userId0) (users (db w))) = Some account0
             /\ User.isActive account0 = true)
    by (exists t, userId, account; auto).
  destruct (String.eqb (User.role account) "vendor") eqn:Hvendor.
  - apply String.eqb_eq in Hvendor.
    eexists. split; [reflexivity|]. split.
    + exists t, account. rewrite Hverify. cbn [option_map]. rewrite Haccount.
      rewrite Hvendor. cbn. repeat split; auto.
    + split; [intros _; exact Hadmitted | intros _; eexists; reflexivity].
  - destruct (String.eqb (User.role account) "delivery") eqn:Hdelivery.
    + eexists. split; [reflexivity|]. split.
      * exists t, account. rewrite Hverify. cbn [option_map]. rewrite Haccount.
        rewrite Hvendor, Hdelivery. cbn. repeat split; auto.
      * split; [intros _; exact Hadmitted | intros _; eexists; reflexivity].
    + eexists. split; [reflexivity|]. split.
      * exists t, account. rewrite Hverify. cbn [option_map]. rewrite Haccount.
        rewrite Hvendor, Hdelivery. cbn. repeat split; auto.
      * split; [intros _; exact Hadmitted | intros _; eexists; reflexivity].
Qed.

(** X2.  The socket middleware [io.use] admits a handshake exactly
    when [authenticateToken] admits a request with the same token, and
    the two attach the same id, name and role; the socket's user has
    no profile id. *)
Theorem io_use_admits_like_authenticateToken
    (jwt_verify : string -> option Z) (token : option string) (w : World) :
  match fst (io_use jwt_verify token w),
        fst (authenticateToken jwt_verify token w) with
  | Returned (inr socket_user), Returned (inr req_user) =>
      su_id socket_user = su_id req_user
      /\ su_username socket_user = su_username req_user
      /\ su_role socket_user = su_role req_user
      /\ su_vendorId socket_user = None
      /\ su_deliveryPartnerId socket_user = None
  | Returned (inl _), Returned (inl _) => True
  | _, _ => False
  end.
Proof.
  unfold io_use, authenticateToken.
  destruct token as [t|]; [|exact I].
  destruct (jwt_verify t) as [userId|]; [|exact I].
  unfold bind, storage.getUser, storage.getVendorByUserId,
    storage.getDeliveryPartnerByUserId, query, ret.
  destruct (first_row (filter (eq_ User.id userId) (users (db w))))
    as [account|]; [|exact I].
  destruct (User.isActive account); cbn [negb fst]; [|exact I].
  destruct (String.eqb (User.role account) "vendor");
    [|destruct (String.eqb (User.role account) "delivery")];
    cbn; repeat split.
Qed.

(** ** Reading orders *)

Lemma profile_as_some (r : string) (user : SessionUser) (id : option Z) (v : Z) :
  profile_as r user id = Some v -> su_role user = r /\ id = Some v.
Proof.
  unfold profile_as, if_truthy.
  destruct (String.eqb_spec (su_role user) r) as [Hr|]; [|discriminate].
  destruct id as [i|]; [|discriminate].
  destruct (i =? 0); [discriminate|]. intros [= ->]. auto.
Qed.

Lemma hasAccess_vendor (user : SessionUser) (v : Z) (o : Order.t) :
  su_role user = "vendor" -> su_vendorId user = Some v ->
  hasAccess user o = eq_ Order.vendorId v o.
Proof. unfold hasAccess, eq_. intros -> ->. cbn. rewrite !orb_false_r. reflexivity. Qed.

Lemma hasAccess_customer (user : SessionUser) (o : Order.t) :
  su_role user = "customer" ->
  hasAccess user o = eq_ Order.customerId (su_id user) o.
Proof. unfold hasAccess, eq_. intros ->. cbn. rewrite orb_false_r. reflexivity. Qed.

Lemma hasAccess_delivery (user : SessionUser) (p : Z) (o : Order.t) :
  su_role user = "delivery" -> su_deliveryPartnerId user = Some p ->
  hasAccess user o = eq_nullable Order.deliveryPartnerId p o.
Proof.
  unfold hasAccess, eq_nullable. intros -> ->. cbn.
  destruct (Order.deliveryPartnerId o); reflexivity.
Qed.

(** X3.  [GET /api/orders] reads and never writes.  When it sends a
    list, the list holds exactly the orders that [GET /api/orders/:id]
    would let the same user read, latest created first.  Otherwise it
    answers 403: the user is no customer and has no truthy profile id
    for its role. *)
Theorem get_orders_lists_the_readable_orders (user : SessionUser) (w : World) :
  exists r,
    get_orders user w = (Returned r, w)
    /\ match r with
       | sent_json listed =>
           Permutation listed (filter (hasAccess user) (orders (db w)))
           /\ (forall o, In o listed <->
                 In o (orders (db w)) /\ hasAccess user o = true)
           /\ newest_created_first listed
       | sent_status code _ =>
           code = 403
           /\ su_role user <> "customer"
           /\ profile_as "vendor" user (su_vendorId user) = None
           /\ profile_as "delivery" user (su_deliveryPartnerId user) = None
       end.
Proof.
  assert (Hlist : forall cond,
    (forall o, hasAccess user o = cond o) ->
    let listed := orderBy_desc Order.createdAt (filter cond (orders (db w))) in
    Permutation listed (filter (hasAccess user) (orders (db w)))
    /\ (forall o, In o listed <-> In o (orders (db w)) /\ hasAccess user o = true)
    /\ newest_created_first listed).
  { intros cond Hcond. cbv zeta.
    rewrite (filter_ext _ _ Hcond).
    split; [apply orderBy_desc_perm|]. split; [|apply orderBy_desc_sorted].
    intros o. rewrite Hcond, <- filter_In.
    split; apply Permutation_in; [|apply Permutation_sym]; apply orderBy_desc_perm. }
  unfold get_orders, try_catch, bind, listing.getOrdersByVendor,
    listing.getOrdersByCustomer, listing.getOrdersByDeliveryPartner, query, ret.
  destruct (profile_as "vendor" user (su_vendorId user)) as [v|] eqn:Hvendor.
  - apply profile_as_some in Hvendor as [Hrole Hv].
    eexists. split; [reflexivity|]. apply Hlist.
    intros o. apply hasAccess_vendor; assumption.
  - destruct (String.eqb_spec (su_role user) "customer") as [Hrole|Hrole].
    + eexists. split; [reflexivity|]. apply Hlist.
      intros o. apply hasAccess_customer; assumption.
    + destruct (profile_as "delivery" user (su_deliveryPartnerId user))
        as [p|] eqn:Hdelivery.
      * apply profile_as_some in Hdelivery as [Hrole' Hp].
        eexists. split; [reflexivity|]. apply Hlist.
        intros o. apply hasAccess_delivery; assumption.
      * eexists. split; [reflexivity|]. repeat split; assumption.
Qed.

Lemma getOrderByNumber_finds (w : World) (o : Order.t) :
  orders_wf (db w) -> In o (orders (db w)) ->
  storage.getOrderByNumber (Order.orderNumber o) w = (Returned (Some o), w).
Proof.
  intros Hwf Hin. unfold storage.getOrderByNumber, query. f_equal. f_equal.
  pose proof (wf_numbers _ Hwf) as Hnd.
  induction (orders (db w)) as [|x os IH]; [destruct Hin|].
  cbn [map] in Hnd. inversion Hnd as [|? ? Hx Hos]; subst.
  cbn [filter]. destruct Hin as [-> | Hin].
  - rewrite String.eqb_refl. reflexivity.
  - destruct (String.eqb_spec (Order.orderNumber x) (Order.orderNumber o)) as [Heq|_].
    + exfalso. apply Hx. rewrite Heq. apply in_map. exact Hin.
    + apply IH; assumption.
Qed.

(** X4.  Reading by number is at least as open as reading by id.  In
    a well-formed [orders] table, an order that [GET /api/orders/:id]
    sends to a user is sent to the same user by
    [GET /api/orders/by-number/:orderNumber] under its order number;
    and a customer is sent every order whose number it presents,
    whoever the order's customer is. *)
Theorem by_number_serves_what_by_id_serves
    (user : SessionUser) (id : Z) (o : Order.t) (w : World) :
  orders_wf (db w) ->
  (get_order user id w = (Returned (sent_json o), w) ->
   get_order_by_number user (Order.orderNumber o) w = (Returned (sent_json o), w))
  /\ (su_role user = "customer" -> In o (orders (db w)) ->
      get_order_by_number user (Order.orderNumber o) w = (Returned (sent_json o), w)).
Proof.
  intros Hwf. split.
  - unfold get_order, try_catch, bind. rewrite getOrder_run.
    destruct (order_of w id) as [o'|] eqn:Ho'; [|discriminate].
    destruct (hasAccess user o') eqn:Hacc; [|discriminate].
    cbn. intros [= ->].
    apply first_row_filter_id in Ho' as [Hin _].
    unfold get_order_by_number, try_catch, bind.
    rewrite (getOrderByNumber_finds w o Hwf Hin).
    assert (Hnum : hasAccess_by_number user o = true).
    { unfold hasAccess, hasAccess_by_number in *.
      destruct (String.eqb (su_role user) "customer"); [reflexivity|].
      cbn [andb orb] in *. rewrite orb_false_r in Hacc. exact Hacc. }
    rewrite Hnum. reflexivity.
  - intros Hrole Hin. unfold get_order_by_number, try_catch, bind.
    rewrite (getOrderByNumber_finds w o Hwf Hin).
    unfold hasAccess_by_number. rewrite Hrole. reflexivity.
Qed.

(** ** Creating orders *)

Lemma to_int_proper (z : Z) :
  Z.to_int z <> Decimal.Pos Decimal.Nil /\ Z.to_int z <> Decimal.Neg Decimal.Nil.
Proof.
  destruct z; cbn; split; try discriminate; intros [= H];
    apply (f_equal Pos.of_uint) in H;
    rewrite DecimalPos.Unsigned.of_to in H; discriminate.
Qed.

(** X5.  An order number is [ORD-] followed by the decimal rendering
    of the clock reading: the digits parse back to the reading, so
    numbers generated at different readings differ. *)
Theorem order_number_names_its_reading (now : Z) :
  (exists digits,
     order_number_of now = String.append "ORD-" digits
     /\ option_map Z.of_int (NilZero.int_of_string digits) = Some now)
  /\ (forall other, order_number_of other = order_number_of now -> other = now).
Proof.
  assert (Hparse : forall z,
    option_map Z.of_int (NilZero.int_of_string (NilZero.string_of_int (Z.to_int z)))
    = Some z).
  { intros z. destruct (to_int_proper z) as [H1 H2].
    rewrite (NilZero.isi _ H1 H2). cbn [option_map].
    rewrite DecimalZ.of_to. reflexivity. }
  split.
  - eexists. split; [reflexivity | apply Hparse].
  - intros other H. unfold order_number_of in H. cbn in H. injection H as H.
    pose proof (Hparse other) as Ho. rewrite H, Hparse in Ho. congruence.
Qed.

(** Fitting the [decimal] columns leaves every other value of the
    insert as it was. *)
Lemma order_columns_keeps (v v' : InsertOrder) :
  order_columns v = Returned v' ->
  io_customerId v' = io_customerId v
  /\ io_vendorId v' = io_vendorId v
  /\ io_deliveryPartnerId v' = io_deliveryPartnerId v
  /\ io_status v' = io_status v
  /\ io_estimatedDeliveryTime v' = io_estimatedDeliveryTime v
  /\ io_actualDeliveryTime v' = io_actualDeliveryTime v
  /\ decimal_column 10 2 (orderTotal (io_details v))
     = Returned (orderTotal (io_details v')).
Proof.
  unfold order_columns. cbv zeta.
  destruct (decimal_column 10 2 (orderTotal (io_details v))); [|discriminate].
  destruct (nullable (decimal_column 10 8) (deliveryLatitude (io_details v)));
    [|discriminate].
  destruct (nullable (decimal_column 11 8) (deliveryLongitude (io_details v)));
    [|discriminate].
  destruct (nullable (decimal_column 10 8) (pickupLatitude (io_details v)));
    [|discriminate].
  destruct (nullable (decimal_column 11 8) (pickupLongitude (io_details v)));
    [|discriminate].
  intros [= <-]. repeat split.
Qed.

Lemma createOrder_run (now : Z) (order : InsertOrder) (w : World) :
  exists r w',
    storage.createOrder now order w = (r, w')
    /\ users (db w') = users (db w)
    /\ vendors (db w') = vendors (db w)
    /\ deliveryPartners (db w') = deliveryPartners (db w)
    /\ locationUpdates (db w') = locationUpdates (db w)
    /\ orders_id_seq (db w) <= orders_id_seq (db w') <= orders_id_seq (db w) + 1
    /\ journal w' = journal w ++ [insert_orders order (order_number_of now) now]
    /\ outbox w' = outbox w
    /\ if insertable (db w) now order
       then exists order',
              order_columns order = Returned order'
              /\ r = Returned (new_order (db w) now order' (order_number_of now) now)
              /\ orders (db w')
                 = orders (db w)
                   ++ [new_order (db w) now order' (order_number_of now) now]
       else (exists err, r = Thrown err) /\ orders (db w') = orders (db w).
Proof.
  unfold storage.createOrder, insertable, bind, execute, ret, throw.
  cbn [run_statement db journal outbox].
  destruct (order_columns order) as [order'|err]; cbn [andb];
    [|eexists _, _; split; [reflexivity|]; cbn; repeat split; try lia;
      eexists; reflexivity].
  destruct (Z.leb_spec (Z.of_nat (String.length (order_number_of now))) 20)
    as [Hlen | Hlen].
  - destruct (Z.ltb_spec 20 (Z.of_nat (String.length (order_number_of now))));
      [lia|].
    destruct (violates_unique_order_number (db w) (order_number_of now));
      cbn [negb andb].
    + eexists _, _. split; [reflexivity|]. cbn. repeat split; try lia.
      eexists; reflexivity.
    + destruct (has_id User.id (io_customerId order) (users (db w))
                && has_id Vendor.id (io_vendorId order) (vendors (db w))
                && references DeliveryPartner.id (io_deliveryPartnerId order)
                     (deliveryPartners (db w))); cbn [negb].
      * eexists _, _. split; [reflexivity|]. cbn. repeat split; try lia.
        exists order'. repeat split.
      * eexists _, _. split; [reflexivity|]. cbn. repeat split; try lia.
        eexists; reflexivity.
  - destruct (Z.ltb_spec 20 (Z.of_nat (String.length (order_number_of now))));
      [|lia].
    eexists _, _. split; [reflexivity|]. cbn. repeat split; try lia.
    eexists; reflexivity.
Qed.

(** X6.  In a well-formed [orders] table, a [createOrder] whose insert
    passes the constraints (the [decimal] columns take their values,
    the number fits and is new, the rows referred to exist) returns the
    new order, and both reads find it again: [getOrder] by its key and
    [getOrderByNumber] by its number.  The order is created with the
    next key, the number of the clock reading, the status of the body
    or [pending], both timestamps at the reading and the total as its
    column stores it; the orders already stored are kept as they were.
    A [createOrder] whose insert fails throws and leaves the table as
    it was. *)
Theorem createOrder_then_read (now : Z) (order : InsertOrder) (w : World) :
  orders_wf (db w) ->
  exists r w',
    storage.createOrder now order w = (r, w')
    /\ if insertable (db w) now order
       then exists o,
              r = Returned o
              /\ storage.getOrder (Order.id o) w' = (Returned (Some o), w')
              /\ storage.getOrderByNumber (Order.orderNumber o) w'
                 = (Returned (Some o), w')
              /\ Order.id o = orders_id_seq (db w)
              /\ Order.orderNumber o = order_number_of now
              /\ Order.status o = or_keep (io_status order) "pending"
              /\ Order.createdAt o = now /\ Order.updatedAt o = now
              /\ decimal_column 10 2 (orderTotal (io_details order))
                 = Returned (orderTotal (Order.details o))
              /\ orders (db w') = orders (db w) ++ [o]
       else (exists err, r = Thrown err) /\ orders (db w') = orders (db w).
Proof.
  intros Hwf.
  destruct (createOrder_run now order w)
    as (r & w' & Hrun & _ & _ & _ & _ & _ & Hjournal & _ & Hcase).
  exists r, w'. split; [exact Hrun|].
  destruct (insertable (db w) now order); [|exact Hcase].
  destruct Hcase as (order' & Hcolumns & -> & Horders).
  destruct (order_columns_keeps order order' Hcolumns)
    as (_ & _ & _ & Hstatus & _ & _ & Htotal).
  set (o := new_order (db w) now order' (order_number_of now) now) in *.
  assert (Hwf' : orders_wf (db w')).
  { assert (Hdb : db w' = snd (run_statement now
                     (insert_orders order (order_number_of now) now) (db w))).
    { apply (f_equal snd) in Hrun. cbn [snd] in Hrun. rewrite <- Hrun.
      unfold storage.createOrder, bind, execute.
      destruct (run_statement now _ (db w)) as [[rows|err] d];
        [destruct rows|]; reflexivity. }
    rewrite Hdb. apply run_statement_wf; [apply order_number_not_empty | exact Hwf]. }
  assert (Hin : In o (orders (db w'))).
  { rewrite Horders. apply in_or_app. right. left. reflexivity. }
  exists o. split; [reflexivity|]. split.
  - rewrite getOrder_run. f_equal. f_equal.
    assert (Hk : In (Order.id o, Order.orderNumber o) (order_keys (db w'))).
    { unfold order_keys.
      apply (in_map (fun o => (Order.id o, Order.orderNumber o))). exact Hin. }
    destruct (order_of_key _ _ _ Hwf' Hk) as (o' & Ho' & Hid & _).
    rewrite Ho'. f_equal.
    apply first_row_filter_id in Ho' as [Hin' _].
    exact (NoDup_map_injective _ _ _ _ (wf_ids _ Hwf') Hin' Hin Hid).
  - split; [apply getOrderByNumber_finds; assumption|].
    split; [reflexivity|]. split; [reflexivity|].
    split; [subst o; cbn [new_order Order.status]; rewrite Hstatus; reflexivity|].
    split; [reflexivity|]. split; [reflexivity|].
    split; [exact Htotal | exact Horders].
Qed.

Lemma market_wf (dora_online : bool) (partner : option Z) (status : string) :
  orders_wf (db (market dora_online [order1 partner status])).
Proof.
  constructor; cbn.
  - constructor; [intros [] | constructor].
  - constructor; [discriminate | constructor].
  - constructor; [intros [] | constructor].
  - constructor; [reflexivity | constructor].
Qed.

(** Carl's second order, created after order 1. *)
Lemma createOrder_then_read_witness :
  exists o w',
    storage.createOrder 1700000000001 carls_order
      (market true [order1 None "pending"]) = (Returned o, w')
    /\ storage.getOrderByNumber "ORD-1700000000001" w' = (Returned (Some o), w')
    /\ Order.id o = 2.
Proof.
  destruct (createOrder_then_read 1700000000001 carls_order
              (market true [order1 None "pending"])
              (market_wf true None "pending"))
    as (r & w' & Hrun & Hcase).
  change (insertable (db (market true [order1 None "pending"])) 1700000000001
            carls_order) with true in Hcase.
  destruct Hcase as (o & -> & _ & Hnumber & Hid & Hn & _).
  exists o, w'. split; [exact Hrun|]. split.
  - rewrite Hn in Hnumber. exact Hnumber.
  - exact Hid.
Defined.

(** A total that is no number, and one of nine integer digits, are
    refused by [order_total numeric(10,2)]: [createOrder] throws and
    the database is as it was. *)
Lemma order_total_is_checked :
  let w := market true [order1 None "pending"] in
  let ordered total :=
    {| io_customerId := 2; io_vendorId := 1; io_deliveryPartnerId := None;
       io_details :=
         {| customerName := "Carl"; customerPhone := "555-0100";
            deliveryAddress := "1 Main St"; pickupAddress := "9 Dock Rd";
            orderTotal := total;
            deliveryLatitude := None; deliveryLongitude := None;
            pickupLatitude := None; pickupLongitude := None |};
       io_status := None;
       io_estimatedDeliveryTime := None; io_actualDeliveryTime := None |} in
  let outcome_of total := storage.createOrder 1700000000001 (ordered total) w in
  fst (outcome_of (refused "abc"))
  = Thrown "invalid input syntax for type numeric"
  /\ db (snd (outcome_of (refused "abc"))) = db w
  /\ fst (outcome_of (number 100000000)) = Thrown "numeric field overflow"
  /\ db (snd (outcome_of (number 100000000))) = db w
  /\ option_map (fun o => orderTotal (Order.details o))
       (match fst (outcome_of (number (12345 # 1000))) with
        | Returned o => Some o
        | Thrown _ => None
        end)
     = Some (number (1235 # 100)).
Proof. vm_compute. repeat split. Qed.



(** ** What the order updates touch *)

Lemma update_where_id_Forall2 {R} (id : R -> Z) (f : R -> R) (key : Z)
    (P : R -> R -> Prop) (rows : list R) :
  (forall r, id r = key -> P r (f r)) -> (forall r, id r <> key -> P r r) ->
  Forall2 P rows (update_where_id id f key rows).
Proof.
  intros Hhit Hmiss. unfold update_where_id.
  induction rows as [|r rows IH]; cbn [map]; constructor; [|exact IH].
  destruct (Z.eqb_spec (id r) key); auto.
Qed.

Lemma has_id_false_first_row {R} (id : R -> Z) (key : Z) (rows : list R) :
  first_row (filter (eq_ id key) rows) = None -> has_id id key rows = false.
Proof.
  intros Hnone. destruct (has_id id key rows) eqn:Hhas; [|reflexivity].
  apply has_id_first_row in Hhas as [r Hr]. congruence.
Qed.

(** X8.  [updateOrderStatus] returns whether or not the order exists.
    It writes the row with the given key only: that row gets the
    status and the clock reading as [updatedAt] and keeps its partner,
    its estimated delivery time and the columns written at the insert;
    every other order, and every other table, is exactly as before.
    When no order has the key, the whole database is as before. *)
Theorem updateOrderStatus_writes_one_row
    (now orderId : Z) (status : string) (w : World) :
  exists w',
    storage.updateOrderStatus now orderId status w = (Returned tt, w')
    /\ Forall2
         (fun o o' =>
            if Order.id o =? orderId
            then order_core o' = order_core o
                 /\ Order.deliveryPartnerId o' = Order.deliveryPartnerId o
                 /\ Order.estimatedDeliveryTime o' = Order.estimatedDeliveryTime o
                 /\ Order.status o' = status
                 /\ Order.updatedAt o' = now
            else o' = o)
         (orders (db w)) (orders (db w'))
    /\ db w' = with_orders (db w) (orders (db w'))
    /\ (order_of w orderId = None -> db w' = db w).
Proof.
  eexists. split; [apply updateOrderStatus_run|]. cbn [db with_orders orders].
  split; [|split].
  - apply update_where_id_Forall2.
    + intros o Ho. apply Z.eqb_eq in Ho. rewrite Ho. repeat split.
    + intros o Ho. apply Z.eqb_neq in Ho. rewrite Ho. reflexivity.
  - reflexivity.
  - intros Hnone. rewrite update_where_id_other.
    + destruct (db w). reflexivity.
    + apply has_id_false_first_row. exact Hnone.
Qed.

(** Setting the minutes of a date to its own minutes plus [m] moves
    its local time on by [m] minutes; the result is that local time
    read back in the zone of the host. *)
Lemma setMinutes_getMinutes_plus {host : TimeZone} (t m : Z) :
  setMinutes t (getMinutes t + m) = UTC (LocalTime t + m * msPerMinute).
Proof.
  unfold setMinutes, getMinutes. cbv zeta. f_equal.
  generalize (LocalTime t). intros x.
  unfold MakeDate, MakeTime, Day, HourFromTime, MinFromTime, SecFromTime,
    msFromTime, msPerDay, msPerHour, msPerMinute, msPerSecond.
  Z.to_euclidean_division_equations. lia.
Qed.

(** X9.  [assignDeliveryPartner] on its own.  With a partner that
    exists it returns, and the row with the given key gets the partner,
    the status [assigned], the reading as [updatedAt], and as estimated
    delivery time the local time of the reading plus thirty minutes,
    read back in the zone of the host; the row keeps its actual
    delivery time and the columns written at the insert.  Every other
    order is as before, and so is the whole database when no order has
    the key.  With a partner that does not exist and an order that
    does, it throws and the database is as before.  On a host whose
    offset from UTC never changes the estimate is the reading plus
    thirty minutes; where the offset changes it need not be. *)
Theorem assignDeliveryPartner_writes_one_row {host : TimeZone}
    (now orderId partnerId : Z) (w : World) :
  (forall offset, (forall t isUTC, LocalTZA t isUTC = offset) ->
     UTC (LocalTime now + 1800000) = now + 1800000)
  /\ exists r w',
    storage.assignDeliveryPartner now orderId partnerId w = (r, w')
    /\ (order_of w orderId = None -> r = Returned tt /\ db w' = db w)
    /\ if has_id DeliveryPartner.id partnerId (deliveryPartners (db w))
       then r = Returned tt
            /\ db w' = with_orders (db w) (orders (db w'))
            /\ Forall2
                 (fun o o' =>
                    if Order.id o =? orderId
                    then order_core o' = order_core o
                         /\ Order.actualDeliveryTime o' = Order.actualDeliveryTime o
                         /\ Order.deliveryPartnerId o' = Some partnerId
                         /\ Order.status o' = "assigned"
                         /\ Order.estimatedDeliveryTime o'
                            = Some (UTC (LocalTime now + 1800000))
                         /\ Order.updatedAt o' = now
                    else o' = o)
                 (orders (db w)) (orders (db w'))
       else order_of w orderId <> None ->
            (exists err, r = Thrown err) /\ db w' = db w.
Proof.
  split.
  { intros offset Hoffset. unfold UTC, LocalTime. rewrite !Hoffset. lia. }
  unfold storage.assignDeliveryPartner, bind, execute, ret. cbv zeta.
  rewrite setMinutes_getMinutes_plus.
  change (30 * msPerMinute) with 1800000.
  cbn [run_statement set_deliveryPartnerId references].
  destruct (has_id Order.id orderId (orders (db w))) eqn:Horder;
    destruct (has_id DeliveryPartner.id partnerId (deliveryPartners (db w)));
    cbn [andb negb db with_orders orders];
    eexists _, _; (split; [reflexivity|]); cbn [db with_orders orders].
  - split.
    + intros Hnone. apply has_id_false_first_row in Hnone.
      unfold order_of in *. congruence.
    + split; [reflexivity|]. split; [reflexivity|].
      apply update_where_id_Forall2.
      * intros o Ho. apply Z.eqb_eq in Ho. rewrite Ho. repeat split.
      * intros o Ho. apply Z.eqb_neq in Ho. rewrite Ho. reflexivity.
  - split.
    + intros Hnone. apply has_id_false_first_row in Hnone.
      unfold order_of in *. congruence.
    + intros _. split; [eexists; reflexivity | reflexivity].
  - rewrite (update_where_id_other _ _ _ _ Horder).
    assert (Hsame : with_orders (db w) (orders (db w)) = db w)
      by (destruct (db w); reflexivity).
    rewrite Hsame. split; [auto|]. split; [reflexivity|].
    split; [reflexivity|].
    rewrite <- (update_where_id_other Order.id
                  (set_order (assignment now partnerId)) orderId _ Horder) at 2.
    apply update_where_id_Forall2.
    + intros o Ho. apply Z.eqb_eq in Ho. rewrite Ho. repeat split.
      cbn. rewrite setMinutes_getMinutes_plus. reflexivity.
    + intros o Ho. apply Z.eqb_neq in Ho. rewrite Ho. reflexivity.
  - rewrite (update_where_id_other _ _ _ _ Horder).
    assert (Hsame : with_orders (db w) (orders (db w)) = db w)
      by (destruct (db w); reflexivity).
    rewrite Hsame. split; [auto|].
    intros Hsome. exfalso. apply Hsome. unfold order_of.
    destruct (first_row (filter (eq_ Order.id orderId) (orders (db w)))) as [o|] eqn:E;
      [|reflexivity].
    assert (Hhas : has_id Order.id orderId (orders (db w)) = true)
      by (apply has_id_first_row; exists o; exact E).
    congruence.
Qed.

(** In the hour that comes twice the estimate lies before the
    reading.  On the host that set its clocks back at 01:00 UTC, an
    assignment made at 01:15 UTC, which is 02:15 local time for the
    second time, gets 00:45 UTC as its estimate: 02:45 local time is
    read back as its first occurrence, thirty minutes before the
    reading. *)
Lemma estimate_in_the_repeated_hour :
  let now := clocks_go_back + 15 * msPerMinute in
  let w' := snd (@storage.assignDeliveryPartner fall_back_host now 1 1
                   (market true [order1 None "pending"])) in
  option_map Order.estimatedDeliveryTime (order_of w' 1)
  = Some (Some (now - 30 * msPerMinute)).
Proof. vm_compute. reflexivity. Qed.

(** ** What no storage call does *)

Lemma stays_set_or_keep_null {A} (new old : option A) :
  stays_set old (or_keep_null new old).
Proof. unfold stays_set. destruct new; [discriminate | auto]. Qed.

Lemma evolves_refl (o : Order.t) : evolves o o.
Proof. unfold evolves, stays_set. auto. Qed.

Lemma evolves_trans (a b c : Order.t) : evolves a b -> evolves b c -> evolves a c.
Proof.
  unfold evolves, stays_set. intros (Hc1 & Hp1 & He1 & Ha1) (Hc2 & Hp2 & He2 & Ha2).
  split; [congruence|]. auto.
Qed.

Lemma evolves_set_order (s : OrderSet) (o : Order.t) : evolves o (set_order s o).
Proof.
  unfold evolves. split; [reflexivity|].
  cbn. repeat split; apply stays_set_or_keep_null.
Qed.

Lemma Forall2_evolves_refl (os : list Order.t) : Forall2 evolves os os.
Proof. induction os; constructor; [apply evolves_refl | assumption]. Qed.

Lemma Forall2_evolves_trans (a b c : list Order.t) :
  Forall2 evolves a b -> Forall2 evolves b c -> Forall2 evolves a c.
Proof.
  intros Hab. revert c. induction Hab as [|x y a b Hxy Hab IH]; intros c Hbc.
  - inversion Hbc. constructor.
  - inversion Hbc as [|? z ? c' Hyz Hbc']; subst.
    constructor; [eapply evolves_trans; eassumption | apply IH; assumption].
Qed.

Lemma perform_evolves {host : TimeZone} (w : World) (c : Z * StorageCall) :
  exists kept added,
    orders (db (perform w c)) = kept ++ added
    /\ Forall2 evolves (orders (db w)) kept.
Proof.
  destruct (perform_statement w c) as (s & _ & ->).
  destruct (run_statement_orders (fst c) s (db w))
    as [_ [Heq | [(set & key & Heq & _) | (v & v' & n & u & _ & _ & _ & Heq & _)]]];
    cbv zeta in Heq; rewrite Heq.
  - exists (orders (db w)), []. rewrite app_nil_r.
    split; [reflexivity | apply Forall2_evolves_refl].
  - eexists _, []. rewrite app_nil_r. split; [reflexivity|].
    apply update_where_id_Forall2; intros o _;
      [apply evolves_set_order | apply evolves_refl].
  - eexists _, _. split; [reflexivity | apply Forall2_evolves_refl].
Qed.

(** X10.  Whatever calls of the storage's write methods are made, the
    orders already stored stay in the table, in their places: none is
    removed, and in none do the key, the order number, the customer,
    the vendor, the details or the creation time change; a partner, an
    estimated and an actual delivery time that were set stay set.  New
    orders are added after them. *)
Theorem stored_orders_only_evolve {host : TimeZone} (calls : list (Z * StorageCall)) (w : World) :
  exists kept added,
    orders (db (perform_all calls w)) = kept ++ added
    /\ Forall2 evolves (orders (db w)) kept.
Proof.
  revert w. induction calls as [|c calls IH]; intros w; cbn [perform_all fold_left].
  - exists (orders (db w)), []. rewrite app_nil_r.
    split; [reflexivity | apply Forall2_evolves_refl].
  - destruct (perform_evolves w c) as (kept1 & added1 & Hfirst & Hkept1).
    destruct (IH (perform w c)) as (kept2 & added2 & Hrest & Hkept2).
    unfold perform_all in Hrest. rewrite Hfirst in Hkept2.
    apply Forall2_app_inv_l in Hkept2 as (k2a & k2b & Ha & Hb & ->).
    exists k2a, (k2b ++ added2). rewrite Hrest, app_assoc.
    split; [reflexivity|]. eapply Forall2_evolves_trans; eassumption.
Qed.

Lemma decimal_fits (precision : Z) (q v : Q) :
  0 <= precision ->
  decimal precision 8 q = Some v ->
  (Qabs v < inject_Z (10 ^ precision) / inject_Z (10 ^ 8))%Q.
Proof.
  intros Hp. unfold decimal. cbv zeta.
  generalize (round_half_away (q * inject_Z (10 ^ 8))). intros n.
  destruct (Z.ltb_spec (Z.abs n) (10 ^ precision)) as [Hlt|]; [|discriminate].
  intros Hv. apply (f_equal (fun o => match o with Some x => x | None => v end)) in Hv.
  rewrite <- Hv.
  apply Qlt_shift_div_l; [reflexivity|].
  unfold Qlt, Qabs, Qmult, inject_Z. cbn [Qnum Qden].
  change (Z.pos (Z.to_pos (10 ^ 8))) with 100000000.
  change (10 ^ 8) with 100000000.
  change (Z.pos (1 * 100000000)) with 100000000.
  nia.
Qed.

Lemma perform_locations {host : TimeZone} (w : World) (c : Z * StorageCall) :
  locationUpdates (db (perform w c)) = locationUpdates (db w)
  \/ exists v lat lon,
       decimal 10 8 (il_latitude v) = Some lat
       /\ decimal 11 8 (il_longitude v) = Some lon
       /\ locationUpdates (db (perform w c))
          = locationUpdates (db w) ++ [new_locationUpdate (db w) (fst c) v lat lon].
Proof.
  destruct (perform_statement w c) as (s & _ & ->).
  destruct (run_statement_locations (fst c) s (db w))
    as [Heq | (v & lat & lon & _ & Hlat & Hlon & Heq)]; cbv zeta in Heq.
  - left. exact Heq.
  - right. exists v, lat, lon. auto.
Qed.

(** X11.  Samples recorded from numbers fit their columns.  Start
    from a ledger whose samples fit, for one an empty ledger.  Whatever
    calls of the storage's write methods are made with numbers as
    coordinates, every stored sample has a latitude of absolute value
    below 100 and a longitude of absolute value below 1000. *)
Theorem stored_samples_fit_their_columns {host : TimeZone}
    (calls : list (Z * StorageCall)) (w : World) :
  Forall fits_columns (locationUpdates (db w)) ->
  Forall fits_columns (locationUpdates (db (perform_all calls w))).
Proof.
  revert w. induction calls as [|c calls IH]; intros w Hfit;
    cbn [perform_all fold_left]; [exact Hfit|].
  apply IH.
  destruct (perform_locations w c) as [-> | (v & lat & lon & Hlat & Hlon & ->)];
    [exact Hfit|].
  apply Forall_app. split; [exact Hfit|]. constructor; [|constructor].
  split; cbn [new_locationUpdate LocationUpdate.latitude LocationUpdate.longitude].
  - apply (decimal_fits 10) in Hlat; [|lia].
    assert (H : (inject_Z (10 ^ 10) / inject_Z (10 ^ 8) == 100)%Q) by reflexivity.
    rewrite H in Hlat. exact Hlat.
  - apply (decimal_fits 11) in Hlon; [|lia].
    assert (H : (inject_Z (10 ^ 11) / inject_Z (10 ^ 8) == 1000)%Q) by reflexivity.
    rewrite H in Hlon. exact Hlon.
Qed.

Lemma has_id_update {R} (id : R -> Z) (f : R -> R) (key k : Z) (rows : list R) :
  (forall r, id (f r) = id r) ->
  has_id id k (update_where_id id f key rows) = has_id id k rows.
Proof.
  intros Hid. unfold has_id, update_where_id.
  induction rows as [|r rows IH]; cbn [map existsb]; [reflexivity|].
  rewrite IH. f_equal. destruct (id r =? key); [rewrite Hid|]; reflexivity.
Qed.

Lemma has_id_app {R} (id : R -> Z) (k : Z) (a b : list R) :
  has_id id k (a ++ b) = has_id id k a || has_id id k b.
Proof. unfold has_id. apply existsb_app. Qed.

Lemma references_update {R} (id : R -> Z) (f : R -> R) (key : Z) (k : option Z)
    (rows : list R) :
  (forall r, id (f r) = id r) ->
  references id k (update_where_id id f key rows) = references id k rows.
Proof. intros Hid. destruct k; [apply has_id_update; exact Hid | reflexivity]. Qed.

Lemma references_app {R} (id : R -> Z) (k : option Z) (a b : list R) :
  references id k a = true -> references id k (a ++ b) = true.
Proof.
  destruct k as [k|]; [|reflexivity]. cbn [references].
  rewrite has_id_app. intros ->. reflexivity.
Qed.

(** References are judged on the tables alone. *)
Lemma refs_ok_tables (d d' : Db) :
  users d' = users d -> vendors d' = vendors d ->
  deliveryPartners d' = deliveryPartners d -> orders d' = orders d ->
  locationUpdates d' = locationUpdates d ->
  refs_ok d -> refs_ok d'.
Proof.
  intros Hu Hv Hp Ho Hl [H1 H2 H3 H4].
  constructor; unfold refers_to_rows in *; rewrite ?Hu, ?Hv, ?Hp, ?Ho, ?Hl;
    assumption.
Qed.

Lemma run_statement_refs (now : Z) (s : Statement) (d : Db) :
  refs_ok d -> refs_ok (snd (run_statement now s d)).
Proof.
  intros Hok. pose proof Hok as [Hcustomer Hvendor Hpartner Hsamples].
  destruct s as [set key | set key | v n u | v]; cbn [run_statement].
  - destruct (has_id Order.id key (orders d)
              && negb (references DeliveryPartner.id (set_deliveryPartnerId set)
                         (deliveryPartners d))) eqn:Hcheck; [exact Hok|].
    cbn [snd]. constructor; cbn [with_orders users vendors deliveryPartners orders
                                  locationUpdates].
    + unfold update_where_id. apply Forall_map.
      eapply Forall_impl; [|exact Hcustomer]. cbn. intros o Ho.
      destruct (Order.id o =? key); exact Ho.
    + unfold update_where_id. apply Forall_map.
      eapply Forall_impl; [|exact Hvendor]. cbn. intros o Ho.
      destruct (Order.id o =? key); exact Ho.
    + unfold update_where_id. apply Forall_map.
      rewrite Forall_forall in Hpartner |- *. intros o Hin.
      destruct (Z.eqb_spec (Order.id o) key) as [Hkey|]; [|apply Hpartner; exact Hin].
      cbn [set_order Order.deliveryPartnerId].
      destruct (set_deliveryPartnerId set) as [p|] eqn:Hset;
        [|apply Hpartner; exact Hin].
      assert (Hhas : has_id Order.id key (orders d) = true).
      { apply existsb_exists. exists o. split; [exact Hin|].
        apply Z.eqb_eq. exact Hkey. }
      rewrite Hhas in Hcheck. cbn [andb] in Hcheck.
      apply negb_false_iff in Hcheck. exact Hcheck.
    + eapply Forall_impl; [|exact Hsamples]. unfold refers_to_rows.
      cbn [with_orders deliveryPartners orders]. intros l [Hp Ho].
      split; [exact Hp|]. rewrite references_update; [exact Ho | reflexivity].
  - assert (Hupdated : forall set',
      refs_ok (with_deliveryPartners d
                 (update_where_id DeliveryPartner.id (set_partner set') key
                    (deliveryPartners d)))).
    { intros set'. constructor;
        cbn [with_deliveryPartners users vendors deliveryPartners orders
             locationUpdates]; try assumption.
      - eapply Forall_impl; [|exact Hpartner]. cbn. intros o Ho.
        rewrite references_update; [exact Ho | reflexivity].
      - eapply Forall_impl; [|exact Hsamples]. unfold refers_to_rows.
        cbn [with_deliveryPartners deliveryPartners orders]. intros l [Hp Ho].
        split; [|exact Ho]. rewrite has_id_update; [exact Hp | reflexivity]. }
    destruct (set_currentLatitude set) as [lat|];
      [destruct (set_currentLongitude set) as [lon|];
       [destruct (decimal 10 8 lat); [destruct (decimal 11 8 lon)|]|]|];
      cbn [snd]; try exact Hok; apply Hupdated.
  - destruct (order_columns v) as [v'|err] eqn:Hcolumns; cbn [snd]; [|exact Hok].
    destruct (order_columns_keeps v v' Hcolumns) as (Hc' & Hv' & Hp' & _).
    destruct (20 <? Z.of_nat (String.length n)); cbn [snd];
      [eapply refs_ok_tables; [..|exact Hok]; reflexivity|].
    destruct (violates_unique_order_number d n); cbn [snd];
      [eapply refs_ok_tables; [..|exact Hok]; reflexivity|].
    destruct (has_id User.id (io_customerId v) (users d)) eqn:Hu;
      [destruct (has_id Vendor.id (io_vendorId v) (vendors d)) eqn:Hv;
       [destruct (references DeliveryPartner.id (io_deliveryPartnerId v)
                    (deliveryPartners d)) eqn:Hp|]|];
      cbn [andb negb snd];
      try (eapply refs_ok_tables; [..|exact Hok]; reflexivity).
    constructor; cbn [with_orders users vendors deliveryPartners orders
                      locationUpdates].
    + apply Forall_app. split; [exact Hcustomer|].
      constructor; [cbn; rewrite Hc'; exact Hu|constructor].
    + apply Forall_app. split; [exact Hvendor|].
      constructor; [cbn; rewrite Hv'; exact Hv|constructor].
    + apply Forall_app. split; [exact Hpartner|].
      constructor; [cbn; rewrite Hp'; exact Hp|constructor].
    + eapply Forall_impl; [|exact Hsamples]. unfold refers_to_rows.
      cbn [with_orders deliveryPartners orders]. intros l [Hlp Hlo].
      split; [exact Hlp | apply references_app; exact Hlo].
  - destruct (decimal 10 8 (il_latitude v)) as [lat|];
      [destruct (decimal 11 8 (il_longitude v)) as [lon|]|]; cbn [snd];
      try (eapply refs_ok_tables; [..|exact Hok]; reflexivity).
    destruct (has_id DeliveryPartner.id (il_deliveryPartnerId v) (deliveryPartners d))
      eqn:Hp;
      [destruct (references Order.id (il_orderId v) (orders d)) eqn:Ho|];
      cbn [andb negb snd];
      try (eapply refs_ok_tables; [..|exact Hok]; reflexivity).
    constructor; cbn [users vendors deliveryPartners orders locationUpdates];
      try assumption.
    apply Forall_app. split.
    + eapply Forall_impl; [|exact Hsamples]. unfold refers_to_rows.
      cbn [deliveryPartners orders]. auto.
    + constructor; [|constructor]. split; [exact Hp | exact Ho].
Qed.

(** X12.  No storage call leaves a dangling reference.  If every order
    names a customer, a vendor and, when it has one, a partner that
    exist, and every sample names a partner and, when it is tagged, an
    order that exist, then the same holds after any calls of the
    storage's write methods. *)
Theorem references_stay_valid {host : TimeZone} (calls : list (Z * StorageCall)) (w : World) :
  refs_ok (db w) -> refs_ok (db (perform_all calls w)).
Proof.
  revert w. induction calls as [|c calls IH]; intros w Hok;
    cbn [perform_all fold_left]; [exact Hok|].
  apply IH. destruct (perform_statement w c) as (s & _ & ->).
  apply run_statement_refs. exact Hok.
Qed.

(** ** The partner's online switch *)

Lemma updateDeliveryPartnerStatus_run (now p : Z) (b : bool) (w : World) :
  exists j,
    storage.updateDeliveryPartnerStatus now p b w
    = (Returned tt,
       {| db := with_deliveryPartners (db w)
                  (update_where_id DeliveryPartner.id (switched b) p
                     (deliveryPartners (db w)));
          journal := j; outbox := outbox w |}).
Proof.
  eexists. unfold storage.updateDeliveryPartnerStatus, bind, execute, ret.
  cbn [run_statement set_currentLatitude]. reflexivity.
Qed.

Lemma first_row_update {R} (id : R -> Z) (f : R -> R) (key : Z) (rows : list R) :
  (forall r, id (f r) = id r) ->
  first_row (filter (eq_ id key) (update_where_id id f key rows))
  = option_map f (first_row (filter (eq_ id key) rows)).
Proof.
  intros Hid. rewrite update_where_id_filter by exact Hid.
  destruct (filter (eq_ id key) rows) as [|r rest] eqn:E; [reflexivity|].
  cbn. assert (Hin : In r (filter (eq_ id key) rows)) by (rewrite E; left; reflexivity).
  apply filter_In in Hin as [_ Hk]. unfold eq_ in Hk. rewrite Hk. reflexivity.
Qed.

Lemma available_after_switch (p : Z) (b : bool) (i : Z)
    (partners : list DeliveryPartner.t) :
  has_id DeliveryPartner.id i
    (filter DeliveryPartner.isOnline
       (update_where_id DeliveryPartner.id (switched b) p partners))
  = if i =? p then b && has_id DeliveryPartner.id i partners
    else has_id DeliveryPartner.id i (filter DeliveryPartner.isOnline partners).
Proof.
  assert (Hleft :
    has_id DeliveryPartner.id i
      (filter DeliveryPartner.isOnline
         (update_where_id DeliveryPartner.id (switched b) p partners)) = true
    <-> exists q, In q partners /\ DeliveryPartner.id q = i
          /\ (if i =? p then b else DeliveryPartner.isOnline q) = true).
  { unfold has_id, update_where_id. rewrite existsb_exists. split.
    - intros (q' & Hin & Hid). apply filter_In in Hin as [Hin Hon].
      apply in_map_iff in Hin as (q & <- & Hin). apply Z.eqb_eq in Hid.
      exists q. split; [exact Hin|].
      destruct (Z.eqb_spec (DeliveryPartner.id q) p) as [Hq|Hq]; cbn in Hid, Hon.
      + split; [exact Hid|]. rewrite <- Hid, Hq, Z.eqb_refl. exact Hon.
      + split; [exact Hid|]. rewrite <- Hid.
        destruct (Z.eqb_spec (DeliveryPartner.id q) p); [contradiction | exact Hon].
    - intros (q & Hin & Hid & Hon).
      exists (if DeliveryPartner.id q =? p then switched b q else q).
      rewrite filter_In, in_map_iff. rewrite <- Hid in Hon.
      destruct (Z.eqb_spec (DeliveryPartner.id q) p); cbn;
        (split; [split; [exists q; split; [|exact Hin] | exact Hon]
                | apply Z.eqb_eq; exact Hid]).
      + destruct (Z.eqb_spec (DeliveryPartner.id q) p); [reflexivity | contradiction].
      + destruct (Z.eqb_spec (DeliveryPartner.id q) p); [contradiction | reflexivity]. }
  apply eq_true_iff_eq. rewrite Hleft. unfold has_id.
  destruct (Z.eqb_spec i p) as [Hi|Hi].
  - rewrite andb_true_iff, existsb_exists. split.
    + intros (q & Hin & Hid & Hb). split; [exact Hb|].
      exists q. split; [exact Hin | apply Z.eqb_eq; exact Hid].
    + intros (Hb & q & Hin & Hid). exists q. apply Z.eqb_eq in Hid. auto.
  - rewrite existsb_exists. split.
    + intros (q & Hin & Hid & Hon). exists q.
      rewrite filter_In. split; [split; assumption | apply Z.eqb_eq; exact Hid].
    + intros (q & Hin & Hid). apply filter_In in Hin as [Hin Hon].
      apply Z.eqb_eq in Hid. exists q. auto.
Qed.

(** X13.  [PATCH /api/delivery-partners/status] from a delivery user
    with a partner profile answers 200 and switches that partner
    alone: afterwards the partner is among the available partners
    exactly when it exists and was switched on, every other partner
    is available exactly when it was before, and orders and samples
    are untouched. *)
Theorem online_switch_changes_one_partner
    (now : Z) (user : SessionUser) (p : Z) (isOnline : bool) (w : World) :
  su_role user = "delivery" -> su_deliveryPartnerId user = Some p -> p <> 0 ->
  exists w' available,
    patch_delivery_partner_status now user isOnline w
    = (Returned (respond 200 "Status updated"), w')
    /\ listing.getAvailableDeliveryPartners w' = (Returned available, w')
    /\ (forall i,
          has_id DeliveryPartner.id i available
          = if i =? p
            then isOnline && has_id DeliveryPartner.id i (deliveryPartners (db w))
            else has_id DeliveryPartner.id i
                   (filter DeliveryPartner.isOnline (deliveryPartners (db w))))
    /\ orders (db w') = orders (db w)
    /\ locationUpdates (db w') = locationUpdates (db w).
Proof.
  intros Hrole Hp Hnz.
  destruct (updateDeliveryPartnerStatus_run now p isOnline w) as [j Hrun].
  unfold patch_delivery_partner_status, requireRole. rewrite Hrole, Hp.
  cbn [existsb String.eqb Ascii.eqb Bool.eqb orb negb]. unfold if_truthy.
  destruct (Z.eqb_spec p 0); [contradiction|].
  unfold try_catch, bind. rewrite Hrun.
  eexists _, _. split; [reflexivity|]. split; [reflexivity|].
  cbn [db with_deliveryPartners deliveryPartners orders locationUpdates].
  split; [|split; reflexivity].
  intros i. apply available_after_switch.
Qed.

(** X14.  Going offline takes effect on assignment at once.  After a
    partner has switched itself off, every request to assign that
    partner, whoever sends it and whatever order it names, is refused
    and changes nothing.  After the partner has switched itself on, a
    request to assign it is answered 200 exactly when the sender is a
    vendor and the order exists and is the sender's. *)
Theorem offline_partner_is_not_assigned {host : TimeZone}
    (now : Z) (user : SessionUser) (p : Z) (isOnline : bool) (w : World)
    (later : Z) (vendor : SessionUser) (id : Z) :
  su_role user = "delivery" -> su_deliveryPartnerId user = Some p -> p <> 0 ->
  let w1 := snd (patch_delivery_partner_status now user isOnline w) in
  exists r w2,
    patch_order_assign later vendor id p w1 = (Returned r, w2)
    /\ (isOnline = false -> code r <> 200 /\ w2 = w1)
    /\ (isOnline = true ->
        has_id DeliveryPartner.id p (deliveryPartners (db w)) = true ->
        (code r = 200 <->
         requireRole ["vendor"] vendor = true
         /\ exists o, order_of w id = Some o
              /\ strict_eq (Some (Order.vendorId o)) (su_vendorId vendor) = true)).
Proof.
  intros Hrole Hp Hnz. cbv zeta.
  destruct (updateDeliveryPartnerStatus_run now p isOnline w) as [j Hrun].
  assert (Hw1 : snd (patch_delivery_partner_status now user isOnline w)
                = {| db := with_deliveryPartners (db w)
                             (update_where_id DeliveryPartner.id (switched isOnline) p
                                (deliveryPartners (db w)));
                     journal := j; outbox := outbox w |}).
  { unfold patch_delivery_partner_status, requireRole. rewrite Hrole, Hp.
    cbn [existsb String.eqb Ascii.eqb Bool.eqb orb negb]. unfold if_truthy.
    destruct (Z.eqb_spec p 0); [contradiction|].
    unfold try_catch, bind. rewrite Hrun. reflexivity. }
  rewrite Hw1. rewrite patch_order_assign_run.
  cbn [db with_deliveryPartners deliveryPartners].
  rewrite first_row_update by reflexivity.
  unfold order_of at 1. cbn [db with_deliveryPartners orders].
  fold (order_of w id).
  destruct (requireRole ["vendor"] vendor); cbn [negb].
  2: { eexists _, _. split; [reflexivity|]. cbn [code respond]. split; [intros _; split; [discriminate | reflexivity]|].
       intros _ _. split; [discriminate | intros [H _]; discriminate]. }
  destruct (order_of w id) as [o|].
  2: { eexists _, _. split; [reflexivity|]. cbn [code respond]. split; [intros _; split; [discriminate | reflexivity]|].
       intros _ _. split; [discriminate | intros [_ (o & H & _)]; discriminate]. }
  destruct (strict_eq (Some (Order.vendorId o)) (su_vendorId vendor)) eqn:Hown;
    cbn [negb].
  2: { eexists _, _. split; [reflexivity|]. cbn [code respond]. split; [intros _; split; [discriminate | reflexivity]|].
       intros _ _. split; [discriminate|].
       intros [_ (o' & [= <-] & H)]. congruence. }
  destruct (first_row (filter (eq_ DeliveryPartner.id p) (deliveryPartners (db w))))
    as [q|] eqn:Hq; cbn [option_map switched DeliveryPartner.isOnline].
  - destruct isOnline; cbn [negb]; eexists _, _; (split; [reflexivity|]); cbn [code respond].
    + split; [discriminate|]. intros _ _.
      split; [intros _; split; [reflexivity | exists o; auto] | reflexivity].
    + split; [intros _; split; [discriminate | reflexivity] | discriminate].
  - eexists _, _. split; [reflexivity|]. cbn [code respond].
    split; [intros _; split; [discriminate | reflexivity]|].
    intros _ Hhas. apply has_id_first_row in Hhas as [q Hq']. congruence.
Qed.

(** ** Recording positions *)

Lemma updateDeliveryPartnerLocation_run (now p : Z) (lat lon : Q) (w : World) :
  storage.updateDeliveryPartnerLocation now p lat lon w
  = match decimal 10 8 lat, decimal 11 8 lon with
    | Some lat', Some lon' =>
        (Returned tt,
         {| db := with_deliveryPartners (db w)
                    (update_where_id DeliveryPartner.id (positioned lat' lon' now) p
                       (deliveryPartners (db w)));
            journal := journal w
                       ++ [update_deliveryPartners
                             {| set_isOnline := None;
                                set_currentLatitude := Some lat;
                                set_currentLongitude := Some lon;
                                set_lastLocationUpdate := Some now |} p];
            outbox := outbox w |})
    | _, _ =>
        (Thrown "numeric field overflow",
         {| db := db w;
            journal := journal w
                       ++ [update_deliveryPartners
                             {| set_isOnline := None;
                                set_currentLatitude := Some lat;
                                set_currentLongitude := Some lon;
                                set_lastLocationUpdate := Some now |} p];
            outbox := outbox w |})
    end.
Proof.
  unfold storage.updateDeliveryPartnerLocation, bind, execute, ret.
  cbn [run_statement set_currentLatitude set_currentLongitude].
  destruct (decimal 10 8 lat); [destruct (decimal 11 8 lon)|]; reflexivity.
Qed.

Lemma createLocationUpdate_run (now : Z) (v : InsertLocationUpdate) (w : World) :
  exists j d,
    storage.createLocationUpdate now v w
       = match decimal 10 8 (il_latitude v), decimal 11 8 (il_longitude v) with
         | Some lat, Some lon =>
             if has_id DeliveryPartner.id (il_deliveryPartnerId v)
                  (deliveryPartners (db w))
                && references Order.id (il_orderId v) (orders (db w))
             then (Returned (new_locationUpdate (db w) now v lat lon),
                   {| db := {| users := users (db w); vendors := vendors (db w);
                               deliveryPartners := deliveryPartners (db w);
                               orders := orders (db w);
                               locationUpdates :=
                                 locationUpdates (db w)
                                 ++ [new_locationUpdate (db w) now v lat lon];
                               orders_id_seq := orders_id_seq (db w);
                               location_updates_id_seq :=
                                 location_updates_id_seq (db w) + 1 |};
                      journal := j; outbox := outbox w |})
             else (Thrown "violates foreign key constraint",
                   {| db := d; journal := j; outbox := outbox w |})
         | _, _ => (Thrown "numeric field overflow",
                    {| db := d; journal := j; outbox := outbox w |})
         end
    /\ users d = users (db w) /\ vendors d = vendors (db w)
    /\ deliveryPartners d = deliveryPartners (db w) /\ orders d = orders (db w)
    /\ locationUpdates d = locationUpdates (db w).
Proof.
  unfold storage.createLocationUpdate, bind, execute, ret, throw.
  cbn [run_statement].
  destruct (decimal 10 8 (il_latitude v)); [destruct (decimal 11 8 (il_longitude v))|];
    [destruct (has_id DeliveryPartner.id (il_deliveryPartnerId v)
                 (deliveryPartners (db w))
               && references Order.id (il_orderId v) (orders (db w)))|..];
    cbn [negb]; eexists _, _; (split; [reflexivity|]); repeat split.
Qed.

(** X15.  [updateDeliveryPartnerLocation] sets the position of one
    partner: the coordinates, rounded to the columns, and the clock
    reading go to the rows with the given key, whose online flag and
    user stay as they were; every other partner, every order and every
    sample is as before.  When a coordinate does not fit its column the
    call throws and the database is as before. *)
Theorem updateDeliveryPartnerLocation_writes_one_partner
    (now p : Z) (lat lon : Q) (w : World) :
  exists r w',
    storage.updateDeliveryPartnerLocation now p lat lon w = (r, w')
    /\ match r with
       | Returned _ =>
           exists lat' lon',
             decimal 10 8 lat = Some lat' /\ decimal 11 8 lon = Some lon'
             /\ db w' = with_deliveryPartners (db w) (deliveryPartners (db w'))
             /\ Forall2
                  (fun q q' =>
                     if DeliveryPartner.id q =? p
                     then q' = positioned lat' lon' now q
                     else q' = q)
                  (deliveryPartners (db w)) (deliveryPartners (db w'))
             /\ map DeliveryPartner.isOnline (deliveryPartners (db w'))
                = map DeliveryPartner.isOnline (deliveryPartners (db w))
       | Thrown _ =>
           db w' = db w /\ (decimal 10 8 lat = None \/ decimal 11 8 lon = None)
       end.
Proof.
  rewrite updateDeliveryPartnerLocation_run.
  destruct (decimal 10 8 lat) as [lat'|]; [destruct (decimal 11 8 lon) as [lon'|]|];
    eexists _, _; (split; [reflexivity|]); cbn [db]; auto.
  exists lat', lon'. repeat split.
  - apply update_where_id_Forall2.
    + intros q Hq. apply Z.eqb_eq in Hq. rewrite Hq. reflexivity.
    + intros q Hq. apply Z.eqb_neq in Hq. rewrite Hq. reflexivity.
  - cbn [with_deliveryPartners deliveryPartners]. unfold update_where_id.
    rewrite map_map. apply map_ext. intros q.
    destruct (DeliveryPartner.id q =? p); reflexivity.
Qed.

Lemma partner_of_user_has_id (userId : Z) (q : DeliveryPartner.t)
    (partners : list DeliveryPartner.t) :
  first_row (filter (eq_ DeliveryPartner.userId userId) partners) = Some q ->
  has_id DeliveryPartner.id (DeliveryPartner.id q) partners = true.
Proof.
  intros Hq. apply first_row_filter_id in Hq as [Hin _].
  apply existsb_exists. exists q. split; [exact Hin | apply Z.eqb_refl].
Qed.

(** The partner found for a user is found again after positions were
    written, with the same key. *)
Lemma partner_of_user_after_update (userId key : Z) (f : DeliveryPartner.t -> DeliveryPartner.t)
    (partners : list DeliveryPartner.t) :
  (forall q, DeliveryPartner.id (f q) = DeliveryPartner.id q) ->
  has_id DeliveryPartner.id key
    (update_where_id DeliveryPartner.id f key partners)
  = has_id DeliveryPartner.id key partners.
Proof. intros Hf. apply has_id_update. exact Hf. Qed.

(** X16.  A position is not recorded in one piece.  When a delivery
    user with a partner profile sends [location_update] with
    coordinates that fit and an order id that names no order, the
    partner's current position is overwritten with the coordinates,
    no sample is stored, and the sender is sent
    [location_update_error] and nothing else. *)
Theorem location_update_for_unknown_order_moves_the_partner
    (now sid : Z) (user : SessionUser) (data : LocationData) (w : World)
    (q : DeliveryPartner.t) (lat lon : Q) (o : Z) :
  first_row (filter (eq_ DeliveryPartner.userId (su_id user))
               (deliveryPartners (db w))) = Some q ->
  decimal 10 8 (ld_latitude data) = Some lat ->
  decimal 11 8 (ld_longitude data) = Some lon ->
  ld_orderId data = Some o ->
  has_id Order.id o (orders (db w)) = false ->
  exists w',
    on_location_update now sid user data w = (Returned tt, w')
    /\ locationUpdates (db w') = locationUpdates (db w)
    /\ orders (db w') = orders (db w)
    /\ deliveryPartners (db w')
       = update_where_id DeliveryPartner.id (positioned lat lon now)
           (DeliveryPartner.id q) (deliveryPartners (db w))
    /\ outbox w'
       = outbox w ++ [{| target := socket sid; event := "location_update_error";
                         payload := message "Failed to update location" |}].
Proof.
  intros Hq Hlat Hlon Ho Horder.
  unfold on_location_update, try_catch, bind at 1,
    storage.getDeliveryPartnerByUserId, query.
  rewrite Hq. unfold bind at 1.
  rewrite updateDeliveryPartnerLocation_run, Hlat, Hlon. unfold bind at 1.
  match goal with
  | |- context [storage.createLocationUpdate now ?v ?w1] =>
      destruct (createLocationUpdate_run now v w1)
        as (j & d & Hrun & _ & _ & Hpartners & Horders & Hsamples);
      rewrite Hrun
  end.
  cbn [il_latitude il_longitude il_deliveryPartnerId il_orderId db
       with_deliveryPartners deliveryPartners orders] in *.
  rewrite Hlat, Hlon, Ho. cbn [references]. rewrite Horder, andb_false_r.
  unfold emit. cbn [db outbox].
  eexists. split; [reflexivity|]. cbn [db outbox]. auto.
Qed.

(** X17.  A tagged position that is recorded is stored, projected and
    published.  When a delivery user with a partner profile sends
    [location_update] with coordinates that fit and the id of an
    existing order, one sample is appended for the partner with the
    rounded coordinates, the order id and the clock reading; the
    partner's current position is set to the same coordinates; and the
    outbox grows by [delivery_location_update] for the order's customer
    and for its vendor's user, carrying the coordinates as sent,
    followed by [location_update_success] for the sender. *)
Theorem location_update_is_stored_and_published
    (now sid : Z) (user : SessionUser) (data : LocationData) (w : World)
    (q : DeliveryPartner.t) (lat lon : Q) (o : Z) (order : Order.t) :
  first_row (filter (eq_ DeliveryPartner.userId (su_id user))
               (deliveryPartners (db w))) = Some q ->
  decimal 10 8 (ld_latitude data) = Some lat ->
  decimal 11 8 (ld_longitude data) = Some lon ->
  ld_orderId data = Some o -> o <> 0 ->
  order_of w o = Some order ->
  exists w',
    on_location_update now sid user data w = (Returned tt, w')
    /\ locationUpdates (db w')
       = locationUpdates (db w)
         ++ [LocationUpdate.mk (location_updates_id_seq (db w))
               (DeliveryPartner.id q) (Some o) lat lon now]
    /\ orders (db w') = orders (db w)
    /\ deliveryPartners (db w')
       = update_where_id DeliveryPartner.id (positioned lat lon now)
           (DeliveryPartner.id q) (deliveryPartners (db w))
    /\ outbox w'
       = outbox w
         ++ location_broadcasts (db w) order o (ld_latitude data)
              (ld_longitude data) now
         ++ [{| target := socket sid; event := "location_update_success";
                payload := no_payload |}].
Proof.
  intros Hq Hlat Hlon Ho Hnz Horder.
  assert (Hhas : has_id Order.id o (orders (db w)) = true)
    by (apply has_id_first_row; exists order; exact Horder).
  unfold on_location_update, try_catch, bind at 1,
    storage.getDeliveryPartnerByUserId, query.
  rewrite Hq. unfold bind at 1.
  rewrite updateDeliveryPartnerLocation_run, Hlat, Hlon. unfold bind at 1.
  match goal with
  | |- context [storage.createLocationUpdate now ?v ?w1] =>
      destruct (createLocationUpdate_run now v w1)
        as (j & d & Hrun & _ & _ & _ & _ & _);
      rewrite Hrun
  end.
  cbn [il_latitude il_longitude il_deliveryPartnerId il_orderId db
       with_deliveryPartners deliveryPartners orders].
  rewrite Hlat, Hlon, Ho. cbn [references].
  rewrite has_id_update by reflexivity.
  rewrite (partner_of_user_has_id _ _ _ Hq), Hhas. cbn [andb].
  unfold if_truthy. destruct (Z.eqb_spec o 0); [contradiction|].
  unfold bind, storage.getOrder, storage.getVendor, query, emit, ret.
  cbn [db orders vendors users outbox journal with_deliveryPartners
       deliveryPartners locationUpdates orders_id_seq location_updates_id_seq].
  unfold order_of in Horder. rewrite Horder.
  cbn [db orders vendors users outbox journal with_deliveryPartners
       deliveryPartners locationUpdates orders_id_seq location_updates_id_seq].
  unfold location_broadcasts.
  destruct (first_row (filter (eq_ Vendor.id (Order.vendorId order)) (vendors (db w))));
    cbn [db outbox journal app]; eexists; (split; [reflexivity|]);
    cbn [db outbox locationUpdates orders deliveryPartners new_locationUpdate
         il_deliveryPartnerId il_orderId with_deliveryPartners
         location_updates_id_seq];
    rewrite <- ?app_assoc; repeat split.
Qed.

(** X18.  A sample that [createLocationUpdate] stores at a clock
    reading later than the timestamps of the partner's stored samples
    is what [getLatestLocationForPartner] returns next; it carries the
    partner, the order id of the call and the reading. *)
Theorem recorded_sample_becomes_the_latest
    (now : Z) (v : InsertLocationUpdate) (w w' : World) (l : LocationUpdate.t) :
  storage.createLocationUpdate now v w = (Returned l, w') ->
  (forall l0, In l0 (locationUpdates (db w)) ->
     LocationUpdate.deliveryPartnerId l0 = il_deliveryPartnerId v ->
     LocationUpdate.timestamp l0 < now) ->
  storage.getLatestLocationForPartner (il_deliveryPartnerId v) w'
  = (Returned (Some l), w')
  /\ LocationUpdate.deliveryPartnerId l = il_deliveryPartnerId v
  /\ LocationUpdate.orderId l = il_orderId v
  /\ LocationUpdate.timestamp l = now.
Proof.
  intros Hrun Hearlier.
  destruct (createLocationUpdate_run now v w) as (j & d & Hcase & _).
  rewrite Hrun in Hcase.
  destruct (decimal 10 8 (il_latitude v)) as [lat|]; [|discriminate].
  destruct (decimal 11 8 (il_longitude v)) as [lon|]; [|discriminate].
  destruct (has_id DeliveryPartner.id (il_deliveryPartnerId v) (deliveryPartners (db w))
            && references Order.id (il_orderId v) (orders (db w)));
    [|discriminate].
  injection Hcase as -> ->. split; [|repeat split].
  unfold storage.getLatestLocationForPartner, query, limit. f_equal. f_equal.
  cbn [db locationUpdates]. rewrite filter_app. cbn [filter].
  unfold eq_ at 2. cbn [new_locationUpdate LocationUpdate.deliveryPartnerId].
  rewrite Z.eqb_refl.
  set (l := new_locationUpdate (db w) now v lat lon).
  set (earlier := filter (eq_ LocationUpdate.deliveryPartnerId (il_deliveryPartnerId v))
                    (locationUpdates (db w))).
  destruct (first_row (orderBy_desc LocationUpdate.timestamp (earlier ++ [l])))
    as [h|] eqn:Hh.
  - pose proof Hh as Hhead.
    apply first_row_greatest in Hh as [Hin Hmax].
    assert (h = l).
    { apply in_app_or in Hin as [Hin | [<- | []]]; [|reflexivity].
      apply filter_In in Hin as [Hin Hp]. unfold eq_ in Hp. apply Z.eqb_eq in Hp.
      specialize (Hearlier h Hin Hp).
      assert (Hl : In l (earlier ++ [l])) by (apply in_or_app; right; left; reflexivity).
      specialize (Hmax l Hl). cbn in Hmax. lia. }
    subst h. unfold first_row in *.
    destruct (orderBy_desc LocationUpdate.timestamp (earlier ++ [l])); [discriminate|].
    exact Hhead.
  - apply first_row_orderBy_none in Hh. destruct earlier; discriminate.
Qed.

(** ** Assignment, seen by the partner *)

(** X19.  An order assigned through [PATCH /api/orders/:id/assign]
    shows up in the partner's list: after a 200, the orders that
    [getOrdersByDeliveryPartner] returns for the partner include the
    order, with status [assigned]. *)
Theorem assigned_order_is_listed_for_the_partner {host : TimeZone}
    (now : Z) (vendor : SessionUser) (id p : Z) (w w' : World) (r : Response) :
  patch_order_assign now vendor id p w = (Returned r, w') ->
  code r = 200 ->
  exists listed o,
    listing.getOrdersByDeliveryPartner p w' = (Returned listed, w')
    /\ In o listed
    /\ Order.id o = id
    /\ Order.status o = "assigned"
    /\ Order.deliveryPartnerId o = Some p.
Proof.
  rewrite patch_order_assign_run. intros Hrun Hcode.
  destruct (negb (requireRole ["vendor"] vendor));
    [injection Hrun as <- _; discriminate|].
  destruct (order_of w id) as [o|] eqn:Ho; [|injection Hrun as <- _; discriminate].
  destruct (negb (strict_eq (Some (Order.vendorId o)) (su_vendorId vendor)));
    [injection Hrun as <- _; discriminate|].
  destruct (first_row (filter (eq_ DeliveryPartner.id p) (deliveryPartners (db w))))
    as [q|]; [|injection Hrun as <- _; discriminate].
  destruct (negb (DeliveryPartner.isOnline q));
    [injection Hrun as <- _; discriminate|].
  injection Hrun as _ <-.
  pose proof (order_of_assigned_world now id p w o Ho) as Hafter.
  apply first_row_filter_id in Hafter as [Hin Hid].
  eexists _, (set_order (assignment now p) o).
  split; [reflexivity|]. split; [|repeat split; exact Hid].
  apply (Permutation_in _ (Permutation_sym (orderBy_desc_perm _ _))).
  apply filter_In. split; [exact Hin|].
  unfold eq_nullable. cbn. apply Z.eqb_refl.
Qed.

(** ** The status timeline of the tracking page *)

(** X20.  Whatever the status of the order, the timeline has six
    entries, the first two completed, and completion never resumes
    once an entry is not completed: the completed entries are the
    first ones.  The last entry is completed exactly for a
    [delivered] order and then every entry is. *)
Theorem timeline_completes_in_order (order : Order.t) :
  let completed := map step_completed (getStatusTimeline order) in
  List.length completed = 6%nat
  /\ firstn 2 completed = [true; true]
  /\ (exists n, completed = repeat true n ++ repeat false (6 - n))
  /\ (nth 5 completed false = true <-> Order.status order = "delivered")
  /\ (Order.status order = "delivered" -> completed = repeat true 6).
Proof.
  cbv zeta. unfold getStatusTimeline, includes. cbn [map step_completed existsb].
  split; [reflexivity|]. split; [reflexivity|].
  destruct (String.eqb_spec (Order.status order) "delivered") as [Hd|Hd].
  - rewrite Hd. cbn. split; [exists 6%nat; reflexivity|].
    split; [split; reflexivity | reflexivity].
  - rewrite !orb_false_r. split.
    + destruct (String.eqb (Order.status order) "in_transit").
      * exists 5%nat. rewrite !orb_true_r. reflexivity.
      * destruct (String.eqb (Order.status order) "picked_up").
        -- exists 4%nat. rewrite !orb_true_r. reflexivity.
        -- destruct (String.eqb (Order.status order) "assigned").
           ++ exists 3%nat. reflexivity.
           ++ exists 2%nat. reflexivity.
    + split; [split; [discriminate | contradiction] | contradiction].
Qed.

(** ** The properties above in the marketplace *)

Lemma market_refs_ok (dora_online : bool) (partner : option Z) (status : string) :
  references DeliveryPartner.id partner
    (deliveryPartners (db (market dora_online []))) = true ->
  refs_ok (db (market dora_online [order1 partner status])).
Proof.
  intros Hpartner.
  constructor; cbn [db market orders locationUpdates]; repeat constructor.
  exact Hpartner.
Qed.

(** Vera reads her order 1 by its number. *)
Lemma by_number_serves_what_by_id_serves_witness :
  get_order_by_number vera_session "ORD-1700000000000"
    (market true [order1 None "pending"])
  = (Returned (sent_json (order1 None "pending")),
     market true [order1 None "pending"]).
Proof.
  destruct (by_number_serves_what_by_id_serves vera_session 1
              (order1 None "pending") (market true [order1 None "pending"])
              (market_wf true None "pending")) as [Hby_id _].
  apply Hby_id. reflexivity.
Defined.

(** Dan records a position that fits; a second one that does not fit
    is refused. *)
Lemma stored_samples_fit_their_columns_witness :
  Forall fits_columns
    (locationUpdates
       (db (perform_all
              [(1700000000005,
                call_createLocationUpdate
                  {| il_deliveryPartnerId := 1; il_latitude := 25 # 2;
                     il_longitude := 309 # 4; il_orderId := None |});
               (1700000000006,
                call_createLocationUpdate
                  {| il_deliveryPartnerId := 1; il_latitude := 200;
                     il_longitude := 309 # 4; il_orderId := None |})]
              (market true [])))).
Proof.
  apply stored_samples_fit_their_columns. constructor.
Defined.

(** Order 1 is assigned to Dan, who then records a position for it. *)
Lemma references_stay_valid_witness :
  refs_ok
    (db (perform_all
           [(1700000000005, call_assignDeliveryPartner 1 1);
            (1700000000006,
             call_createLocationUpdate
               {| il_deliveryPartnerId := 1; il_latitude := 25 # 2;
                  il_longitude := 309 # 4; il_orderId := Some 1 |})]
           (market true [order1 None "pending"]))).
Proof.
  apply references_stay_valid. apply market_refs_ok. reflexivity.
Defined.

(** Dan goes offline; Dora stays available. *)
Lemma online_switch_changes_one_partner_witness :
  exists w' available,
    patch_delivery_partner_status 1700000000005 dan_session false (market true [])
    = (Returned (respond 200 "Status updated"), w')
    /\ listing.getAvailableDeliveryPartners w' = (Returned available, w')
    /\ has_id DeliveryPartner.id 1 available = false
    /\ has_id DeliveryPartner.id 2 available = true.
Proof.
  destruct (online_switch_changes_one_partner 1700000000005 dan_session 1 false
              (market true []))
    as (w' & available & Hrun & Hlist & Havailable & _);
    [reflexivity | reflexivity | discriminate |].
  exists w', available. split; [exact Hrun|]. split; [exact Hlist|].
  split; rewrite Havailable; reflexivity.
Defined.

(** Dan goes offline; Vera's request to assign order 1 to him is then
    refused. *)
Lemma offline_partner_is_not_assigned_witness :
  let w1 := snd (patch_delivery_partner_status 1700000000005 dan_session false
                   (market true [order1 None "pending"])) in
  exists r,
    patch_order_assign 1700000000006 vera_session 1 1 w1 = (Returned r, w1)
    /\ code r <> 200.
Proof.
  cbv zeta.
  destruct (offline_partner_is_not_assigned 1700000000005 dan_session 1 false
              (market true [order1 None "pending"]) 1700000000006 vera_session 1)
    as (r & w2 & Hrun & Hoff & _);
    [reflexivity | reflexivity | discriminate |].
  destruct (Hoff eq_refl) as [Hcode Hsame].
  exists r. rewrite Hsame in Hrun. split; [exact Hrun | exact Hcode].
Defined.

(** Dan sends a position tagged with order 99, which does not exist. *)
Lemma location_update_for_unknown_order_moves_the_partner_witness :
  exists w',
    on_location_update 1700000000005 7 dan_session
      {| ld_latitude := 25 # 2; ld_longitude := 309 # 4; ld_orderId := Some 99 |}
      (market true [order1 (Some 1) "assigned"]) = (Returned tt, w')
    /\ locationUpdates (db w') = []
    /\ outbox w'
       = [{| target := socket 7; event := "location_update_error";
             payload := message "Failed to update location" |}].
Proof.
  edestruct (location_update_for_unknown_order_moves_the_partner 1700000000005 7
               dan_session
               {| ld_latitude := 25 # 2; ld_longitude := 309 # 4;
                  ld_orderId := Some 99 |}
               (market true [order1 (Some 1) "assigned"]))
    as (w' & Hrun & Hsamples & _ & _ & Hout);
    [reflexivity | reflexivity | reflexivity | reflexivity | reflexivity |].
  exists w'. split; [exact Hrun|]. split; [exact Hsamples | exact Hout].
Defined.

(** Dan sends a position tagged with order 1, which is assigned to
    him: Carl and Vera are told. *)
Lemma location_update_is_stored_and_published_witness :
  exists w',
    on_location_update 1700000000005 7 dan_session
      {| ld_latitude := 25 # 2; ld_longitude := 309 # 4; ld_orderId := Some 1 |}
      (market true [order1 (Some 1) "assigned"]) = (Returned tt, w')
    /\ List.length (locationUpdates (db w')) = 1%nat
    /\ map target (outbox w') = [to (user_ 2); to (user_ 1); socket 7].
Proof.
  edestruct (location_update_is_stored_and_published 1700000000005 7
               dan_session
               {| ld_latitude := 25 # 2; ld_longitude := 309 # 4;
                  ld_orderId := Some 1 |}
               (market true [order1 (Some 1) "assigned"]))
    as (w' & Hrun & Hsamples & _ & _ & Hout);
    [reflexivity | reflexivity | reflexivity | reflexivity | discriminate
    | reflexivity |].
  exists w'. split; [exact Hrun|]. split.
  - rewrite Hsamples. reflexivity.
  - rewrite Hout. reflexivity.
Defined.

(** Dan's second sample, a millisecond after his first, is his latest. *)
Lemma recorded_sample_becomes_the_latest_witness :
  let first :=
    {| il_deliveryPartnerId := 1; il_latitude := 25 # 2;
       il_longitude := 309 # 4; il_orderId := None |} in
  let second :=
    {| il_deliveryPartnerId := 1; il_latitude := 51 # 4;
       il_longitude := 309 # 4; il_orderId := None |} in
  let w := perform (market true []) (1700000000005, call_createLocationUpdate first) in
  exists l w',
    storage.createLocationUpdate 1700000000006 second w = (Returned l, w')
    /\ storage.getLatestLocationForPartner 1 w' = (Returned (Some l), w')
    /\ LocationUpdate.timestamp l = 1700000000006.
Proof.
  cbv zeta.
  edestruct (recorded_sample_becomes_the_latest 1700000000006
               {| il_deliveryPartnerId := 1; il_latitude := 51 # 4;
                  il_longitude := 309 # 4; il_orderId := None |}
               (perform (market true [])
                  (1700000000005,
                   call_createLocationUpdate
                     {| il_deliveryPartnerId := 1; il_latitude := 25 # 2;
                        il_longitude := 309 # 4; il_orderId := None |})))
    as (Hlatest & _ & _ & Hstamp).
  - reflexivity.
  - intros l0 Hin _. vm_compute in Hin. destruct Hin as [<- | []]. reflexivity.
  - eexists _, _. split; [reflexivity|]. split; [exact Hlatest | exact Hstamp].
Defined.

(** Vera assigns order 1 to Dan; Dan's list then holds it. *)
Lemma assigned_order_is_listed_for_the_partner_witness :
  exists r w' listed o,
    patch_order_assign 1700000000005 vera_session 1 1
      (market true [order1 None "pending"]) = (Returned r, w')
    /\ listing.getOrdersByDeliveryPartner 1 w' = (Returned listed, w')
    /\ In o listed
    /\ Order.id o = 1
    /\ Order.status o = "assigned".
Proof.
  edestruct (assigned_order_is_listed_for_the_partner 1700000000005 vera_session
               1 1 (market true [order1 None "pending"]))
    as (listed & o & Hlist & Hin & Hid & Hstatus & _);
    [reflexivity | reflexivity |].
  eexists _, _, listed, o. split; [reflexivity|].
  split; [exact Hlist|]. split; [exact Hin|]. split; [exact Hid | exact Hstatus].
Defined.

(** ** What the REST handlers publish *)

Lemma silent_ret {A} (a : A) : silent (ret a).
Proof. intros w. reflexivity. Qed.

Lemma silent_throw {A} (err : string) : silent (@throw A err).
Proof. intros w. reflexivity. Qed.

Lemma silent_query {A} (f : Db -> A) : silent (query f).
Proof. intros w. reflexivity. Qed.

Lemma silent_execute (now : Z) (s : Statement) : silent (execute now s).
Proof. intros w. unfold execute. destruct (run_statement now s (db w)). reflexivity. Qed.

Lemma silent_bind {A B} (m : M A) (k : A -> M B) :
  silent m -> (forall a, silent (k a)) -> silent (bind m k).
Proof.
  intros Hm Hk w. unfold bind. specialize (Hm w).
  destruct (m w) as [[a|e] w1]; cbn [snd] in *; [|exact Hm].
  rewrite (Hk a w1). exact Hm.
Qed.

Lemma silent_try_catch {A} (m : M A) (handler : string -> M A) :
  silent m -> (forall e, silent (handler e)) -> silent (try_catch m handler).
Proof.
  intros Hm Hh w. unfold try_catch. specialize (Hm w).
  destruct (m w) as [[a|e] w1]; cbn [snd] in *; [exact Hm|].
  rewrite (Hh e w1). exact Hm.
Qed.

(** Proves [silent] of a computation built from reads, writes, [ret]
    and [throw]. *)
Ltac silence :=
  repeat first
    [ apply silent_ret | apply silent_throw | apply silent_query
    | apply silent_execute | apply silent_try_catch | apply silent_bind
    | match goal with
      | |- forall _, _ => intro
      | |- silent (if ?b then _ else _) => destruct b
      | |- silent (match ?x with _ => _ end) => destruct x
      end ].

(** X21.  No REST handler publishes a socket event: whatever the
    request and whatever the answer, the outbox after a handler of
    [/api/orders], [/api/orders/:id], [/api/orders/by-number],
    [/api/orders/:id/status], [/api/orders/:id/assign],
    [/api/delivery-partners/status] or [/api/location/update] has run
    is the outbox before.  A status, an assignment or a position
    written over HTTP is pushed to no room. *)
Theorem rest_handlers_publish_nothing {host : TimeZone}
    (now : Z) (user : SessionUser) (id p : Z) (number status : string)
    (isOnline : bool) (order : InsertOrder) (position : LocationData) :
  silent (post_orders now user order)
  /\ silent (get_orders user)
  /\ silent (get_order user id)
  /\ silent (get_order_by_number user number)
  /\ silent (patch_order_status now user id status)
  /\ silent (patch_order_assign now user id p)
  /\ silent (patch_delivery_partner_status now user isOnline)
  /\ silent (post_location_update now user position).
Proof.
  repeat split.
  - unfold post_orders, storage.createOrder. cbv zeta. silence.
  - unfold get_orders, profile_as, listing.getOrdersByVendor,
      listing.getOrdersByCustomer, listing.getOrdersByDeliveryPartner, if_truthy.
    silence.
  - unfold get_order, storage.getOrder. silence.
  - unfold get_order_by_number, storage.getOrderByNumber. silence.
  - unfold patch_order_status, updateOrderStatusSchema, storage.getOrder,
      storage.updateOrderStatus. cbv zeta. silence.
  - unfold patch_order_assign, storage.getOrder, storage.getDeliveryPartner,
      storage.assignDeliveryPartner. cbv zeta. silence.
  - unfold patch_delivery_partner_status, storage.updateDeliveryPartnerStatus,
      if_truthy. silence.
  - unfold post_location_update, updateLocationSchema,
      storage.updateDeliveryPartnerLocation, storage.createLocationUpdate, if_truthy.
    silence.
Qed.

(** ** Recording positions over HTTP *)

(** A coordinate within [-k, k] fits a column with room for [k]. *)
Lemma decimal_accepts (precision : Z) (q : Q) (k : Z) :
  0 <= k -> k * 10 ^ 8 < 10 ^ precision ->
  (- inject_Z k <= q)%Q -> (q <= inject_Z k)%Q ->
  exists v, decimal precision 8 q = Some v.
Proof.
  intros Hk Hroom Hlo Hhi. unfold decimal.
  pose proof (round_half_away_bounds (q * inject_Z (10 ^ 8)) (k * 10 ^ 8)) as Hr.
  assert (H8 : (inject_Z (k * 10 ^ 8) == inject_Z k * inject_Z (10 ^ 8))%Q)
    by (rewrite inject_Z_mult; reflexivity).
  assert (Hpos : (0 < inject_Z (10 ^ 8))%Q) by reflexivity.
  destruct Hr as [Hr1 Hr2].
  - lia.
  - rewrite H8. setoid_replace (- (inject_Z k * inject_Z (10 ^ 8)))%Q
      with ((- inject_Z k) * inject_Z (10 ^ 8))%Q by ring.
    apply Qmult_le_compat_r; [exact Hlo | apply Qlt_le_weak; exact Hpos].
  - rewrite H8. apply Qmult_le_compat_r; [exact Hhi | apply Qlt_le_weak; exact Hpos].
  - cbv zeta.
    destruct (Z.ltb_spec (Z.abs (round_half_away (q * inject_Z (10 ^ 8))))
                (10 ^ precision)) as [_|Hbig]; [eexists; reflexivity|].
    lia.
Qed.

(** X22.  [POST /api/location/update], answer by answer.  It answers
    200 exactly when the sender is a delivery user with a truthy
    partner id, the body is in the ranges of [updateLocationSchema],
    the partner exists and the order id, if one is given, names an
    order.  With a 200 one sample is appended: it carries the sender's
    partner, the order id of the body, the clock reading, and
    coordinates in range.  With any other answer no sample is stored.
    Orders are never touched. *)
Theorem post_location_update_records_for_the_sender
    (now : Z) (user : SessionUser) (body : LocationData) (w : World) :
  exists r w',
    post_location_update now user body w = (Returned r, w')
    /\ orders (db w') = orders (db w)
    /\ (code r = 200 <->
        requireRole ["delivery"] user = true
        /\ location_in_range body = true
        /\ exists p, su_deliveryPartnerId user = Some p /\ p <> 0
             /\ has_id DeliveryPartner.id p (deliveryPartners (db w)) = true
             /\ references Order.id (ld_orderId body) (orders (db w)) = true)
    /\ (code r = 200 ->
        exists l,
          locationUpdates (db w') = locationUpdates (db w) ++ [l]
          /\ Some (LocationUpdate.deliveryPartnerId l) = su_deliveryPartnerId user
          /\ LocationUpdate.orderId l = ld_orderId body
          /\ LocationUpdate.timestamp l = now
          /\ in_range l)
    /\ (code r <> 200 -> locationUpdates (db w') = locationUpdates (db w)).
Proof.
  unfold post_location_update.
  destruct (requireRole ["delivery"] user);
    [|eexists _, w; cbn [negb]; split; [reflexivity|]; split; [reflexivity|];
      split; [split; [discriminate | intros [? _]; discriminate]|];
      split; [discriminate | reflexivity]].
  cbn [negb]. unfold try_catch, bind at 1, updateLocationSchema.
  fold (location_in_range body).
  destruct (location_in_range body) eqn:Hrange;
    [|eexists _, w; split; [reflexivity|]; split; [reflexivity|];
      split; [split; [discriminate | intros (_ & ? & _); discriminate]|];
      split; [discriminate | reflexivity]].
  cbn [ret]. unfold if_truthy.
  destruct (su_deliveryPartnerId user) as [p|];
    [|eexists _, w; split; [reflexivity|]; split; [reflexivity|];
      split; [split; [discriminate | intros (_ & _ & ? & ? & _); discriminate]|];
      split; [discriminate | reflexivity]].
  destruct (Z.eqb_spec p 0) as [Hzero|Hnz];
    [eexists _, w; split; [reflexivity|]; split; [reflexivity|];
     split; [split; [discriminate | intros (_ & _ & ? & [= <-] & ? & _); contradiction]|];
     split; [discriminate | reflexivity]|].
  pose proof Hrange as Hbounds. unfold location_in_range in Hbounds.
  apply andb_true_iff in Hbounds as [Hbounds H4].
  apply andb_true_iff in Hbounds as [Hbounds H3].
  apply andb_true_iff in Hbounds as [H1 H2].
  apply Qle_bool_iff in H1, H2, H3, H4.
  destruct (decimal_accepts 10 (ld_latitude body) 90) as [lat Hlat];
    [lia | reflexivity | exact H1 | exact H2 |].
  destruct (decimal_accepts 11 (ld_longitude body) 180) as [lon Hlon];
    [lia | reflexivity | exact H3 | exact H4 |].
  unfold bind at 1. rewrite updateDeliveryPartnerLocation_run, Hlat, Hlon.
  unfold bind at 1.
  match goal with
  | |- context [storage.createLocationUpdate now ?v ?w1] =>
      destruct (createLocationUpdate_run now v w1)
        as (j & d & Hrun & _ & _ & _ & Horders & Hsamples);
      rewrite Hrun
  end.
  cbn [il_latitude il_longitude il_deliveryPartnerId il_orderId db
       with_deliveryPartners deliveryPartners orders locationUpdates] in *.
  rewrite Hlat, Hlon, has_id_update by reflexivity.
  destruct (has_id DeliveryPartner.id p (deliveryPartners (db w))
            && references Order.id (ld_orderId body) (orders (db w))) eqn:Hrefs.
  - eexists _, _. split; [reflexivity|]. cbn [db orders locationUpdates code respond].
    split; [reflexivity|]. split.
    + split; [intros _|reflexivity].
      apply andb_true_iff in Hrefs as [Hp Ho].
      split; [reflexivity|]. split; [reflexivity|]. exists p. auto.
    + split; [|intros Hcode; contradiction Hcode; reflexivity].
      intros _. eexists. split; [reflexivity|].
      cbn [new_locationUpdate LocationUpdate.deliveryPartnerId LocationUpdate.orderId
           LocationUpdate.timestamp il_deliveryPartnerId il_orderId].
      split; [reflexivity|]. split; [reflexivity|]. split; [reflexivity|].
      destruct (decimal_bounds 10 _ _ 90 ltac:(lia) H1 H2 Hlat) as [? ?].
      destruct (decimal_bounds 11 _ _ 180 ltac:(lia) H3 H4 Hlon) as [? ?].
      repeat split; assumption.
  - eexists _, _. split; [reflexivity|]. cbn [db orders locationUpdates code respond].
    split; [exact Horders|]. split.
    + split; [discriminate|].
      intros (_ & _ & p' & [= <-] & _ & Hp & Ho).
      rewrite Hp, Ho in Hrefs. discriminate.
    + split; [discriminate|]. intros _. exact Hsamples.
Qed.
